(** * ShaderLoader: the multi-pass WebGL2 loading screen of shader-loader.js

    A shallow embedding of the [ShaderLoader] class: the WebGL2 calls it
    issues are modelled as transformers of an explicit context state
    ([WebGL.GL]), the class's fields as a record ([ShaderLoader]) that
    every method threads, and the browser objects it touches (window,
    document, timers) as the [Page] record.

    Numbers.  JavaScript numbers that hold times, opacities and lengths
    are idealised as real numbers ([R]); integer-valued ones (canvas
    dimensions, the frame counter) are [Z]; WebGL object handles are
    [nat].  The GLSL programs are opaque: what a draw call leaves in its
    target is recorded symbolically ([Shaded]) by the pass body that ran,
    the uniform values it saw and the contents of the textures it
    sampled. *)

From Stdlib Require Import Reals Lra ZArith Lia List.
From stdpp Require Import gmap strings.
Import ListNotations.

Local Open Scope Z_scope.

(** ** The WebGL2 context *)

(** The three pass bodies ([getBufferAShader], [getBufferBShader],
    [getImageShader]); every program shares the vertex stage and the
    common library. *)
Inductive Shader := BufferAShader | BufferBShader | ImageShader.

(** The uniform block every fragment unit declares in [compileProgram]. *)
Record Uniforms := mkUniforms {
  iTime : R;
  iResolution : Z * Z;
  iFrame : Z;
  iChannel0 : nat;
  iChannel1 : nat
}.

(** Contents of a colour buffer.  [Black w h] is what
    [texImage2D] leaves when given a zero-filled [Uint8Array];
    [Shaded] is the result of a full-viewport draw; [Over top r under]
    is [under] with the rectangle [(0,0)-r] replaced by [top]. *)
#[local] Unset Elimination Schemes.
Inductive Pixels :=
| Black (w h : Z)
| Shaded (body : Shader) (u : Uniforms) (channels : list (option Pixels)) (vp : Z * Z)
| Over (top : Pixels) (r : Z * Z) (under : Pixels).
#[local] Set Elimination Schemes.

Module WebGL.

Record Texture := mkTexture {
  tex_width : Z;
  tex_height : Z;
  tex_pixels : Pixels
}.

Record Program := mkProgram {
  prog_body : Shader;
  prog_samplers : nat;          (* how many of iChannel0, iChannel1 are declared *)
  prog_uniforms : Uniforms
}.

Inductive Target := FRAMEBUFFER | READ_FRAMEBUFFER | DRAW_FRAMEBUFFER.

(** Resource and render calls, in the order they were issued. *)
Inductive Event :=
| EvCreateTexture (t : nat)
| EvDeleteTexture (t : nat)
| EvCreateFramebuffer (f : nat)
| EvDeleteFramebuffer (f : nat)
| EvCreateProgram (p : nat)
| EvDeleteProgram (p : nat)
| EvCreateBuffer (b : nat)
| EvDeleteBuffer (b : nat)
| EvDraw (p : nat) (inputs : list (option nat)) (output : option nat)
         (vp : Z * Z) (u : Uniforms)
| EvBlit (src dst : option nat) (r : Z * Z).

Record GL := mkGL {
  next : nat;                              (* next fresh object name *)
  textures : gmap nat Texture;             (* live texture objects *)
  framebuffers : gmap nat (option nat);    (* live framebuffers, COLOR_ATTACHMENT0 *)
  programs : gmap nat Program;             (* live linked programs *)
  buffers : gset nat;                      (* live vertex buffers *)
  currentProgram : option nat;
  drawFramebuffer : option nat;            (* None is the canvas *)
  readFramebuffer : option nat;
  viewportSize : Z * Z;
  activeUnit : nat;
  units : gmap nat nat;                    (* TEXTURE_2D binding of each unit *)
  canvasPixels : Pixels;                   (* the default framebuffer *)
  log : list Event
}.

Definition fresh (w h : Z) : GL :=
  mkGL 1 ∅ ∅ ∅ ∅ None None None (w, h) 0 ∅ (Black w h) [].

Definition set_next n g :=
  mkGL n (textures g) (framebuffers g) (programs g) (buffers g) (currentProgram g)
       (drawFramebuffer g) (readFramebuffer g) (viewportSize g) (activeUnit g)
       (units g) (canvasPixels g) (log g).
Definition set_textures t g :=
  mkGL (next g) t (framebuffers g) (programs g) (buffers g) (currentProgram g)
       (drawFramebuffer g) (readFramebuffer g) (viewportSize g) (activeUnit g)
       (units g) (canvasPixels g) (log g).
Definition set_framebuffers f g :=
  mkGL (next g) (textures g) f (programs g) (buffers g) (currentProgram g)
       (drawFramebuffer g) (readFramebuffer g) (viewportSize g) (activeUnit g)
       (units g) (canvasPixels g) (log g).
Definition set_programs p g :=
  mkGL (next g) (textures g) (framebuffers g) p (buffers g) (currentProgram g)
       (drawFramebuffer g) (readFramebuffer g) (viewportSize g) (activeUnit g)
       (units g) (canvasPixels g) (log g).
Definition set_buffers b g :=
  mkGL (next g) (textures g) (framebuffers g) (programs g) b (currentProgram g)
       (drawFramebuffer g) (readFramebuffer g) (viewportSize g) (activeUnit g)
       (units g) (canvasPixels g) (log g).
Definition set_currentProgram p g :=
  mkGL (next g) (textures g) (framebuffers g) (programs g) (buffers g) p
       (drawFramebuffer g) (readFramebuffer g) (viewportSize g) (activeUnit g)
       (units g) (canvasPixels g) (log g).
Definition set_bound d r g :=
  mkGL (next g) (textures g) (framebuffers g) (programs g) (buffers g) (currentProgram g)
       d r (viewportSize g) (activeUnit g) (units g) (canvasPixels g) (log g).
Definition set_viewportSize v g :=
  mkGL (next g) (textures g) (framebuffers g) (programs g) (buffers g) (currentProgram g)
       (drawFramebuffer g) (readFramebuffer g) v (activeUnit g)
       (units g) (canvasPixels g) (log g).
Definition set_activeUnit a g :=
  mkGL (next g) (textures g) (framebuffers g) (programs g) (buffers g) (currentProgram g)
       (drawFramebuffer g) (readFramebuffer g) (viewportSize g) a
       (units g) (canvasPixels g) (log g).
Definition set_units u g :=
  mkGL (next g) (textures g) (framebuffers g) (programs g) (buffers g) (currentProgram g)
       (drawFramebuffer g) (readFramebuffer g) (viewportSize g) (activeUnit g)
       u (canvasPixels g) (log g).
Definition set_canvasPixels c g :=
  mkGL (next g) (textures g) (framebuffers g) (programs g) (buffers g) (currentProgram g)
       (drawFramebuffer g) (readFramebuffer g) (viewportSize g) (activeUnit g)
       (units g) c (log g).
Definition emit e g :=
  mkGL (next g) (textures g) (framebuffers g) (programs g) (buffers g) (currentProgram g)
       (drawFramebuffer g) (readFramebuffer g) (viewportSize g) (activeUnit g)
       (units g) (canvasPixels g) (log g ++ [e]).

(** *** Object creation and deletion *)

(** [gl.createTexture()]: a new texture object without an image. *)
Definition createTexture (g : GL) : nat * GL :=
  let t := next g in
  (t, emit (EvCreateTexture t)
        (set_textures (<[t := mkTexture 0 0 (Black 0 0)]> (textures g))
           (set_next (S t) g))).

(** [gl.deleteTexture(t)]; [null] and [undefined] are ignored. *)
Definition deleteTexture (t : option nat) (g : GL) : GL :=
  match t with
  | None => g
  | Some t => emit (EvDeleteTexture t) (set_textures (delete t (textures g)) g)
  end.

Definition createFramebuffer (g : GL) : nat * GL :=
  let f := next g in
  (f, emit (EvCreateFramebuffer f)
        (set_framebuffers (<[f := None]> (framebuffers g)) (set_next (S f) g))).

Definition deleteFramebuffer (f : option nat) (g : GL) : GL :=
  match f with
  | None => g
  | Some f => emit (EvDeleteFramebuffer f) (set_framebuffers (delete f (framebuffers g)) g)
  end.

(** [gl.createProgram()] followed by a successful [gl.linkProgram]:
    the program starts with every uniform at zero. *)
Definition createProgram (body : Shader) (samplers : nat) (g : GL) : nat * GL :=
  let p := next g in
  (p, emit (EvCreateProgram p)
        (set_programs
           (<[p := mkProgram body samplers (mkUniforms 0%R (0, 0) 0 0 0)]> (programs g))
           (set_next (S p) g))).

Definition deleteProgram (p : nat) (g : GL) : GL :=
  emit (EvDeleteProgram p) (set_programs (delete p (programs g)) g).

Definition createBuffer (g : GL) : nat * GL :=
  let b := next g in
  (b, emit (EvCreateBuffer b) (set_buffers ({[b]} ∪ buffers g) (set_next (S b) g))).

Definition deleteBuffer (b : nat) (g : GL) : GL :=
  emit (EvDeleteBuffer b) (set_buffers (buffers g ∖ {[b]}) g).

(** *** Bindings *)

Definition useProgram (p : nat) (g : GL) : GL := set_currentProgram (Some p) g.

Definition bindFramebuffer (target : Target) (f : option nat) (g : GL) : GL :=
  match target with
  | FRAMEBUFFER => set_bound f f g
  | READ_FRAMEBUFFER => set_bound (drawFramebuffer g) f g
  | DRAW_FRAMEBUFFER => set_bound f (readFramebuffer g) g
  end.

Definition viewport (w h : Z) (g : GL) : GL := set_viewportSize (w, h) g.

(** [gl.activeTexture(gl.TEXTURE0 + i)] *)
Definition activeTexture (i : nat) (g : GL) : GL := set_activeUnit i g.

(** [gl.bindTexture(gl.TEXTURE_2D, t)] on the active unit. *)
Definition bindTexture (t : option nat) (g : GL) : GL :=
  match t with
  | Some t => set_units (<[activeUnit g := t]> (units g)) g
  | None => set_units (delete (activeUnit g) (units g)) g
  end.

(** [gl.texImage2D(gl.TEXTURE_2D, 0, gl.RGBA, w, h, 0, ..., data)]:
    (re)defines the image of the texture bound to the active unit. *)
Definition texImage2D (w h : Z) (data : Pixels) (g : GL) : GL :=
  match units g !! activeUnit g with
  | Some t =>
      match textures g !! t with
      | Some _ => set_textures (<[t := mkTexture w h data]> (textures g)) g
      | None => g
      end
  | None => g
  end.

(** [gl.framebufferTexture2D(gl.FRAMEBUFFER, gl.COLOR_ATTACHMENT0, ...)] *)
Definition framebufferTexture2D (t : option nat) (g : GL) : GL :=
  match drawFramebuffer g with
  | Some f =>
      match framebuffers g !! f with
      | Some _ => set_framebuffers (<[f := t]> (framebuffers g)) g
      | None => g
      end
  | None => g
  end.

(** Uniform setters act on the program in use. *)
Definition set_uniforms (f : Uniforms → Uniforms) (g : GL) : GL :=
  match currentProgram g with
  | Some p =>
      match programs g !! p with
      | Some pr =>
          set_programs
            (<[p := mkProgram (prog_body pr) (prog_samplers pr) (f (prog_uniforms pr))]>
               (programs g)) g
      | None => g
      end
  | None => g
  end.

Definition uniform_iTime (t : R) : GL → GL :=
  set_uniforms (λ u, mkUniforms t (iResolution u) (iFrame u) (iChannel0 u) (iChannel1 u)).
Definition uniform_iResolution (w h : Z) : GL → GL :=
  set_uniforms (λ u, mkUniforms (iTime u) (w, h) (iFrame u) (iChannel0 u) (iChannel1 u)).
Definition uniform_iFrame (n : Z) : GL → GL :=
  set_uniforms (λ u, mkUniforms (iTime u) (iResolution u) n (iChannel0 u) (iChannel1 u)).
Definition uniform_iChannel (i : nat) (unit : nat) : GL → GL :=
  set_uniforms (λ u,
    match i with
    | O => mkUniforms (iTime u) (iResolution u) (iFrame u) unit (iChannel1 u)
    | _ => mkUniforms (iTime u) (iResolution u) (iFrame u) (iChannel0 u) unit
    end).

(** *** Drawing *)

(** The texture units the program in use samples, in sampler order. *)
Definition sampler_units (pr : Program) : list nat :=
  take (prog_samplers pr) [iChannel0 (prog_uniforms pr); iChannel1 (prog_uniforms pr)].

Definition pixels_of (g : GL) (t : option nat) : option Pixels :=
  tex_pixels <$> (t ≫= λ t, textures g !! t).

(** Writing [px] over the rectangle [(0,0)-r] of the colour buffer
    bound for drawing. *)
Definition write (px : Pixels) (r : Z * Z) (g : GL) : GL :=
  match drawFramebuffer g with
  | None => set_canvasPixels px g
  | Some f =>
      match framebuffers g !! f with
      | Some (Some t) =>
          match textures g !! t with
          | Some tx =>
              let px' :=
                if decide (r = (tex_width tx, tex_height tx)) then px
                else Over px r (tex_pixels tx) in
              set_textures
                (<[t := mkTexture (tex_width tx) (tex_height tx) px']> (textures g)) g
          | None => g
          end
      | _ => g
      end
  end.

(** [gl.drawArrays(gl.TRIANGLES, 0, 6)] with the full-screen quad of
    [createGeometry]: every pixel of the viewport is shaded by the
    program in use. *)
Definition drawArrays (g : GL) : GL :=
  match currentProgram g with
  | Some p =>
      match programs g !! p with
      | Some pr =>
          let inputs := (λ i, units g !! i) <$> sampler_units pr in
          let px := Shaded (prog_body pr) (prog_uniforms pr)
                           (pixels_of g <$> inputs) (viewportSize g) in
          emit (EvDraw p inputs (drawFramebuffer g) (viewportSize g) (prog_uniforms pr))
               (write px (viewportSize g) g)
      | None => g
      end
  | None => g
  end.

(** [gl.blitFramebuffer(0, 0, w, h, 0, 0, w, h, gl.COLOR_BUFFER_BIT, gl.LINEAR)] *)
Definition blitFramebuffer (w h : Z) (g : GL) : GL :=
  let src :=
    match readFramebuffer g with
    | None => Some (canvasPixels g)
    | Some f => pixels_of g (mjoin (framebuffers g !! f))
    end in
  match src with
  | Some px => emit (EvBlit (readFramebuffer g) (drawFramebuffer g) (w, h)) (write px (w, h) g)
  | None => g
  end.

End WebGL.

(** ** The page: window, document and timers *)

(** Callbacks handed to [setTimeout]. *)
Inductive Task := ShowLogo | StartTransition.

(** What the outside world observes at completion. *)
Inductive Signal :=
| CallOnComplete (cb : nat)            (* this.onComplete() *)
| DispatchEvent (name : string).       (* window.dispatchEvent(new CustomEvent(name)) *)

Record Page := mkPage {
  innerWidth : R;                      (* window.innerWidth *)
  innerHeight : R;
  shaderLoading : bool;                (* body carries the class shader-loading *)
  scrollLocked : bool;                 (* lockScroll / unlockScroll *)
  resizeListening : bool;              (* handleResize registered on resize events *)
  pulseStyle : bool;                   (* the fallback keyframes are in document.head *)
  timeouts : list (R * Task);          (* pending setTimeout calls, delay in ms *)
  animationFrame : bool;               (* loop is requested for the next refresh *)
  intervals : gset nat;                (* active setInterval timers *)
  nextTimer : nat;
  signals : list Signal
}.

Definition set_window w h p :=
  mkPage w h (shaderLoading p) (scrollLocked p) (resizeListening p) (pulseStyle p)
         (timeouts p) (animationFrame p) (intervals p) (nextTimer p) (signals p).
Definition set_shaderLoading b p :=
  mkPage (innerWidth p) (innerHeight p) b (scrollLocked p) (resizeListening p) (pulseStyle p)
         (timeouts p) (animationFrame p) (intervals p) (nextTimer p) (signals p).
Definition set_scrollLocked b p :=
  mkPage (innerWidth p) (innerHeight p) (shaderLoading p) b (resizeListening p) (pulseStyle p)
         (timeouts p) (animationFrame p) (intervals p) (nextTimer p) (signals p).
Definition set_resizeListening b p :=
  mkPage (innerWidth p) (innerHeight p) (shaderLoading p) (scrollLocked p) b (pulseStyle p)
         (timeouts p) (animationFrame p) (intervals p) (nextTimer p) (signals p).
Definition set_pulseStyle b p :=
  mkPage (innerWidth p) (innerHeight p) (shaderLoading p) (scrollLocked p) (resizeListening p) b
         (timeouts p) (animationFrame p) (intervals p) (nextTimer p) (signals p).
Definition set_timeouts t p :=
  mkPage (innerWidth p) (innerHeight p) (shaderLoading p) (scrollLocked p) (resizeListening p)
         (pulseStyle p) t (animationFrame p) (intervals p) (nextTimer p) (signals p).
Definition set_animationFrame b p :=
  mkPage (innerWidth p) (innerHeight p) (shaderLoading p) (scrollLocked p) (resizeListening p)
         (pulseStyle p) (timeouts p) b (intervals p) (nextTimer p) (signals p).
Definition set_intervals i n p :=
  mkPage (innerWidth p) (innerHeight p) (shaderLoading p) (scrollLocked p) (resizeListening p)
         (pulseStyle p) (timeouts p) (animationFrame p) i n (signals p).
Definition set_signals g p :=
  mkPage (innerWidth p) (innerHeight p) (shaderLoading p) (scrollLocked p) (resizeListening p)
         (pulseStyle p) (timeouts p) (animationFrame p) (intervals p) (nextTimer p) g.

(** window.setTimeout(task, delay) *)
Definition setTimeout (task : Task) (delay : R) (p : Page) : Page :=
  set_timeouts (timeouts p ++ [(delay, task)]) p.

(** window.setInterval(callback, 16): returns the new timer's id. *)
Definition setInterval (p : Page) : nat * Page :=
  (nextTimer p, set_intervals ({[nextTimer p]} ∪ intervals p) (S (nextTimer p)) p).

Definition clearInterval (i : nat) (p : Page) : Page :=
  set_intervals (intervals p ∖ {[i]}) (nextTimer p) p.

Definition requestAnimationFrame (p : Page) : Page := set_animationFrame true p.

(** ** The fields of a ShaderLoader *)

(** The canvas element: its pixel size, the opacity of its style, whether
    it is attached to the document, and whether the fallback pattern has
    been appended to it. *)
Record Canvas := mkCanvas {
  width : Z;
  height : Z;
  opacity : R;
  parentNode : bool;
  pattern : bool
}.

(** The logo overlay: the style properties [handleTransition] animates.
    [logo_offset] is the horizontal pixel offset inside the transform,
    [logo_scale] its scale factor, [logo_blur] the radius of the blur
    filter (0 when no filter is set). *)
Record Overlay := mkOverlay {
  logo_opacity : R;
  logo_offset : R;
  logo_scale : R;
  logo_blur : R;
  logo_parentNode : bool
}.

Record ShaderLoader := mkShaderLoader {
  canvas : option Canvas;
  gl : option WebGL.GL;
  programs : gmap string nat;          (* programInfo.program, by pass name *)
  framebuffers : gmap string nat;
  textures : gmap string nat;
  buffer : option nat;
  startTime : R;
  frameCount : Z;
  isRunning : bool;
  transitionStart : R;
  transitionDuration : R;
  onComplete : option nat;
  hasError : bool;
  logoOverlay : option Overlay;
  isTransitioning : bool;              (* read by handleResize, never assigned *)
  page : Page
}.

Definition set_canvas c s :=
  mkShaderLoader c (gl s) (programs s) (framebuffers s) (textures s) (buffer s) (startTime s)
    (frameCount s) (isRunning s) (transitionStart s) (transitionDuration s) (onComplete s)
    (hasError s) (logoOverlay s) (isTransitioning s) (page s).
Definition set_gl g s :=
  mkShaderLoader (canvas s) g (programs s) (framebuffers s) (textures s) (buffer s) (startTime s)
    (frameCount s) (isRunning s) (transitionStart s) (transitionDuration s) (onComplete s)
    (hasError s) (logoOverlay s) (isTransitioning s) (page s).
Definition set_programs p s :=
  mkShaderLoader (canvas s) (gl s) p (framebuffers s) (textures s) (buffer s) (startTime s)
    (frameCount s) (isRunning s) (transitionStart s) (transitionDuration s) (onComplete s)
    (hasError s) (logoOverlay s) (isTransitioning s) (page s).
Definition set_framebuffers f s :=
  mkShaderLoader (canvas s) (gl s) (programs s) f (textures s) (buffer s) (startTime s)
    (frameCount s) (isRunning s) (transitionStart s) (transitionDuration s) (onComplete s)
    (hasError s) (logoOverlay s) (isTransitioning s) (page s).
Definition set_textures t s :=
  mkShaderLoader (canvas s) (gl s) (programs s) (framebuffers s) t (buffer s) (startTime s)
    (frameCount s) (isRunning s) (transitionStart s) (transitionDuration s) (onComplete s)
    (hasError s) (logoOverlay s) (isTransitioning s) (page s).
Definition set_buffer b s :=
  mkShaderLoader (canvas s) (gl s) (programs s) (framebuffers s) (textures s) b (startTime s)
    (frameCount s) (isRunning s) (transitionStart s) (transitionDuration s) (onComplete s)
    (hasError s) (logoOverlay s) (isTransitioning s) (page s).
Definition set_frameCount n s :=
  mkShaderLoader (canvas s) (gl s) (programs s) (framebuffers s) (textures s) (buffer s)
    (startTime s) n (isRunning s) (transitionStart s) (transitionDuration s) (onComplete s)
    (hasError s) (logoOverlay s) (isTransitioning s) (page s).
Definition set_isRunning b s :=
  mkShaderLoader (canvas s) (gl s) (programs s) (framebuffers s) (textures s) (buffer s)
    (startTime s) (frameCount s) b (transitionStart s) (transitionDuration s) (onComplete s)
    (hasError s) (logoOverlay s) (isTransitioning s) (page s).
Definition set_onComplete cb s :=
  mkShaderLoader (canvas s) (gl s) (programs s) (framebuffers s) (textures s) (buffer s)
    (startTime s) (frameCount s) (isRunning s) (transitionStart s) (transitionDuration s) cb
    (hasError s) (logoOverlay s) (isTransitioning s) (page s).
Definition set_hasError b s :=
  mkShaderLoader (canvas s) (gl s) (programs s) (framebuffers s) (textures s) (buffer s)
    (startTime s) (frameCount s) (isRunning s) (transitionStart s) (transitionDuration s)
    (onComplete s) b (logoOverlay s) (isTransitioning s) (page s).
Definition set_logoOverlay l s :=
  mkShaderLoader (canvas s) (gl s) (programs s) (framebuffers s) (textures s) (buffer s)
    (startTime s) (frameCount s) (isRunning s) (transitionStart s) (transitionDuration s)
    (onComplete s) (hasError s) l (isTransitioning s) (page s).
Definition set_page p s :=
  mkShaderLoader (canvas s) (gl s) (programs s) (framebuffers s) (textures s) (buffer s)
    (startTime s) (frameCount s) (isRunning s) (transitionStart s) (transitionDuration s)
    (onComplete s) (hasError s) (logoOverlay s) (isTransitioning s) p.

(** ** Methods as state transformers that may throw *)

(** A method call either returns a value in a new state or throws (a
    [TypeError] on a null [this.gl], [this.canvas] or
    [this.logoOverlay]) in the state reached so far. *)
Inductive Completion (A : Type) :=
| Return (a : A) (s : ShaderLoader)
| Throw (s : ShaderLoader).
Arguments Return {A} a s.
Arguments Throw {A} s.

Definition Js (A : Type) : Type := ShaderLoader → Completion A.

Definition bind {A B} (m : Js A) (f : A → Js B) : Js B := λ s,
  match m s with
  | Return a s' => f a s'
  | Throw s' => Throw s'
  end.

Definition ret {A} (a : A) : Js A := λ s, Return a s.
Definition skip : Js unit := ret tt.

Declare Scope js_scope.
Delimit Scope js_scope with js.
Bind Scope js_scope with Js.
Notation "x <- m ; k" := (bind m (λ x, k))
  (at level 100, m at next level, k at level 200, right associativity) : js_scope.
Notation "m ;; k" := (bind m (λ _, k))
  (at level 100, k at level 200, right associativity) : js_scope.
Local Open Scope js_scope.

Definition get {A} (f : ShaderLoader → A) : Js A := λ s, Return (f s) s.
Definition modify (f : ShaderLoader → ShaderLoader) : Js unit := λ s, Return tt (f s).
Definition throw {A} : Js A := λ s, Throw s.

(** Dereferencing a field that may be null. *)
Definition deref {A} (f : ShaderLoader → option A) : Js A := λ s,
  match f s with
  | Some a => Return a s
  | None => Throw s
  end.

(** A call [gl.f(...)] through [this.gl]. *)
Definition gl_call {A} (f : WebGL.GL → A * WebGL.GL) : Js A :=
  g <- deref gl;
  modify (set_gl (Some (f g).2));;
  ret (f g).1.

Definition gl_do (f : WebGL.GL → WebGL.GL) : Js unit := gl_call (λ g, (tt, f g)).

(** [try { body } catch (e) { handler }] *)
Definition try_catch {A} (body handler : Js A) : Js A := λ s,
  match body s with
  | Return a s' => Return a s'
  | Throw s' => handler s'
  end.

(** ** ShaderLoader methods *)

Local Open Scope string_scope.

(** What [compileProgram] meets in the driver for one pass. *)
Inductive Outcome := Linked | VSError | FSError | LinkError.

(** [new ShaderLoader()] at clock reading [now] on page [p]. *)
Definition constructor (now : R) (p : Page) : ShaderLoader :=
  mkShaderLoader None None ∅ ∅ ∅ None now 0 true 5000%R 1500%R None false None false p.

Definition on_page (f : Page → Page) : Js unit := modify (λ s, set_page (f (page s)) s).

Definition lockScroll : Js unit := on_page (set_scrollLocked true).

Definition unlockScroll : Js unit := on_page (set_scrollLocked false).

(** Only the overwrite of the transform is modelled: the logo is put back
    at its centred position, without glitch offset or scale. *)
Definition updateLogoPosition : Js unit := λ s,
  match logoOverlay s with
  | None => Return tt s
  | Some l =>
      Return tt (set_logoOverlay
        (Some (mkOverlay (logo_opacity l) 0 1 (logo_blur l) (logo_parentNode l))) s)
  end.

Definition createCanvas : Js unit :=
  on_page (set_shaderLoading true);;
  lockScroll;;
  newWidth <- get (λ s, Zfloor (innerWidth (page s)));
  newHeight <- get (λ s, Zfloor (innerHeight (page s)));
  modify (set_canvas (Some (mkCanvas newWidth newHeight 0 true false)));;
  on_page (set_resizeListening true);;
  modify (set_logoOverlay (Some (mkOverlay 0 0 1 0 true)));;
  updateLogoPosition;;
  on_page (setTimeout ShowLogo 500).

Definition setupWebGL (webgl2 : bool) : Js bool :=
  c <- deref canvas;
  modify (set_gl (if webgl2 then Some (WebGL.fresh (width c) (height c)) else None));;
  g <- get gl;
  match g with
  | None => ret false
  | Some _ => ret true
  end.

Definition createTexture (name : string) (w h : Z) : Js nat :=
  tex <- gl_call WebGL.createTexture;
  gl_do (WebGL.bindTexture (Some tex));;
  (* blackData = new Uint8Array(w * h * 4) *)
  gl_do (WebGL.texImage2D w h (Black w h));;
  modify (λ s, set_textures (<[name := tex]> (textures s)) s);;
  ret tex.

Definition createFramebuffer (texture : option nat) : Js nat :=
  fb <- gl_call WebGL.createFramebuffer;
  gl_do (WebGL.bindFramebuffer WebGL.FRAMEBUFFER (Some fb));;
  gl_do (WebGL.framebufferTexture2D texture);;
  gl_do (WebGL.bindFramebuffer WebGL.FRAMEBUFFER None);;
  ret fb.

Definition createFramebuffers : Js unit :=
  c <- deref canvas;
  let w := width c in
  let h := height c in
  existing <- get (λ s, textures s !! "bufferA");
  (if existing is Some _ then
     t <- get textures;
     f <- get framebuffers;
     gl_do (WebGL.deleteTexture (t !! "bufferA"));;
     gl_do (WebGL.deleteTexture (t !! "bufferB"));;
     gl_do (WebGL.deleteTexture (t !! "bufferAPrev"));;
     gl_do (WebGL.deleteFramebuffer (f !! "bufferA"));;
     gl_do (WebGL.deleteFramebuffer (f !! "bufferB"));;
     gl_do (WebGL.deleteFramebuffer (f !! "bufferAPrev"))
   else skip);;
  createTexture "bufferA" w h;;
  createTexture "bufferB" (Z.max 1 (w / 3)) (Z.max 1 (h / 3));;
  createTexture "bufferAPrev" w h;;
  tA <- get (λ s, textures s !! "bufferA");
  fA <- createFramebuffer tA;
  modify (λ s, set_framebuffers (<["bufferA" := fA]> (framebuffers s)) s);;
  tB <- get (λ s, textures s !! "bufferB");
  fB <- createFramebuffer tB;
  modify (λ s, set_framebuffers (<["bufferB" := fB]> (framebuffers s)) s);;
  tP <- get (λ s, textures s !! "bufferAPrev");
  fP <- createFramebuffer tP;
  modify (λ s, set_framebuffers (<["bufferAPrev" := fP]> (framebuffers s)) s).

(** Assigning [canvas.width] and [canvas.height]; the browser then
    resets the drawing buffer of the canvas to the new size. *)
Definition resizeCanvas (w h : Z) : Js unit := λ s,
  match canvas s with
  | None => Throw s
  | Some c =>
      Return tt (set_gl (WebGL.set_canvasPixels (Black w h) <$> gl s)
                   (set_canvas (Some (mkCanvas w h (opacity c) (parentNode c) (pattern c))) s))
  end.

Definition handleResize : Js unit :=
  c <- get canvas;
  transitioning <- get isTransitioning;
  match c with
  | None => skip
  | Some c =>
      if transitioning then skip else
      newWidth <- get (λ s, Zfloor (innerWidth (page s)));
      newHeight <- get (λ s, Zfloor (innerHeight (page s)));
      if decide (width c = newWidth ∧ height c = newHeight) then skip else
      resizeCanvas newWidth newHeight;;
      updateLogoPosition;;
      g <- get gl;
      if g is Some _ then createFramebuffers else skip
  end.

(** [compileProgram(vsSource, commonSource, fsSource, channelNames)]:
    [null] on a compile or link error, the program otherwise.  A program
    object exists once compilation of both stages succeeded. *)
Definition compileProgram (body : Shader) (channelNames : list string)
    (result : Outcome) : Js (option nat) :=
  deref gl;;
  match result with
  | VSError | FSError => ret None
  | LinkError =>
      gl_call (WebGL.createProgram body (length channelNames));;
      ret None
  | Linked =>
      prog <- gl_call (WebGL.createProgram body (length channelNames));
      ret (Some prog)
  end.

Definition compileShaders (result : Shader → Outcome) : Js bool :=
  bufferAProg <- compileProgram BufferAShader ["iChannel0"] (result BufferAShader);
  bufferBProg <- compileProgram BufferBShader ["iChannel0"] (result BufferBShader);
  imageProg <- compileProgram ImageShader ["iChannel0"; "iChannel1"] (result ImageShader);
  match bufferAProg, bufferBProg, imageProg with
  | Some a, Some b, Some i =>
      modify (λ s, set_programs (<["bufferA" := a]> (programs s)) s);;
      modify (λ s, set_programs (<["bufferB" := b]> (programs s)) s);;
      modify (λ s, set_programs (<["image" := i]> (programs s)) s);;
      ret true
  | _, _, _ => ret false
  end.

Definition createGeometry : Js unit :=
  b <- gl_call WebGL.createBuffer;
  modify (set_buffer (Some b)).

(** [inputTextures.forEach((tex, i) => ...)], from index [i] on. *)
Fixpoint bindInputs (i : nat) (inputTextures : list (option nat)) : Js unit :=
  match inputTextures with
  | [] => skip
  | tex :: rest =>
      gl_do (WebGL.activeTexture i);;
      gl_do (WebGL.bindTexture tex);;
      gl_do (WebGL.uniform_iChannel i i);;
      bindInputs (S i) rest
  end.

(** [renderPass(programInfo, inputTextures, outputFB)]; [now] is what
    [performance.now()] returns inside this call. *)
Definition renderPass (programInfo : option nat) (inputTextures : list (option nat))
    (outputFB : option nat) (now : R) : Js unit :=
  match programInfo with
  | None => skip
  | Some prog =>
      gl_do (WebGL.useProgram prog);;
      gl_do (WebGL.bindFramebuffer WebGL.FRAMEBUFFER outputFB);;
      c <- deref canvas;
      fB <- get (λ s, framebuffers s !! "bufferB");
      (if outputFB is None then
         gl_do (WebGL.viewport (width c) (height c))
       else if decide (outputFB = fB) then
         gl_do (WebGL.viewport (Z.max 1 (width c / 3)) (Z.max 1 (height c / 3)))
       else
         gl_do (WebGL.viewport (width c) (height c)));;
      start <- get startTime;
      let time := ((now - start) / 1000)%R in
      gl_do (WebGL.uniform_iTime time);;
      gl_do (WebGL.uniform_iResolution (width c) (height c));;
      n <- get frameCount;
      gl_do (WebGL.uniform_iFrame n);;
      bindInputs 0 inputTextures;;
      gl_do WebGL.drawArrays
  end.

(** The [loop] closure of [startRenderLoop]; [t1], [t2], [t3] are the
    clock readings of the three [renderPass] calls. *)
Definition loop (t1 t2 t3 : R) : Js unit :=
  running <- get isRunning;
  if negb running then skip else
  pA <- get (λ s, programs s !! "bufferA");
  xP <- get (λ s, textures s !! "bufferAPrev");
  fA <- get (λ s, framebuffers s !! "bufferA");
  renderPass pA [xP] fA t1;;
  pB <- get (λ s, programs s !! "bufferB");
  xA <- get (λ s, textures s !! "bufferA");
  fB <- get (λ s, framebuffers s !! "bufferB");
  renderPass pB [xA] fB t2;;
  gl_do (WebGL.bindFramebuffer WebGL.FRAMEBUFFER None);;
  pI <- get (λ s, programs s !! "image");
  yB <- get (λ s, textures s !! "bufferB");
  yA <- get (λ s, textures s !! "bufferA");
  renderPass pI [yB; yA] None t3;;
  rA <- get (λ s, framebuffers s !! "bufferA");
  gl_do (WebGL.bindFramebuffer WebGL.READ_FRAMEBUFFER rA);;
  dP <- get (λ s, framebuffers s !! "bufferAPrev");
  gl_do (WebGL.bindFramebuffer WebGL.DRAW_FRAMEBUFFER dP);;
  c <- deref canvas;
  gl_do (WebGL.blitFramebuffer (width c) (height c));;
  modify (λ s, set_frameCount (frameCount s + 1) s);;
  on_page requestAnimationFrame.

Definition startRenderLoop : Js unit := on_page requestAnimationFrame.

(** Consecutive runs of [loop], one per triple of clock readings. *)
Fixpoint ticks (ts : list (R * R * R)) : Js unit :=
  match ts with
  | [] => skip
  | (t1, t2, t3) :: rest => loop t1 t2 t3;; ticks rest
  end.

(** The display refresh: runs [loop] if it was requested. *)
Definition animationFrameFired (t1 t2 t3 : R) : Js unit :=
  requested <- get (λ s, animationFrame (page s));
  if requested then on_page (set_animationFrame false);; loop t1 t2 t3 else skip.

Definition handleTransition (progress : R) : Js unit :=
  let bgFade := Rmin (progress / 0.6) 1 in
  c <- deref canvas;
  modify (set_canvas (Some (mkCanvas (width c) (height c) (1 - bgFade) (parentNode c) (pattern c))));;
  if Rlt_dec 0.4 progress then
    let logoFade := ((progress - 0.4) / 0.6)%R in
    let logoOpacity := (1 - logoFade)%R in
    let glitchOffset := (sin (logoFade * PI * 4) * logoFade * 10)%R in
    l <- deref logoOverlay;
    modify (set_logoOverlay
      (Some (mkOverlay logoOpacity glitchOffset (1 + logoFade * 0.2) (logoFade * 5)
               (logo_parentNode l))))
  else skip.

Definition complete : Js unit :=
  modify (set_isRunning false);;
  on_page (set_shaderLoading false);;
  unlockScroll;;
  on_page (set_resizeListening false);;
  (* clearTimeout(this.resizeTimeout): no such timer is ever set *)
  c <- get canvas;
  (if c is Some c then
     if parentNode c then
       modify (set_canvas (Some (mkCanvas (width c) (height c) (opacity c) false (pattern c))))
     else skip
   else skip);;
  l <- get logoOverlay;
  (if l is Some l then
     if logo_parentNode l then
       modify (set_logoOverlay
         (Some (mkOverlay (logo_opacity l) (logo_offset l) (logo_scale l) (logo_blur l) false)))
     else skip
   else skip);;
  (* this.skipButton is never created *)
  cb <- get onComplete;
  (if cb is Some cb then
     on_page (λ p, set_signals (signals p ++ [CallOnComplete cb]) p)
   else skip);;
  on_page (λ p, set_signals (signals p ++ [DispatchEvent "shaderLoaderComplete"]) p).

(** The callback [startTransition] hands to [setInterval]; [interval] is
    the timer it clears and [now] the reading of [performance.now()]. *)
Definition transitionTick (interval : nat) (now : R) : Js unit :=
  start <- get startTime;
  let elapsed := (now - start)%R in
  delay <- get transitionStart;
  duration <- get transitionDuration;
  let progress := Rmin ((elapsed - delay) / duration) 1 in
  (if Rle_dec 0 progress then handleTransition progress else skip);;
  if Rle_dec 1 progress then
    on_page (clearInterval interval);;
    complete
  else skip.

Definition startTransition : Js nat := λ s,
  let (interval, p) := setInterval (page s) in
  Return interval (set_page p s).

(** The 16 ms timer: the callback runs only while its timer is active. *)
Definition intervalFired (interval : nat) (now : R) : Js unit :=
  active <- get (λ s, intervals (page s));
  if decide (interval ∈ active) then transitionTick interval now else skip.

Definition fallbackToCSS : Js unit :=
  modify (set_hasError true);;
  c <- deref canvas;
  modify (set_canvas (Some (mkCanvas (width c) (height c) 1 (parentNode c) true)));;
  on_page (set_pulseStyle true);;
  delay <- get transitionStart;
  on_page (setTimeout StartTransition delay).

(** [Object.values(o).forEach(v => f(v))].  The values are visited in
    the key order of the map, where JavaScript visits them in the order
    the keys were first assigned; what is proved about [destroy] does
    not depend on the order. *)
Definition forEachValue (o : gmap string nat) (f : nat → WebGL.GL → WebGL.GL)
    (g : WebGL.GL) : WebGL.GL :=
  foldl (λ g v, f v g) g (map_to_list o).*2.

Definition destroy : Js unit :=
  modify (set_isRunning false);;
  g <- get gl;
  (if g is Some _ then
     ps <- get programs;
     gl_do (forEachValue ps WebGL.deleteProgram);;
     fs <- get framebuffers;
     gl_do (forEachValue fs (λ fb, WebGL.deleteFramebuffer (Some fb)));;
     ts <- get textures;
     gl_do (forEachValue ts (λ t, WebGL.deleteTexture (Some t)));;
     b <- get buffer;
     if b is Some b then gl_do (WebGL.deleteBuffer b) else skip
   else skip);;
  c <- get canvas;
  (if c is Some c then
     if parentNode c then
       modify (set_canvas (Some (mkCanvas (width c) (height c) (opacity c) false (pattern c))))
     else skip
   else skip);;
  l <- get logoOverlay;
  if l is Some l then
    if logo_parentNode l then
      modify (set_logoOverlay
        (Some (mkOverlay (logo_opacity l) (logo_offset l) (logo_scale l) (logo_blur l) false)))
    else skip
  else skip.

(** [init()] in a browser where [getContext('webgl2')] succeeds iff
    [webgl2] and the driver answers [result] for each pass. *)
Definition init (webgl2 : bool) (result : Shader → Outcome) : Js unit :=
  try_catch
    (createCanvas;;
     ok <- setupWebGL webgl2;
     if negb ok then fallbackToCSS else
     createFramebuffers;;
     compiled <- compileShaders result;
     if negb compiled then fallbackToCSS else
     createGeometry;;
     c <- deref canvas;
     modify (set_canvas (Some (mkCanvas (width c) (height c) 1 (parentNode c) (pattern c))));;
     startRenderLoop;;
     delay <- get transitionStart;
     on_page (setTimeout StartTransition delay))
    fallbackToCSS.

(** Running the callback of a pending timeout. *)
Definition runTask (task : Task) : Js unit :=
  match task with
  | ShowLogo =>
      l <- deref logoOverlay;
      modify (set_logoOverlay
        (Some (mkOverlay 1 (logo_offset l) (logo_scale l) (logo_blur l) (logo_parentNode l))))
  | StartTransition => startTransition;; skip
  end.

(** The state a method call ends in, whether it returned or threw. *)
Definition state_of {A} (c : Completion A) : ShaderLoader :=
  match c with
  | Return _ s => s
  | Throw s => s
  end.

Definition returned {A} (c : Completion A) : bool :=
  match c with
  | Return _ _ => true
  | Throw _ => false
  end.

(** A blank page with a [w] by [h] window. *)
Definition blankPage (w h : R) : Page :=
  mkPage w h false false false false [] false ∅ 0 [].

(** ** What the claims observe *)

(** The render target [name]: the texture stored under that name,
    provided the framebuffer stored under the same name is attached to
    it. *)
Definition target (s : ShaderLoader) (name : string) : option WebGL.Texture :=
  match gl s, textures s !! name, framebuffers s !! name with
  | Some g, Some t, Some f =>
      match WebGL.framebuffers g !! f with
      | Some a => if decide (a = Some t) then WebGL.textures g !! t else None
      | None => None
      end
  | _, _, _ => None
  end.

Definition target_size (s : ShaderLoader) (name : string) : option (Z * Z) :=
  (λ tx, (WebGL.tex_width tx, WebGL.tex_height tx)) <$> target s name.

Definition target_pixels (s : ShaderLoader) (name : string) : option Pixels :=
  WebGL.tex_pixels <$> target s name.

(** The WebGL calls issued so far. *)
Definition calls (s : ShaderLoader) : list WebGL.Event :=
  match gl s with
  | Some g => WebGL.log g
  | None => []
  end.

Definition is_delete (e : WebGL.Event) : bool :=
  match e with
  | WebGL.EvDeleteTexture _ | WebGL.EvDeleteFramebuffer _
  | WebGL.EvDeleteProgram _ | WebGL.EvDeleteBuffer _ => true
  | _ => false
  end.

Definition is_draw (e : WebGL.Event) : bool :=
  match e with
  | WebGL.EvDraw _ _ _ _ _ => true
  | _ => false
  end.

(** The uniform values each draw call of a log ran with. *)
Definition draw_uniforms (l : list WebGL.Event) : list Uniforms :=
  flat_map (λ e, match e with WebGL.EvDraw _ _ _ _ u => [u] | _ => [] end) l.

Definition count_callbacks (l : list Signal) : nat :=
  length (List.filter (λ e, match e with CallOnComplete _ => true | _ => false end) l).

Definition count_events (l : list Signal) : nat :=
  length (List.filter (λ e, match e with DispatchEvent _ => true | _ => false end) l).

(** The uniform values a [renderPass] at clock reading [t] sets, with
    [k] the value iChannel1 holds. *)
Definition passUniforms (s : ShaderLoader) (c : Canvas) (t : R) (k : nat) : Uniforms :=
  mkUniforms ((t - startTime s) / 1000) (width c, height c) (frameCount s) 0 k.

(** What is on the canvas. *)
Definition canvas_pixels (s : ShaderLoader) : option Pixels := WebGL.canvasPixels <$> gl s.

(** The calls a method added to the log, taking [s] to [s']. *)
Definition new_calls (s s' : ShaderLoader) : list WebGL.Event :=
  drop (length (calls s)) (calls s').

(** All draw calls saw the same elapsed time, frame index and
    resolution. *)
Definition same_frame_state (us : list Uniforms) : Prop :=
  ∀ u v, u ∈ us → v ∈ us →
    iTime u = iTime v ∧ iFrame u = iFrame v ∧ iResolution u = iResolution v.

(** The browser firing timer [i] at each clock reading of [ts] in turn;
    an exception in one callback does not keep the next from running. *)
Definition intervalTicks (i : nat) (ts : list R) (s : ShaderLoader) : ShaderLoader :=
  foldl (λ s t, state_of (intervalFired i t s)) s ts.

(** The two timeouts of [init] firing in the order of their delays, and
    then the transition timer firing at clock reading [t]. *)
Definition finish (t : R) : Js unit :=
  runTask ShowLogo;;
  i <- startTransition;
  intervalFired i t.

(** What [complete] signals to the outside. *)
Definition completionSignals (s : ShaderLoader) : list Signal :=
  (if onComplete s is Some cb then [CallOnComplete cb] else []) ++
  [DispatchEvent "shaderLoaderComplete"].

(** An element taken out of the document. *)
Definition detached (c : Canvas) : Canvas :=
  mkCanvas (width c) (height c) (opacity c) false (pattern c).

Definition detachedLogo (l : Overlay) : Overlay :=
  mkOverlay (logo_opacity l) (logo_offset l) (logo_scale l) (logo_blur l) false.

(** The loader [complete] leaves. *)
Definition completed (s : ShaderLoader) : ShaderLoader :=
  set_page
    (set_signals (signals (page s) ++ completionSignals s)
       (set_resizeListening false (set_scrollLocked false (set_shaderLoading false (page s)))))
    (set_logoOverlay (detachedLogo <$> logoOverlay s)
       (set_canvas (detached <$> canvas s) (set_isRunning false s))).

(** The object [{bufferA: a, bufferB: b, bufferAPrev: p}]. *)
Definition named (a b p : nat) : gmap string nat :=
  <["bufferAPrev" := p]> (<["bufferB" := b]> (<["bufferA" := a]> ∅)).

(** The targets a loader holds are either none yet (before the first
    [createFramebuffers]) or one complete generation of names the
    context has handed out. *)
Inductive Generation (s : ShaderLoader) (g : WebGL.GL) : Prop :=
| NoTargets :
    textures s = ∅ → framebuffers s = ∅ → Generation s g
| Targets (tA tB tP fA fB fP : nat) :
    textures s = named tA tB tP →
    framebuffers s = named fA fB fP →
    Forall (λ x, x < WebGL.next g)%nat [tA; tB; tP; fA; fB; fP] →
    Generation s g.

(** The pipeline as [init] leaves it on the WebGL path, and as every
    tick and every resize keeps it: three programs, three targets of the
    right sizes, each behind its own framebuffer. *)
Record Ready (s : ShaderLoader) (c : Canvas) (g : WebGL.GL)
    (tA tB tP fA fB fP pA pB pI : nat) : Prop := {
  ready_canvas : canvas s = Some c;
  ready_gl : gl s = Some g;
  ready_tA : textures s !! "bufferA" = Some tA;
  ready_tB : textures s !! "bufferB" = Some tB;
  ready_tP : textures s !! "bufferAPrev" = Some tP;
  ready_fA : framebuffers s !! "bufferA" = Some fA;
  ready_fB : framebuffers s !! "bufferB" = Some fB;
  ready_fP : framebuffers s !! "bufferAPrev" = Some fP;
  ready_pA : programs s !! "bufferA" = Some pA;
  ready_pB : programs s !! "bufferB" = Some pB;
  ready_pI : programs s !! "image" = Some pI;
  ready_xA : ∃ x, WebGL.textures g !! tA = Some (WebGL.mkTexture (width c) (height c) x);
  ready_xB : ∃ x, WebGL.textures g !! tB =
               Some (WebGL.mkTexture (Z.max 1 (width c / 3)) (Z.max 1 (height c / 3)) x);
  ready_xP : ∃ x, WebGL.textures g !! tP = Some (WebGL.mkTexture (width c) (height c) x);
  ready_aA : WebGL.framebuffers g !! fA = Some (Some tA);
  ready_aB : WebGL.framebuffers g !! fB = Some (Some tB);
  ready_aP : WebGL.framebuffers g !! fP = Some (Some tP);
  ready_uA : ∃ u, WebGL.programs g !! pA = Some (WebGL.mkProgram BufferAShader 1 u);
  ready_uB : ∃ u, WebGL.programs g !! pB = Some (WebGL.mkProgram BufferBShader 1 u);
  ready_uI : ∃ u, WebGL.programs g !! pI = Some (WebGL.mkProgram ImageShader 2 u);
  ready_tAB : tA ≠ tB;
  ready_tAP : tA ≠ tP;
  ready_tBP : tB ≠ tP;
  ready_fAB : fA ≠ fB;
  ready_fBP : fB ≠ fP;
  ready_pAB : pA ≠ pB;
  ready_pAI : pA ≠ pI;
  ready_pBI : pB ≠ pI
}.

(** *** The WebGL calls of one method, composed *)

Module Calls.
Import WebGL.

(** [createTexture(name, w, h)] on the context. *)
Definition newTexture (w h : Z) (g : GL) : GL :=
  texImage2D w h (Black w h)
    (bindTexture (Some (WebGL.createTexture g).1) (WebGL.createTexture g).2).

(** [createFramebuffer(texture)] on the context. *)
Definition newFramebuffer (texture : option nat) (g : GL) : GL :=
  bindFramebuffer FRAMEBUFFER None
    (framebufferTexture2D texture
       (bindFramebuffer FRAMEBUFFER (Some (WebGL.createFramebuffer g).1)
          (WebGL.createFramebuffer g).2)).

(** The deletions at the head of [createFramebuffers]. *)
Definition release (ts fs : gmap string nat) (g : GL) : GL :=
  match ts !! "bufferA" with
  | Some _ =>
      deleteFramebuffer (fs !! "bufferAPrev")
        (deleteFramebuffer (fs !! "bufferB")
           (deleteFramebuffer (fs !! "bufferA")
              (deleteTexture (ts !! "bufferAPrev")
                 (deleteTexture (ts !! "bufferB")
                    (deleteTexture (ts !! "bufferA") g)))))
  | None => g
  end.

(** The allocations that follow. *)
Definition allocate (w h : Z) (g : GL) : GL :=
  let n := next g in
  newFramebuffer (Some (S (S n)))
    (newFramebuffer (Some (S n))
       (newFramebuffer (Some n)
          (newTexture w h
             (newTexture (Z.max 1 (w / 3)) (Z.max 1 (h / 3))
                (newTexture w h g))))).

Fixpoint bindInputs (i : nat) (inputTextures : list (option nat)) (g : GL) : GL :=
  match inputTextures with
  | [] => g
  | tex :: rest =>
      bindInputs (S i) rest (uniform_iChannel i i (bindTexture tex (activeTexture i g)))
  end.

(** One [renderPass] with a compiled program. *)
Definition renderPass (prog : nat) (inputTextures : list (option nat))
    (outputFB : option nat) (vp : Z * Z) (time : R) (res : Z * Z) (n : Z) (g : GL) : GL :=
  drawArrays
    (bindInputs 0 inputTextures
       (uniform_iFrame n
          (uniform_iResolution res.1 res.2
             (uniform_iTime time
                (viewport vp.1 vp.2
                   (bindFramebuffer FRAMEBUFFER outputFB (useProgram prog g))))))).

(** The feedback copy at the end of a tick. *)
Definition feedback (src dst : option nat) (w h : Z) (g : GL) : GL :=
  blitFramebuffer w h
    (bindFramebuffer DRAW_FRAMEBUFFER dst (bindFramebuffer READ_FRAMEBUFFER src g)).

(** The calls of one tick of [loop] with all three programs compiled. *)
Definition tick (pA pB pI tA tB tP fA fB fP : nat) (w h : Z) (start t1 t2 t3 : R) (n : Z)
    (g : GL) : GL :=
  let full := (w, h) in
  let third := (Z.max 1 (w / 3), Z.max 1 (h / 3)) in
  feedback (Some fA) (Some fP) w h
    (renderPass pI [Some tB; Some tA] None full ((t3 - start) / 1000) full n
       (bindFramebuffer FRAMEBUFFER None
          (renderPass pB [Some tA] (Some fB) third ((t2 - start) / 1000) full n
             (renderPass pA [Some tP] (Some fA) full ((t1 - start) / 1000) full n g)))).

End Calls.

(** The viewport [renderPass] selects for an output framebuffer. *)
Definition viewportFor (s : ShaderLoader) (c : Canvas) (outputFB : option nat) : Z * Z :=
  if outputFB is None then (width c, height c)
  else if decide (outputFB = framebuffers s !! "bufferB")
       then (Z.max 1 (width c / 3), Z.max 1 (height c / 3))
       else (width c, height c).

(** ** The browser driving a running loader *)

(** What the browser delivers while the loading screen is up: a display
    refresh ([t1], [t2], [t3] are the clock readings of the three
    passes), or a change of the window to [W] by [H] followed by a
    resize event. *)
Inductive Delivery :=
| Refresh (t1 t2 t3 : R)
| Resized (W H : R).

(** The resize event reaches [handleResize] between the
    [addEventListener] of [createCanvas] and the [removeEventListener]
    of [complete]. *)
Definition resizeEvent (W H : R) : Js unit :=
  on_page (set_window W H);;
  listening <- get (λ s, resizeListening (page s));
  if listening then handleResize else skip.

Definition deliver (d : Delivery) : Js unit :=
  match d with
  | Refresh t1 t2 t3 => animationFrameFired t1 t2 t3
  | Resized W H => resizeEvent W H
  end.

Fixpoint deliverAll (ds : list Delivery) : Js unit :=
  match ds with
  | [] => skip
  | d :: rest => deliver d;; deliverAll rest
  end.

Definition refreshes (ds : list Delivery) : nat :=
  length (List.filter (λ d, match d with Refresh _ _ _ => true | _ => false end) ds).

(** The frame indices of the draw calls of [k] consecutive ticks, the
    first of them at index [n]: three draws per tick. *)
Fixpoint frameIndices (n : Z) (k : nat) : list Z :=
  match k with
  | O => []
  | S k => n :: n :: n :: frameIndices (n + 1) k
  end.

(** The logo as [updateLogoPosition] leaves it. *)
Definition centred (l : Overlay) : Overlay :=
  mkOverlay (logo_opacity l) 0 1 (logo_blur l) (logo_parentNode l).

(** A ready pipeline that is running with its next tick requested, and
    whose context holds no texture, framebuffer or program besides the
    ones the loader has stored. *)
Record Steady (s : ShaderLoader) (c : Canvas) (g : WebGL.GL)
    (tA tB tP fA fB fP pA pB pI : nat) : Prop := {
  steady_ready : Ready s c g tA tB tP fA fB fP pA pB pI;
  steady_running : isRunning s = true;
  steady_requested : animationFrame (page s) = true;
  steady_transitioning : isTransitioning s = false;
  steady_textures : dom (WebGL.textures g) = {[tA; tB; tP]};
  steady_framebuffers : dom (WebGL.framebuffers g) = {[fA; fB; fP]};
  steady_programs : dom (WebGL.programs g) = {[pA; pB; pI]};
  steady_fAP : fA ≠ fP;
  steady_fresh : Forall (λ x, (x < WebGL.next g)%nat) [tA; tB; tP; fA; fB; fP]
}.

(** What the deletions at the head of [createFramebuffers] leave alone. *)
Definition released (g g' : WebGL.GL) : Prop :=
  WebGL.next g' = WebGL.next g ∧
  WebGL.programs g' = WebGL.programs g ∧
  WebGL.buffers g' = WebGL.buffers g ∧
  WebGL.canvasPixels g' = WebGL.canvasPixels g ∧
  ∃ dels, WebGL.log g' = (WebGL.log g ++ dels)%list ∧ Forall (λ e, is_delete e = true) dels.

(** The context after the deletions of [destroy]. *)
Definition destroyed (s : ShaderLoader) (g : WebGL.GL) : WebGL.GL :=
  let g1 := forEachValue (programs s) WebGL.deleteProgram g in
  let g2 := forEachValue (framebuffers s) (λ fb, WebGL.deleteFramebuffer (Some fb)) g1 in
  let g3 := forEachValue (textures s) (λ t, WebGL.deleteTexture (Some t)) g2 in
  if buffer s is Some b then WebGL.deleteBuffer b g3 else g3.

(** The values of a JS object used as a map. *)
Definition values (o : gmap string nat) : list nat := (map_to_list o).*2.

(** Whether [compileProgram] gets as far as [gl.createProgram()]. *)
Definition reachesLink (r : Outcome) : bool :=
  match r with
  | Linked | LinkError => true
  | VSError | FSError => false
  end.

(** The context after [compileProgram] has met [r]. *)
Definition attempt (body : Shader) (samplers : nat) (r : Outcome) (g : WebGL.GL) : WebGL.GL :=
  if reachesLink r then (WebGL.createProgram body samplers g).2 else g.

Definition passes : list Shader := [BufferAShader; BufferBShader; ImageShader].

(** ** The scroll lock in detail *)

(** [lockScroll], [unlockScroll] and [preventScroll] on the inline
    styles and listeners they touch, behind the [scrollLocked] flag of
    the page. *)
Module Scroll.

(** An inline style value: the empty string, a keyword, or the offset
    the template [`-${y}px`] writes. *)
Inductive Css := Unset | Keyword (k : string) | MinusPx (y : R).

Record Document := mkDocument {
  body_overflow : Css;
  body_touchAction : Css;
  html_overflow : Css;
  body_position : Css;
  body_top : Css;
  body_width : Css;
  touchmove : bool;                    (* boundPreventScroll listens to touchmove *)
  wheel : bool;                        (* boundPreventScroll listens to wheel *)
  scrolledTo : list R                  (* the calls window.scrollTo(0, y), in order *)
}.

(** [this.scrollY] and the document. *)
Record State := mkState {
  scrollY : R;
  document : Document
}.

(** [x || y] on a number that may be undefined: 0 and undefined are
    falsy. *)
Definition or_else (x : option R) (y : R) : R :=
  match x with
  | Some v => if Req_dec_T v 0 then y else v
  | None => y
  end.

(** [lockScroll()] when the window reports [window_scrollY] and
    [window_pageYOffset]. *)
Definition lockScroll (window_scrollY window_pageYOffset : option R) (st : State) : State :=
  let y := or_else window_scrollY (or_else window_pageYOffset 0) in
  mkState y
    (mkDocument (Keyword "hidden") (Keyword "none") (Keyword "hidden")
       (Keyword "fixed") (MinusPx y) (Keyword "100%") true true
       (scrolledTo (document st))).

Definition unlockScroll (st : State) : State :=
  mkState (scrollY st)
    (mkDocument Unset Unset Unset Unset Unset Unset false false
       (if Req_dec_T (scrollY st) 0 then scrolledTo (document st)
        else scrolledTo (document st) ++ [scrollY st])).

(** [preventScroll(event)]: whether [event.preventDefault()] is
    called. *)
Definition preventScroll (isRunning : bool) : bool :=
  if negb isRunning then false else true.

(** Whether the default action of a touchmove or wheel event is
    prevented: the bound [preventScroll] must be registered for it. *)
Definition prevented (registered isRunning : bool) : bool :=
  if registered then preventScroll isRunning else false.

(** The styles and listeners of a document, without its scroll log. *)
Definition styles (d : Document) : Css * Css * Css * Css * Css * Css * bool * bool :=
  (body_overflow d, body_touchAction d, html_overflow d, body_position d, body_top d,
   body_width d, touchmove d, wheel d).

Definition unstyled : Css * Css * Css * Css * Css * Css * bool * bool :=
  (Unset, Unset, Unset, Unset, Unset, Unset, false, false).

End Scroll.

(** ** Sample loaders *)

(** The loader once [createCanvas] and [setupWebGL] have run in a [w] by
    [h] window where WebGL2 is available, constructed at clock reading 0. *)
Definition booted (w h : Z) : ShaderLoader :=
  mkShaderLoader (Some (mkCanvas w h 0 true false)) (Some (WebGL.fresh w h)) ∅ ∅ ∅ None
    0%R 0 true 5000%R 1500%R None false (Some (mkOverlay 0 0 1 0 true)) false
    (mkPage (IZR w) (IZR h) true true true false [(500%R, ShowLogo)] false ∅ 0 []).

(** The rest of [init] on the WebGL path with every pass linking. *)
Definition pipeline : Js unit :=
  createFramebuffers;;
  compileShaders (λ _, Linked);;
  createGeometry;;
  c <- deref canvas;
  modify (set_canvas (Some (mkCanvas (width c) (height c) 1 (parentNode c) (pattern c))));;
  startRenderLoop;;
  delay <- get transitionStart;
  on_page (setTimeout StartTransition delay).

(** A loader constructed at clock reading [now] in a [W] by [H] window,
    with [cb] in its completion slot. *)
Definition loader (now W H : R) (cb : option nat) : ShaderLoader :=
  set_onComplete cb (constructor now (blankPage W H)).

(** The loader after [init] on the WebGL path and one tick of [loop]. *)
Definition first_tick (now W H t1 t2 t3 : R) : ShaderLoader :=
  state_of (loop t1 t2 t3 (state_of (init true (λ _, Linked) (loader now W H None)))).

(** A running 4 by 3 pipeline before its first tick. *)
Definition tiny : ShaderLoader := state_of (pipeline (booted 4 3)).

Definition tiny_gl : WebGL.GL := default (WebGL.fresh 4 3) (gl tiny).

(** The same pipeline once the logo has been shown (the 500 ms timeout
    of [createCanvas] has fired). *)
Definition shown : ShaderLoader := state_of (runTask ShowLogo tiny).

(** The same pipeline with a callback in its completion slot. *)
Definition armed : ShaderLoader := set_onComplete (Some 7%nat) shown.

(** The same pipeline once stopped. *)
Definition halted : ShaderLoader := set_isRunning false tiny.

(** The same pipeline once [startTransition] has started its timer. *)
Definition ticking : ShaderLoader := state_of (startTransition armed).

(** The same pipeline where [handleResize] calls [createFramebuffers]
    after the window has become 800 by 600: the canvas has its new size
    already, the targets are still the generation built for 4 by 3. *)
Definition resizing : ShaderLoader :=
  set_canvas (Some (mkCanvas 800 600 1 true false)) tiny.

(** The same pipeline after [destroy]. *)
Definition torn_down : ShaderLoader := state_of (destroy tiny).

(** * Running methods *)

(** ** Laws of sequencing *)

Section Sequencing.
Context {A B : Type}.
Implicit Types (s : ShaderLoader) (k : A → Js B).

Lemma bind_assoc {C} (m : Js C) (h : C → Js A) k s :
  bind (bind m h) k s = bind m (λ c, bind (h c) k) s.
Proof. unfold bind. destruct (m s); reflexivity. Qed.

Lemma bind_get (f : ShaderLoader → A) k s : bind (get f) k s = k (f s) s.
Proof. reflexivity. Qed.

Lemma bind_ret (a : A) k s : bind (ret a) k s = k a s.
Proof. reflexivity. Qed.

Lemma bind_deref (f : ShaderLoader → option A) k s a :
  f s = Some a → bind (deref f) k s = k a s.
Proof. intros H. unfold bind, deref. rewrite H. reflexivity. Qed.

Lemma bind_gl_call (f : WebGL.GL → A * WebGL.GL) k s g :
  gl s = Some g → bind (gl_call f) k s = k (f g).1 (set_gl (Some (f g).2) s).
Proof. intros H. unfold gl_call, bind, deref. rewrite H. reflexivity. Qed.

Lemma bind_run (m : Js A) k s a s' : m s = Return a s' → bind m k s = k a s'.
Proof. intros H. unfold bind. rewrite H. reflexivity. Qed.
End Sequencing.

Section SequencingUnit.
Context {B : Type}.
Implicit Types (s : ShaderLoader) (k : unit → Js B).

Lemma bind_modify f k s : bind (modify f) k s = k tt (f s).
Proof. reflexivity. Qed.

Lemma bind_on_page f k s : bind (on_page f) k s = k tt (set_page (f (page s)) s).
Proof. reflexivity. Qed.

Lemma bind_skip k s : bind skip k s = k tt s.
Proof. reflexivity. Qed.

Lemma bind_gl_do f k s g :
  gl s = Some g → bind (gl_do f) k s = k tt (set_gl (Some (f g)) s).
Proof. intros H. unfold gl_do, gl_call, bind, deref. rewrite H. reflexivity. Qed.
End SequencingUnit.

Lemma run_gl_do f s g : gl s = Some g → gl_do f s = Return tt (set_gl (Some (f g)) s).
Proof. intros H. unfold gl_do, gl_call, bind, deref. rewrite H. reflexivity. Qed.

Lemma run_gl_call {A} (f : WebGL.GL → A * WebGL.GL) s g :
  gl s = Some g → gl_call f s = Return (f g).1 (set_gl (Some (f g).2) s).
Proof. intros H. unfold gl_call, bind, deref. rewrite H. reflexivity. Qed.

Lemma run_deref {A} (f : ShaderLoader → option A) s a : f s = Some a → deref f s = Return a s.
Proof. intros H. unfold deref. rewrite H. reflexivity. Qed.

Lemma set_gl_set_gl a b s : set_gl a (set_gl b s) = set_gl a s.
Proof. reflexivity. Qed.

(** Reading a field through the setters. *)
Ltac js_fields :=
  cbn [canvas gl programs framebuffers textures buffer startTime frameCount isRunning
       transitionStart transitionDuration onComplete hasError logoOverlay isTransitioning page
       set_gl set_canvas set_programs set_framebuffers set_textures set_buffer set_frameCount
       set_isRunning set_onComplete set_hasError set_logoOverlay set_page negb fst snd
       innerWidth innerHeight shaderLoading scrollLocked resizeListening pulseStyle
       timeouts animationFrame intervals nextTimer signals
       set_window set_shaderLoading set_scrollLocked set_resizeListening set_pulseStyle
       set_timeouts set_animationFrame set_intervals set_signals
       setTimeout setInterval clearInterval requestAnimationFrame
       width height opacity parentNode pattern
       logo_opacity logo_offset logo_scale logo_blur logo_parentNode].

(** Flattening nested field updates into one record. *)
Ltac js_flat :=
  cbv [set_gl set_canvas set_programs set_framebuffers set_textures set_buffer set_frameCount
       set_isRunning set_onComplete set_hasError set_logoOverlay set_page
       canvas gl programs framebuffers textures buffer startTime frameCount isRunning
       transitionStart transitionDuration onComplete hasError logoOverlay isTransitioning page
       innerWidth innerHeight shaderLoading scrollLocked resizeListening pulseStyle
       timeouts animationFrame intervals nextTimer signals
       set_window set_shaderLoading set_scrollLocked set_resizeListening set_pulseStyle
       set_timeouts set_animationFrame set_intervals set_signals
       setTimeout setInterval clearInterval requestAnimationFrame
       width height opacity parentNode pattern
       logo_opacity logo_offset logo_scale logo_blur logo_parentNode].

(** Opening the loader record, so that every field read computes. *)
Ltac js_open s :=
  destruct s; js_fields; cbn [canvas gl programs framebuffers textures buffer startTime
    frameCount isRunning transitionStart transitionDuration onComplete hasError logoOverlay
    isTransitioning page] in *; subst.

Ltac js_side := js_fields; first [eassumption | reflexivity].

(** One statement of a method body. *)
Ltac js_step :=
  first
  [ rewrite bind_assoc
  | rewrite bind_get
  | rewrite bind_modify
  | rewrite bind_on_page
  | rewrite bind_ret
  | rewrite bind_skip
  | erewrite bind_deref by js_side
  | erewrite bind_gl_do by js_side
  | erewrite bind_gl_call by js_side
  | erewrite run_gl_do by js_side
  | erewrite run_gl_call by js_side
  | erewrite run_deref by js_side ];
  js_fields; rewrite ?set_gl_set_gl.

Ltac js_run := repeat js_step.

Ltac map_simp :=
  repeat first
    [ rewrite lookup_insert_eq
    | rewrite lookup_insert_ne by (first [lia | discriminate | congruence]) ].


(** ** The context after each composed call *)

(** Flattening nested updates of the context into one record. *)
Ltac gl_flat :=
  cbv [WebGL.emit WebGL.set_next WebGL.set_textures WebGL.set_framebuffers WebGL.set_programs
       WebGL.set_buffers WebGL.set_currentProgram WebGL.set_bound WebGL.set_viewportSize
       WebGL.set_activeUnit WebGL.set_units WebGL.set_canvasPixels
       WebGL.next WebGL.textures WebGL.framebuffers WebGL.programs WebGL.buffers
       WebGL.currentProgram WebGL.drawFramebuffer WebGL.readFramebuffer WebGL.viewportSize
       WebGL.activeUnit WebGL.units WebGL.canvasPixels WebGL.log
       WebGL.deleteTexture WebGL.deleteFramebuffer WebGL.deleteProgram WebGL.deleteBuffer
       WebGL.useProgram WebGL.bindFramebuffer WebGL.viewport WebGL.activeTexture
       WebGL.bindTexture].

Section Context.
Import WebGL.
Implicit Types g : GL.

Lemma newTexture_eq w h g :
  Calls.newTexture w h g =
    mkGL (S (next g)) (<[next g := mkTexture w h (Black w h)]> (textures g))
      (framebuffers g) (programs g) (buffers g) (currentProgram g)
      (drawFramebuffer g) (readFramebuffer g) (viewportSize g) (activeUnit g)
      (<[activeUnit g := next g]> (units g)) (canvasPixels g)
      (log g ++ [EvCreateTexture (next g)]).
Proof.
  destruct g. unfold Calls.newTexture, texImage2D. cbn.
  rewrite !lookup_insert_eq. cbn. rewrite insert_insert_eq. reflexivity.
Qed.

Lemma newFramebuffer_eq t g :
  Calls.newFramebuffer t g =
    mkGL (S (next g)) (textures g) (<[next g := t]> (framebuffers g))
      (programs g) (buffers g) (currentProgram g) None None
      (viewportSize g) (activeUnit g) (units g) (canvasPixels g)
      (log g ++ [EvCreateFramebuffer (next g)]).
Proof.
  destruct g. unfold Calls.newFramebuffer, framebufferTexture2D. cbn.
  rewrite !lookup_insert_eq. cbn. rewrite insert_insert_eq. reflexivity.
Qed.

Lemma allocate_eq w h g :
  Calls.allocate w h g =
    let n := next g in
    mkGL (S (S (S (S (S (S n))))))
      (<[S (S n) := mkTexture w h (Black w h)]>
         (<[S n := mkTexture (Z.max 1 (w / 3)) (Z.max 1 (h / 3))
                     (Black (Z.max 1 (w / 3)) (Z.max 1 (h / 3)))]>
            (<[n := mkTexture w h (Black w h)]> (textures g))))
      (<[S (S (S (S (S n)))) := Some (S (S n))]>
         (<[S (S (S (S n))) := Some (S n)]>
            (<[S (S (S n)) := Some n]> (framebuffers g))))
      (programs g) (buffers g) (currentProgram g) None None
      (viewportSize g) (activeUnit g) (<[activeUnit g := S (S n)]> (units g))
      (canvasPixels g)
      (log g ++ [EvCreateTexture n; EvCreateTexture (S n); EvCreateTexture (S (S n));
                 EvCreateFramebuffer (S (S (S n))); EvCreateFramebuffer (S (S (S (S n))));
                 EvCreateFramebuffer (S (S (S (S (S n)))))]).
Proof.
  destruct g. unfold Calls.allocate. cbn [next].
  do 3 (rewrite (newTexture_eq _ _ (mkGL _ _ _ _ _ _ _ _ _ _ _ _ _));
        cbn [next textures framebuffers programs buffers currentProgram drawFramebuffer
             readFramebuffer viewportSize activeUnit units canvasPixels log]).
  do 3 (rewrite (newFramebuffer_eq _ (mkGL _ _ _ _ _ _ _ _ _ _ _ _ _));
        cbn [next textures framebuffers programs buffers currentProgram drawFramebuffer
             readFramebuffer viewportSize activeUnit units canvasPixels log]).
  rewrite !insert_insert_eq, <- !app_assoc. reflexivity.
Qed.
End Context.

(** ** Building the render targets *)

Lemma createTexture_run name w h s g :
  gl s = Some g →
  createTexture name w h s =
    Return (WebGL.next g)
      (set_textures (<[name := WebGL.next g]> (textures s))
         (set_gl (Some (Calls.newTexture w h g)) s)).
Proof.
  intros Hg. unfold createTexture. js_run. reflexivity.
Qed.

Lemma createFramebuffer_run texture s g :
  gl s = Some g →
  createFramebuffer texture s =
    Return (WebGL.next g) (set_gl (Some (Calls.newFramebuffer texture g)) s).
Proof.
  intros Hg. unfold createFramebuffer. js_run. reflexivity.
Qed.

Lemma release_next ts fs g : WebGL.next (Calls.release ts fs g) = WebGL.next g.
Proof.
  unfold Calls.release. destruct (ts !! "bufferA"); [|reflexivity].
  destruct (fs !! "bufferAPrev"), (fs !! "bufferB"), (fs !! "bufferA"),
    (ts !! "bufferAPrev"), (ts !! "bufferB"); reflexivity.
Qed.

Lemma newTexture_next w h g : WebGL.next (Calls.newTexture w h g) = S (WebGL.next g).
Proof. rewrite newTexture_eq. reflexivity. Qed.

Lemma newFramebuffer_next t g : WebGL.next (Calls.newFramebuffer t g) = S (WebGL.next g).
Proof. rewrite newFramebuffer_eq. reflexivity. Qed.

Lemma release_run s g :
  gl s = Some g →
  (if textures s !! "bufferA" is Some _
   then
     t <- get textures;
     f <- get framebuffers;
     gl_do (WebGL.deleteTexture (t !! "bufferA"));;
     gl_do (WebGL.deleteTexture (t !! "bufferB"));;
     gl_do (WebGL.deleteTexture (t !! "bufferAPrev"));;
     gl_do (WebGL.deleteFramebuffer (f !! "bufferA"));;
     gl_do (WebGL.deleteFramebuffer (f !! "bufferB"));;
     gl_do (WebGL.deleteFramebuffer (f !! "bufferAPrev"))
   else skip) s =
  Return tt (set_gl (Some (Calls.release (textures s) (framebuffers s) g)) s).
Proof.
  intros Hg. unfold Calls.release.
  destruct (textures s !! "bufferA") eqn:E.
  - js_run. rewrite E. reflexivity.
  - unfold skip, ret. destruct s; cbn in *. rewrite Hg. reflexivity.
Qed.

Lemma createFramebuffers_run s c g :
  canvas s = Some c → gl s = Some g →
  let n := WebGL.next g in
  createFramebuffers s =
    Return tt
      (set_framebuffers
         (<["bufferAPrev" := S (S (S (S (S n))))]>
            (<["bufferB" := S (S (S (S n)))]>
               (<["bufferA" := S (S (S n))]> (framebuffers s))))
         (set_textures
            (<["bufferAPrev" := S (S n)]>
               (<["bufferB" := S n]> (<["bufferA" := n]> (textures s))))
            (set_gl
               (Some (Calls.allocate (width c) (height c)
                        (Calls.release (textures s) (framebuffers s) g)))
               s))).
Proof.
  intros Hc Hg n.
  pose proof (release_next (textures s) (framebuffers s) g) as Hn.
  js_open s.
  unfold createFramebuffers, Calls.allocate.
  set (g0 := Calls.release _ _ g) in *.
  js_run.
  erewrite bind_run
    by (apply (release_run (mkShaderLoader _ _ _ _ _ _ _ _ _ _ _ _ _ _ _ _)); reflexivity).
  js_fields. fold g0.
  do 3 (erewrite bind_run by (apply createTexture_run; js_side); js_fields;
        rewrite ?set_gl_set_gl).
  js_run. map_simp.
  do 2 (erewrite bind_run by (apply createFramebuffer_run; js_side); js_run; map_simp).
  erewrite bind_run by (apply createFramebuffer_run; js_side).
  unfold modify. js_fields.
  rewrite ?newFramebuffer_next, ?newTexture_next, ?Hn. js_flat. reflexivity.
Qed.

Lemma named_lookup a b p name x :
  named a b p !! name = Some x →
  (name = "bufferA" ∧ x = a) ∨ (name = "bufferB" ∧ x = b) ∨ (name = "bufferAPrev" ∧ x = p).
Proof.
  unfold named. intros H.
  apply lookup_insert_Some in H as [[<- <-]|[_ H]]; [auto|].
  apply lookup_insert_Some in H as [[<- <-]|[_ H]]; [auto|].
  apply lookup_insert_Some in H as [[<- <-]|[_ H]]; [auto|].
  rewrite lookup_empty in H. discriminate.
Qed.

Lemma named_overwrite a b p m :
  dom m ⊆ dom (named a b p) →
  <["bufferAPrev" := p]> (<["bufferB" := b]> (<["bufferA" := a]> m)) = named a b p.
Proof.
  intros Hdom. apply map_eq. intros k. unfold named.
  destruct (decide (k = "bufferAPrev")) as [->|?]; [by rewrite !lookup_insert_eq|].
  rewrite !(lookup_insert_ne _ "bufferAPrev") by done.
  destruct (decide (k = "bufferB")) as [->|?]; [by rewrite !lookup_insert_eq|].
  rewrite !(lookup_insert_ne _ "bufferB") by done.
  destruct (decide (k = "bufferA")) as [->|?]; [by rewrite !lookup_insert_eq|].
  rewrite !(lookup_insert_ne _ "bufferA") by done.
  rewrite lookup_empty. apply not_elem_of_dom. intros Hk. apply Hdom in Hk.
  unfold named in Hk. rewrite !dom_insert_L, dom_empty_L in Hk. set_solver.
Qed.

Section Release.
Import WebGL.

Lemma release_none ts fs g : ts = ∅ → Calls.release ts fs g = g.
Proof. intros ->. reflexivity. Qed.

Lemma release_targets tA tB tP fA fB fP g :
  Calls.release (named tA tB tP) (named fA fB fP) g =
    mkGL (next g) (delete tP (delete tB (delete tA (textures g))))
      (delete fP (delete fB (delete fA (framebuffers g))))
      (programs g) (buffers g) (currentProgram g)
      (drawFramebuffer g) (readFramebuffer g) (viewportSize g) (activeUnit g)
      (units g) (canvasPixels g)
      (log g ++ [EvDeleteTexture tA; EvDeleteTexture tB; EvDeleteTexture tP;
                 EvDeleteFramebuffer fA; EvDeleteFramebuffer fB; EvDeleteFramebuffer fP]).
Proof.
  destruct g. unfold Calls.release.
  change (named tA tB tP !! "bufferA") with (Some tA).
  change (named tA tB tP !! "bufferB") with (Some tB).
  change (named tA tB tP !! "bufferAPrev") with (Some tP).
  change (named fA fB fP !! "bufferA") with (Some fA).
  change (named fA fB fP !! "bufferB") with (Some fB).
  change (named fA fB fP !! "bufferAPrev") with (Some fP).
  gl_flat. rewrite <- ?app_assoc. reflexivity.
Qed.
End Release.

Lemma rebuilt_sizes s g0 w h :
  let n := WebGL.next g0 in
  let s' :=
    set_framebuffers
      (<["bufferAPrev" := S (S (S (S (S n))))]>
         (<["bufferB" := S (S (S (S n)))]>
            (<["bufferA" := S (S (S n))]> (framebuffers s))))
      (set_textures
         (<["bufferAPrev" := S (S n)]>
            (<["bufferB" := S n]> (<["bufferA" := n]> (textures s))))
         (set_gl (Some (Calls.allocate w h g0)) s)) in
  target s' "bufferA" = Some (WebGL.mkTexture w h (Black w h)) ∧
  target s' "bufferAPrev" = Some (WebGL.mkTexture w h (Black w h)) ∧
  target s' "bufferB" =
    Some (WebGL.mkTexture (Z.max 1 (w / 3)) (Z.max 1 (h / 3))
            (Black (Z.max 1 (w / 3)) (Z.max 1 (h / 3)))).
Proof.
  intros n s'. subst s'. unfold target. js_fields. rewrite allocate_eq.
  cbn [WebGL.textures WebGL.framebuffers]. fold n.
  repeat split; map_simp; rewrite decide_True by reflexivity; map_simp; reflexivity.
Qed.

Lemma updateLogoPosition_run s l :
  logoOverlay s = Some l →
  updateLogoPosition s =
    Return tt (set_logoOverlay
      (Some (mkOverlay (logo_opacity l) 0 1 (logo_blur l) (logo_parentNode l))) s).
Proof. intros H. unfold updateLogoPosition. rewrite H. reflexivity. Qed.

(** [booted] and [pipeline] are [init] cut at the WebGL2 check. *)
Lemma init_booted (w h : Z) :
  (createCanvas;; setupWebGL true) (constructor 0 (blankPage (IZR w) (IZR h))) =
    Return true (booted w h).
Proof.
  unfold createCanvas, setupWebGL, lockScroll, constructor, blankPage.
  js_run.
  erewrite bind_run by (apply updateLogoPosition_run; js_side).
  js_run. unfold ret. js_flat. rewrite !ZfloorZ. reflexivity.
Qed.

(** ** C2: rebuilding the render targets *)

(** C2.  For every canvas size [w] by [h], [createFramebuffers] returns
    with the working target (bufferA) and the history target
    (bufferAPrev) of size exactly [(w, h)] and the reduced target
    (bufferB) of size exactly [(max 1 (w / 3), max 1 (h / 3))]; every
    texture and framebuffer the loader held before has been deleted, the
    deletions come before the six allocations in the call log, and none
    of the old names is live afterwards. *)
Theorem createFramebuffers_rebuild (s : ShaderLoader) (c : Canvas) (g : WebGL.GL) (w h : Z) :
  canvas s = Some c → width c = w → height c = h → gl s = Some g → Generation s g →
  ∃ s' g' released tA tB tP fA fB fP,
    createFramebuffers s = Return tt s' ∧ gl s' = Some g' ∧
    target_size s' "bufferA" = Some (w, h) ∧
    target_size s' "bufferAPrev" = Some (w, h) ∧
    target_size s' "bufferB" = Some (Z.max 1 (w / 3), Z.max 1 (h / 3)) ∧
    WebGL.log g' =
      (WebGL.log g ++ released ++
        [WebGL.EvCreateTexture tA; WebGL.EvCreateTexture tB; WebGL.EvCreateTexture tP;
         WebGL.EvCreateFramebuffer fA; WebGL.EvCreateFramebuffer fB;
         WebGL.EvCreateFramebuffer fP])%list ∧
    (∀ name t, textures s !! name = Some t →
       WebGL.EvDeleteTexture t ∈ released ∧ WebGL.textures g' !! t = None) ∧
    (∀ name f, framebuffers s !! name = Some f →
       WebGL.EvDeleteFramebuffer f ∈ released ∧ WebGL.framebuffers g' !! f = None) ∧
    textures s' = named tA tB tP ∧ framebuffers s' = named fA fB fP ∧
    Generation s' g'.
Proof.
  intros Hc <- <- Hg Hgen.
  pose proof (createFramebuffers_run s c g Hc Hg) as Hrun. cbv zeta in Hrun.
  pose proof (rebuilt_sizes s (Calls.release (textures s) (framebuffers s) g)
                (width c) (height c)) as Hsz.
  cbv zeta in Hsz. rewrite release_next in Hsz.
  set (n := WebGL.next g) in *.
  destruct Hsz as (HA & HP & HB).
  assert (∃ released,
    WebGL.log (Calls.release (textures s) (framebuffers s) g) =
      (WebGL.log g ++ released)%list ∧
    (∀ name t, textures s !! name = Some t →
       WebGL.EvDeleteTexture t ∈ released ∧ (t < n)%nat ∧
       WebGL.textures (Calls.release (textures s) (framebuffers s) g) !! t = None) ∧
    (∀ name f, framebuffers s !! name = Some f →
       WebGL.EvDeleteFramebuffer f ∈ released ∧ (f < n)%nat ∧
       WebGL.framebuffers (Calls.release (textures s) (framebuffers s) g) !! f = None) ∧
    dom (textures s) ⊆ dom (named 0 0 0) ∧ dom (framebuffers s) ⊆ dom (named 0 0 0))
    as (released & Hlog & Htex & Hfb & Hdt & Hdf).
  { destruct Hgen as [Ht Hf | tA tB tP fA fB fP Ht Hf Hlt].
    - exists []. rewrite Ht, Hf, release_none, app_nil_r by reflexivity.
      split; [reflexivity|].
      split; [intros name t H; rewrite lookup_empty in H; discriminate|].
      split; [intros name t H; rewrite lookup_empty in H; discriminate|].
      rewrite dom_empty_L. split; apply empty_subseteq.
    - eexists. rewrite Ht, Hf, release_targets.
      cbn [WebGL.log WebGL.textures WebGL.framebuffers].
      split; [reflexivity|].
      repeat (apply Forall_cons in Hlt as [? Hlt]).
      split.
      { intros name t Hin. apply named_lookup in Hin. split; [|split].
        - destruct Hin as [[_ ->]|[[_ ->]|[_ ->]]]; set_solver.
        - intuition lia.
        - rewrite !lookup_delete_None. intuition auto. }
      split.
      { intros name f Hin. apply named_lookup in Hin. split; [|split].
        - destruct Hin as [[_ ->]|[[_ ->]|[_ ->]]]; set_solver.
        - intuition lia.
        - rewrite !lookup_delete_None. intuition auto. }
      split; reflexivity. }
  eexists _, _, released, n, (S n), (S (S n)), (S (S (S n))), (S (S (S (S n)))),
    (S (S (S (S (S n))))).
  split; [exact Hrun|]. split; [reflexivity|].
  unfold target_size. rewrite HA, HP, HB.
  split; [reflexivity|]. split; [reflexivity|]. split; [reflexivity|].
  clear HA HP HB Hrun.
  rewrite allocate_eq, release_next. cbv zeta. fold n.
  cbn [WebGL.log WebGL.textures WebGL.framebuffers WebGL.next].
  rewrite Hlog, <- app_assoc.
  split; [reflexivity|].
  split.
  { intros name t H. destruct (Htex name t H) as (? & ? & ?).
    split; [assumption|]. rewrite !lookup_insert_ne by lia. assumption. }
  split.
  { intros name f H. destruct (Hfb name f H) as (? & ? & ?).
    split; [assumption|]. rewrite !lookup_insert_ne by lia. assumption. }
  js_fields.
  split; [apply named_overwrite; assumption|].
  split; [apply named_overwrite; assumption|].
  eapply Targets; [apply named_overwrite; assumption..|].
  cbn [WebGL.next]. repeat constructor; lia.
Qed.

(** The sample pipeline holds a generation of targets when its canvas
    is given the size 800 by 600. *)
Lemma resizing_canvas : canvas resizing = Some (mkCanvas 800 600 1 true false).
Proof. reflexivity. Qed.

Lemma resizing_gl : gl resizing = Some tiny_gl.
Proof. vm_compute. reflexivity. Qed.

Lemma resizing_generation : Generation resizing tiny_gl.
Proof.
  apply (Targets _ _ 1 2 3 4 5 6)%nat.
  - vm_compute. reflexivity.
  - vm_compute. reflexivity.
  - assert (WebGL.next tiny_gl = 11%nat) as -> by (vm_compute; reflexivity).
    repeat constructor; lia.
Qed.

Lemma resizing_stored :
  textures resizing !! "bufferA" = Some 1%nat ∧
  textures resizing !! "bufferB" = Some 2%nat ∧
  textures resizing !! "bufferAPrev" = Some 3%nat ∧
  framebuffers resizing !! "bufferA" = Some 4%nat ∧
  framebuffers resizing !! "bufferB" = Some 5%nat ∧
  framebuffers resizing !! "bufferAPrev" = Some 6%nat.
Proof. repeat split; vm_compute; reflexivity. Qed.

(** The rebuild at the resize of the specification, to 800 by 600, of a
    pipeline whose targets 1, 2, 3 and framebuffers 4, 5, 6 were built
    for another size: the new targets have the sizes 800 by 600 and 266
    by 200, and each of the six old objects is deleted, before the
    creations, and no longer live. *)
Lemma createFramebuffers_rebuild_witness :
  ∃ s' g' released created,
    createFramebuffers resizing = Return tt s' ∧ gl s' = Some g' ∧
    target_size s' "bufferA" = Some (800, 600) ∧
    target_size s' "bufferAPrev" = Some (800, 600) ∧
    target_size s' "bufferB" = Some (266, 200) ∧
    WebGL.log g' = (WebGL.log tiny_gl ++ released ++ created)%list ∧
    Forall (λ e, is_delete e = false) created ∧
    Forall (λ t, WebGL.EvDeleteTexture t ∈ released ∧ WebGL.textures g' !! t = None)
      [1; 2; 3]%nat ∧
    Forall (λ f, WebGL.EvDeleteFramebuffer f ∈ released ∧ WebGL.framebuffers g' !! f = None)
      [4; 5; 6]%nat.
Proof.
  destruct (createFramebuffers_rebuild resizing (mkCanvas 800 600 1 true false)
              tiny_gl 800 600 resizing_canvas eq_refl eq_refl resizing_gl
              resizing_generation)
    as (s' & g' & released & tA & tB & tP & fA & fB & fP &
        Hrun & Hg' & HA & HP & HB & Hlog & Htex & Hfb & _).
  destruct resizing_stored as (H1 & H2 & H3 & H4 & H5 & H6).
  eexists s', g', released, _.
  split; [exact Hrun|]. split; [exact Hg'|].
  split; [exact HA|]. split; [exact HP|]. split; [exact HB|].
  split; [exact Hlog|].
  split; [repeat constructor|].
  split.
  - constructor; [exact (Htex _ _ H1)|].
    constructor; [exact (Htex _ _ H2)|].
    constructor; [exact (Htex _ _ H3)|]. constructor.
  - constructor; [exact (Hfb _ _ H4)|].
    constructor; [exact (Hfb _ _ H5)|].
    constructor; [exact (Hfb _ _ H6)|]. constructor.
Defined.

(** ** One tick of the render loop *)

(** Each call on a context written out as a record. *)
Section Records.
Import WebGL.
Variables (n : nat) (t : gmap nat Texture) (f : gmap nat (option nat))
  (pr : gmap nat Program) (b : gset nat) (cp d r : option nat) (v : Z * Z)
  (a : nat) (u : gmap nat nat) (c : Pixels) (l : list Event).

Lemma useProgram_mk p :
  useProgram p (mkGL n t f pr b cp d r v a u c l) = mkGL n t f pr b (Some p) d r v a u c l.
Proof. reflexivity. Qed.

Lemma bindFramebuffer_mk x :
  bindFramebuffer FRAMEBUFFER x (mkGL n t f pr b cp d r v a u c l) =
    mkGL n t f pr b cp x x v a u c l.
Proof. reflexivity. Qed.

Lemma bindFramebuffer_read_mk x :
  bindFramebuffer READ_FRAMEBUFFER x (mkGL n t f pr b cp d r v a u c l) =
    mkGL n t f pr b cp d x v a u c l.
Proof. reflexivity. Qed.

Lemma bindFramebuffer_draw_mk x :
  bindFramebuffer DRAW_FRAMEBUFFER x (mkGL n t f pr b cp d r v a u c l) =
    mkGL n t f pr b cp x r v a u c l.
Proof. reflexivity. Qed.

Lemma viewport_mk w h :
  viewport w h (mkGL n t f pr b cp d r v a u c l) = mkGL n t f pr b cp d r (w, h) a u c l.
Proof. reflexivity. Qed.

Lemma activeTexture_mk i :
  activeTexture i (mkGL n t f pr b cp d r v a u c l) = mkGL n t f pr b cp d r v i u c l.
Proof. reflexivity. Qed.

Lemma bindTexture_mk x :
  bindTexture (Some x) (mkGL n t f pr b cp d r v a u c l) =
    mkGL n t f pr b cp d r v a (<[a := x]> u) c l.
Proof. reflexivity. Qed.

Lemma set_uniforms_mk F p body k us :
  pr !! p = Some (mkProgram body k us) →
  set_uniforms F (mkGL n t f pr b (Some p) d r v a u c l) =
    mkGL n t f (<[p := mkProgram body k (F us)]> pr) b (Some p) d r v a u c l.
Proof. intros H. unfold set_uniforms. cbn. rewrite H. reflexivity. Qed.

Lemma drawArrays_mk p body k us :
  pr !! p = Some (mkProgram body k us) →
  let g := mkGL n t f pr b (Some p) d r v a u c l in
  let inputs := (λ i, u !! i) <$> take k [iChannel0 us; iChannel1 us] in
  drawArrays g =
    emit (EvDraw p inputs d v us)
      (write (Shaded body us (pixels_of g <$> inputs) v) v g).
Proof. intros H. unfold drawArrays. cbn. rewrite H. reflexivity. Qed.

Lemma write_canvas_mk px rect :
  write px rect (mkGL n t f pr b cp None r v a u c l) = mkGL n t f pr b cp None r v a u px l.
Proof. reflexivity. Qed.

Lemma write_texture_mk px w h fb tx old :
  f !! fb = Some (Some tx) →
  t !! tx = Some (mkTexture w h old) →
  write px (w, h) (mkGL n t f pr b cp (Some fb) r v a u c l) =
    mkGL n (<[tx := mkTexture w h px]> t) f pr b cp (Some fb) r v a u c l.
Proof.
  intros Hf Ht. unfold write. cbn. rewrite Hf, Ht. cbn.
  rewrite decide_True by reflexivity. reflexivity.
Qed.

Lemma emit_mk e :
  emit e (mkGL n t f pr b cp d r v a u c l) = mkGL n t f pr b cp d r v a u c (l ++ [e]).
Proof. reflexivity. Qed.

Lemma blitFramebuffer_mk w h src ts px :
  f !! src = Some (Some ts) →
  t !! ts = Some (mkTexture w h px) →
  let g := mkGL n t f pr b cp d (Some src) v a u c l in
  blitFramebuffer w h g = emit (EvBlit (Some src) d (w, h)) (write px (w, h) g).
Proof.
  intros Hs Ht. unfold blitFramebuffer, pixels_of. cbn. rewrite Hs. cbn. rewrite Ht.
  reflexivity.
Qed.
End Records.

Ltac gl_fields :=
  cbn [WebGL.next WebGL.textures WebGL.framebuffers WebGL.programs WebGL.buffers
       WebGL.currentProgram WebGL.drawFramebuffer WebGL.readFramebuffer WebGL.viewportSize
       WebGL.activeUnit WebGL.units WebGL.canvasPixels WebGL.log
       WebGL.prog_body WebGL.prog_samplers WebGL.prog_uniforms
       WebGL.tex_width WebGL.tex_height WebGL.tex_pixels
       iTime iResolution iFrame iChannel0 iChannel1 fst snd].

Ltac gl_open g :=
  destruct g;
  cbn [WebGL.next WebGL.textures WebGL.framebuffers WebGL.programs WebGL.buffers
       WebGL.currentProgram WebGL.drawFramebuffer WebGL.readFramebuffer WebGL.viewportSize
       WebGL.activeUnit WebGL.units WebGL.canvasPixels WebGL.log] in *.

Section Passes.
Import WebGL.
Implicit Types g : GL.

(** A pass with one input drawing into a texture of the viewport's
    size. *)
Lemma renderPass_texture g prog body u x f t w h px time res n :
  programs g !! prog = Some (mkProgram body 1 u) →
  framebuffers g !! f = Some (Some t) →
  textures g !! t = Some (mkTexture w h px) →
  Calls.renderPass prog [Some x] (Some f) (w, h) time res n g =
    let u' := mkUniforms time res n 0 (iChannel1 u) in
    mkGL (next g)
      (<[t := mkTexture w h (Shaded body u' [pixels_of g (Some x)] (w, h))]> (textures g))
      (framebuffers g)
      (<[prog := mkProgram body 1 u']> (programs g))
      (buffers g) (Some prog) (Some f) (Some f) (w, h) 0 (<[0%nat := x]> (units g))
      (canvasPixels g)
      (log g ++ [EvDraw prog [Some x] (Some f) (w, h) u']).
Proof.
  intros Hp Hf Ht. destruct res. gl_open g.
  unfold Calls.renderPass, Calls.bindInputs, uniform_iTime, uniform_iResolution,
    uniform_iFrame, uniform_iChannel.
  gl_fields.
  rewrite useProgram_mk, bindFramebuffer_mk, viewport_mk.
  erewrite set_uniforms_mk by eassumption.
  do 2 erewrite set_uniforms_mk by apply lookup_insert_eq.
  rewrite activeTexture_mk, bindTexture_mk.
  erewrite set_uniforms_mk by apply lookup_insert_eq.
  erewrite drawArrays_mk by apply lookup_insert_eq.
  cbv zeta. gl_fields. cbn [take fmap list_fmap]. rewrite lookup_insert_eq.
  erewrite write_texture_mk by eassumption.
  rewrite emit_mk, !insert_insert_eq. reflexivity.
Qed.

(** A pass with two inputs drawing onto the canvas. *)
Lemma renderPass_canvas g prog body u x y vp time res n :
  programs g !! prog = Some (mkProgram body 2 u) →
  Calls.renderPass prog [Some x; Some y] None vp time res n g =
    let u' := mkUniforms time res n 0 1 in
    mkGL (next g) (textures g) (framebuffers g)
      (<[prog := mkProgram body 2 u']> (programs g))
      (buffers g) (Some prog) None None vp 1
      (<[1%nat := y]> (<[0%nat := x]> (units g)))
      (Shaded body u' [pixels_of g (Some x); pixels_of g (Some y)] vp)
      (log g ++ [EvDraw prog [Some x; Some y] None vp u']).
Proof.
  intros Hp. destruct res, vp. gl_open g.
  unfold Calls.renderPass, Calls.bindInputs, uniform_iTime, uniform_iResolution,
    uniform_iFrame, uniform_iChannel.
  gl_fields.
  rewrite useProgram_mk, bindFramebuffer_mk, viewport_mk.
  erewrite set_uniforms_mk by eassumption.
  do 2 erewrite set_uniforms_mk by apply lookup_insert_eq.
  rewrite activeTexture_mk, bindTexture_mk.
  erewrite set_uniforms_mk by apply lookup_insert_eq.
  rewrite activeTexture_mk, bindTexture_mk.
  erewrite set_uniforms_mk by apply lookup_insert_eq.
  erewrite drawArrays_mk by apply lookup_insert_eq.
  cbv zeta. gl_fields. cbn [take fmap list_fmap].
  rewrite lookup_insert_eq, lookup_insert_ne, lookup_insert_eq by lia.
  rewrite write_canvas_mk, emit_mk, !insert_insert_eq. reflexivity.
Qed.

(** The feedback copy between two textures of the blit's size. *)
Lemma feedback_eq g src dst ts td w h px pd :
  framebuffers g !! src = Some (Some ts) →
  framebuffers g !! dst = Some (Some td) →
  textures g !! ts = Some (mkTexture w h px) →
  textures g !! td = Some (mkTexture w h pd) →
  Calls.feedback (Some src) (Some dst) w h g =
    mkGL (next g) (<[td := mkTexture w h px]> (textures g)) (framebuffers g)
      (programs g) (buffers g) (currentProgram g) (Some dst) (Some src)
      (viewportSize g) (activeUnit g) (units g) (canvasPixels g)
      (log g ++ [EvBlit (Some src) (Some dst) (w, h)]).
Proof.
  intros Hs Hd Hts Htd. gl_open g. unfold Calls.feedback.
  rewrite bindFramebuffer_read_mk, bindFramebuffer_draw_mk.
  erewrite blitFramebuffer_mk by eassumption. cbv zeta.
  erewrite write_texture_mk by eassumption.
  rewrite emit_mk. reflexivity.
Qed.
End Passes.

Lemma bindInputs_run inputTextures : ∀ i s g,
  gl s = Some g →
  bindInputs i inputTextures s =
    Return tt (set_gl (Some (Calls.bindInputs i inputTextures g)) s).
Proof.
  induction inputTextures as [|tex rest IH]; intros i s g Hg.
  - cbn [bindInputs Calls.bindInputs]. unfold skip, ret. rewrite <- Hg.
    destruct s; reflexivity.
  - cbn [bindInputs Calls.bindInputs]. js_run.
    erewrite IH by js_side. js_fields. rewrite set_gl_set_gl. reflexivity.
Qed.

Lemma renderPass_run prog inputTextures outputFB now s c g :
  canvas s = Some c → gl s = Some g →
  renderPass (Some prog) inputTextures outputFB now s =
    Return tt
      (set_gl
         (Some (Calls.renderPass prog inputTextures outputFB (viewportFor s c outputFB)
                  ((now - startTime s) / 1000) (width c, height c) (frameCount s) g))
         s).
Proof.
  intros Hc Hg. unfold renderPass, Calls.renderPass, viewportFor. js_run.
  destruct outputFB as [fb|]; [case_decide|]; js_run;
    (erewrite bind_run by (apply bindInputs_run; js_side));
    js_run; reflexivity.
Qed.

Lemma loop_stopped t1 t2 t3 s : isRunning s = false → loop t1 t2 t3 s = Return tt s.
Proof. intros H. unfold loop. js_step. rewrite H. reflexivity. Qed.

Lemma loop_run s c g tA tB tP fA fB fP pA pB pI t1 t2 t3 :
  Ready s c g tA tB tP fA fB fP pA pB pI → isRunning s = true →
  loop t1 t2 t3 s =
    Return tt
      (set_page (requestAnimationFrame (page s))
         (set_frameCount (frameCount s + 1)
            (set_gl
               (Some (Calls.tick pA pB pI tA tB tP fA fB fP (width c) (height c)
                        (startTime s) t1 t2 t3 (frameCount s) g))
               s))).
Proof.
  intros [Hc Hg HtA HtB HtP HfA HfB HfP HpA HpB HpI _ _ _ _ _ _ _ _ _ _ _ _ HfAB _ _ _ _] Hrun.
  unfold loop, Calls.tick, Calls.feedback. js_step. rewrite Hrun. js_fields.
  js_run. rewrite HpA, HtP, HfA.
  erewrite bind_run by (eapply renderPass_run; js_side). js_run.
  rewrite HpB, HtA, HfB.
  erewrite bind_run by (eapply renderPass_run; js_side). js_run.
  rewrite HpI, HtA, HtB.
  erewrite bind_run by (eapply renderPass_run; js_side). js_run.
  rewrite HfA. js_run. rewrite HfP. js_run.
  unfold viewportFor. js_fields. rewrite HfB.
  rewrite (decide_False (P := Some fA = Some fB)) by congruence.
  rewrite (decide_True (P := Some fB = Some fB)) by reflexivity.
  unfold on_page, modify. js_flat. reflexivity.
Qed.

Section Tick.
Import WebGL.

Lemma pixels_of_Some g x w h px :
  textures g !! x = Some (mkTexture w h px) → pixels_of g (Some x) = Some px.
Proof. intros H. unfold pixels_of. cbn. rewrite H. reflexivity. Qed.

(** The context after one tick of a ready pipeline. *)
Lemma tick_eq g pA pB pI tA tB tP fA fB fP w h start t1 t2 t3 n uA uB uI xA xB xP :
  programs g !! pA = Some (mkProgram BufferAShader 1 uA) →
  programs g !! pB = Some (mkProgram BufferBShader 1 uB) →
  programs g !! pI = Some (mkProgram ImageShader 2 uI) →
  framebuffers g !! fA = Some (Some tA) →
  framebuffers g !! fB = Some (Some tB) →
  framebuffers g !! fP = Some (Some tP) →
  textures g !! tA = Some (mkTexture w h xA) →
  textures g !! tB = Some (mkTexture (Z.max 1 (w / 3)) (Z.max 1 (h / 3)) xB) →
  textures g !! tP = Some (mkTexture w h xP) →
  tA ≠ tB → tA ≠ tP → tB ≠ tP → pA ≠ pB → pA ≠ pI → pB ≠ pI →
  Calls.tick pA pB pI tA tB tP fA fB fP w h start t1 t2 t3 n g =
    let third := (Z.max 1 (w / 3), Z.max 1 (h / 3)) in
    let vA := mkUniforms ((t1 - start) / 1000) (w, h) n 0 (iChannel1 uA) in
    let vB := mkUniforms ((t2 - start) / 1000) (w, h) n 0 (iChannel1 uB) in
    let vI := mkUniforms ((t3 - start) / 1000) (w, h) n 0 1 in
    let yA := Shaded BufferAShader vA [Some xP] (w, h) in
    let yB := Shaded BufferBShader vB [Some yA] third in
    let yI := Shaded ImageShader vI [Some yB; Some yA] (w, h) in
    mkGL (next g)
      (<[tP := mkTexture w h yA]>
         (<[tB := mkTexture (Z.max 1 (w / 3)) (Z.max 1 (h / 3)) yB]>
            (<[tA := mkTexture w h yA]> (textures g))))
      (framebuffers g)
      (<[pI := mkProgram ImageShader 2 vI]>
         (<[pB := mkProgram BufferBShader 1 vB]>
            (<[pA := mkProgram BufferAShader 1 vA]> (programs g))))
      (buffers g) (Some pI) (Some fP) (Some fA) (w, h) 1
      (<[1%nat := tA]> (<[0%nat := tB]> (units g)))
      yI
      (log g ++ [EvDraw pA [Some tP] (Some fA) (w, h) vA;
                 EvDraw pB [Some tA] (Some fB) third vB;
                 EvDraw pI [Some tB; Some tA] None (w, h) vI;
                 EvBlit (Some fA) (Some fP) (w, h)]).
Proof.
  intros HpA HpB HpI HfA HfB HfP HtA HtB HtP ? ? ? ? ? ?.
  unfold Calls.tick. cbv zeta.
  rewrite (renderPass_texture g pA BufferAShader uA tP fA tA w h xA _ _ _ HpA HfA HtA).
  rewrite (pixels_of_Some g tP w h xP HtP). cbv zeta.
  erewrite (renderPass_texture (mkGL _ _ _ _ _ _ _ _ _ _ _ _ _) pB)
    by (gl_fields; map_simp; eassumption).
  erewrite (pixels_of_Some (mkGL _ _ _ _ _ _ _ _ _ _ _ _ _) tA)
    by (gl_fields; map_simp; reflexivity).
  cbv zeta. gl_fields. rewrite bindFramebuffer_mk.
  erewrite (renderPass_canvas (mkGL _ _ _ _ _ _ _ _ _ _ _ _ _) pI)
    by (gl_fields; map_simp; eassumption).
  erewrite (pixels_of_Some (mkGL _ _ _ _ _ _ _ _ _ _ _ _ _) tB)
    by (gl_fields; map_simp; reflexivity).
  erewrite (pixels_of_Some (mkGL _ _ _ _ _ _ _ _ _ _ _ _ _) tA)
    by (gl_fields; map_simp; reflexivity).
  cbv zeta. gl_fields.
  erewrite (feedback_eq (mkGL _ _ _ _ _ _ _ _ _ _ _ _ _) fA fP tA tP)
    by (gl_fields; map_simp; first [eassumption | reflexivity]).
  gl_fields. rewrite !insert_insert_eq, <- !app_assoc. reflexivity.
Qed.
End Tick.

Lemma target_ready s g name t f :
  gl s = Some g → textures s !! name = Some t → framebuffers s !! name = Some f →
  WebGL.framebuffers g !! f = Some (Some t) →
  target s name = WebGL.textures g !! t.
Proof.
  intros Hg Ht Hf Ha. unfold target. rewrite Hg, Ht, Hf, Ha.
  rewrite decide_True by reflexivity. reflexivity.
Qed.

(** Everything one tick of a ready, running pipeline does. *)
Lemma loop_effect s c g tA tB tP fA fB fP pA pB pI t1 t2 t3 :
  Ready s c g tA tB tP fA fB fP pA pB pI → isRunning s = true →
  ∃ g' xP kA kB,
    let full := (width c, height c) in
    let third := (Z.max 1 (width c / 3), Z.max 1 (height c / 3)) in
    let vA := passUniforms s c t1 kA in
    let vB := passUniforms s c t2 kB in
    let vI := passUniforms s c t3 1 in
    let yA := Shaded BufferAShader vA [Some xP] full in
    let yB := Shaded BufferBShader vB [Some yA] third in
    let yI := Shaded ImageShader vI [Some yB; Some yA] full in
    let s' := set_page (requestAnimationFrame (page s))
                (set_frameCount (frameCount s + 1) (set_gl (Some g') s)) in
    loop t1 t2 t3 s = Return tt s' ∧
    Ready s' c g' tA tB tP fA fB fP pA pB pI ∧
    target_pixels s "bufferAPrev" = Some xP ∧
    WebGL.log g' =
      (WebGL.log g ++
        [WebGL.EvDraw pA [Some tP] (Some fA) full vA;
         WebGL.EvDraw pB [Some tA] (Some fB) third vB;
         WebGL.EvDraw pI [Some tB; Some tA] None full vI;
         WebGL.EvBlit (Some fA) (Some fP) full])%list ∧
    target_pixels s' "bufferA" = Some yA ∧
    target_pixels s' "bufferB" = Some yB ∧
    target_pixels s' "bufferAPrev" = Some yA ∧
    canvas_pixels s' = Some yI ∧
    WebGL.next g' = WebGL.next g ∧
    WebGL.framebuffers g' = WebGL.framebuffers g ∧
    WebGL.buffers g' = WebGL.buffers g ∧
    (∃ u, WebGL.programs g !! pA = Some (WebGL.mkProgram BufferAShader 1 u) ∧
          kA = iChannel1 u) ∧
    (∃ u, WebGL.programs g !! pB = Some (WebGL.mkProgram BufferBShader 1 u) ∧
          kB = iChannel1 u).
Proof.
  intros HR Hrun. pose proof (loop_run _ _ _ _ _ _ _ _ _ _ _ _ t1 t2 t3 HR Hrun) as Hloop.
  destruct HR as [Hc Hg HtA HtB HtP HfA HfB HfP HpA HpB HpI [xA HxA] [xB HxB] [xP HxP]
                  HaA HaB HaP [uA HuA] [uB HuB] [uI HuI] ? ? ? ? ? ? ? ?].
  pose proof (tick_eq g pA pB pI tA tB tP fA fB fP (width c) (height c) (startTime s)
                t1 t2 t3 (frameCount s) uA uB uI xA xB xP) as Hg'.
  repeat (specialize (Hg' ltac:(assumption))). cbv zeta in Hg'.
  rewrite Hg' in Hloop. clear Hg'.
  eexists _, xP, (iChannel1 uA), (iChannel1 uB). cbv zeta.
  split; [exact Hloop|]. clear Hloop.
  split.
  { constructor; js_fields; gl_fields; try assumption; try (eexists; map_simp; eauto; fail). }
  split.
  { unfold target_pixels. erewrite target_ready by eassumption. rewrite HxP. reflexivity. }
  split; [reflexivity|].
  unfold target_pixels, canvas_pixels.
  split.
  { erewrite (target_ready _ _ "bufferA" tA fA)
      by (js_fields; gl_fields; first [reflexivity | assumption]).
    gl_fields. map_simp. reflexivity. }
  split.
  { erewrite (target_ready _ _ "bufferB" tB fB)
      by (js_fields; gl_fields; first [reflexivity | assumption]).
    gl_fields. map_simp. reflexivity. }
  split.
  { erewrite (target_ready _ _ "bufferAPrev" tP fP)
      by (js_fields; gl_fields; first [reflexivity | assumption]).
    gl_fields. map_simp. reflexivity. }
  repeat split; eauto.
Qed.

(** ** Compiling the three programs *)

Section Compile.
Import WebGL.

Lemma createProgram_eq body k g :
  (WebGL.createProgram body k g).2 =
    mkGL (S (next g)) (textures g) (framebuffers g)
      (<[next g := mkProgram body k (mkUniforms 0%R (0, 0) 0 0 0)]> (programs g))
      (buffers g) (currentProgram g) (drawFramebuffer g) (readFramebuffer g)
      (viewportSize g) (activeUnit g) (units g) (canvasPixels g)
      (log g ++ [EvCreateProgram (next g)]).
Proof. destruct g. reflexivity. Qed.

Lemma createBuffer_eq g :
  (WebGL.createBuffer g).2 =
    mkGL (S (next g)) (textures g) (framebuffers g) (programs g)
      ({[next g]} ∪ buffers g) (currentProgram g) (drawFramebuffer g) (readFramebuffer g)
      (viewportSize g) (activeUnit g) (units g) (canvasPixels g)
      (log g ++ [EvCreateBuffer (next g)]).
Proof. destruct g. reflexivity. Qed.
End Compile.

Lemma compileProgram_linked body names s g :
  gl s = Some g →
  compileProgram body names Linked s =
    Return (Some (WebGL.next g))
      (set_gl (Some (WebGL.createProgram body (length names) g).2) s).
Proof. intros Hg. unfold compileProgram. js_run. reflexivity. Qed.

(** A pass that does not link yields [null] and leaves every field but
    the context alone. *)
Lemma compileProgram_failed body names result s g :
  gl s = Some g → result ≠ Linked →
  ∃ g', compileProgram body names result s = Return None (set_gl (Some g') s) ∧
        WebGL.textures g' = WebGL.textures g ∧
        WebGL.framebuffers g' = WebGL.framebuffers g.
Proof.
  intros Hg Hr. unfold compileProgram. destruct result; [congruence|..]; js_run.
  - exists g. rewrite <- Hg. destruct s; auto.
  - exists g. rewrite <- Hg. destruct s; auto.
  - eexists. split; [reflexivity|]. rewrite createProgram_eq. auto.
Qed.

Lemma compileProgram_returns body names result s g :
  gl s = Some g →
  ∃ r g', compileProgram body names result s = Return r (set_gl (Some g') s) ∧
          (result ≠ Linked → r = None) ∧
          WebGL.textures g' = WebGL.textures g ∧
          WebGL.framebuffers g' = WebGL.framebuffers g.
Proof.
  intros Hg.
  assert (result = Linked ∨ result ≠ Linked) as [->|Hne]
    by (destruct result; auto; right; discriminate).
  - eexists _, _. split; [apply compileProgram_linked; eassumption|].
    rewrite createProgram_eq. split; [congruence|]. split; reflexivity.
  - destruct (compileProgram_failed body names result s g Hg Hne) as (g' & H & ? & ?).
    eauto 10.
Qed.

Lemma compileShaders_linked s g :
  gl s = Some g →
  let n := WebGL.next g in
  compileShaders (λ _, Linked) s =
    Return true
      (set_programs
         (<["image" := S (S n)]> (<["bufferB" := S n]> (<["bufferA" := n]> (programs s))))
         (set_gl
            (Some (WebGL.createProgram ImageShader 2
                     (WebGL.createProgram BufferBShader 1
                        (WebGL.createProgram BufferAShader 1 g).2).2).2)
            s)).
Proof.
  intros Hg n. unfold compileShaders.
  do 3 (erewrite bind_run by (apply compileProgram_linked; js_side);
        js_fields; rewrite ?set_gl_set_gl).
  js_run. rewrite !createProgram_eq. gl_fields. unfold ret. js_flat. reflexivity.
Qed.

(** If any pass fails, [compileShaders] returns [false] and assigns no
    program. *)
Lemma compileShaders_failed result s g :
  gl s = Some g → (∃ pass, result pass ≠ Linked) →
  ∃ g', compileShaders result s = Return false (set_gl (Some g') s) ∧
        WebGL.textures g' = WebGL.textures g ∧
        WebGL.framebuffers g' = WebGL.framebuffers g.
Proof.
  intros Hg [pass Hpass]. unfold compileShaders.
  destruct (compileProgram_returns BufferAShader ["iChannel0"] (result BufferAShader) s g Hg)
    as (rA & gA & HA & HnA & HtA & HfA).
  erewrite bind_run by exact HA.
  destruct (compileProgram_returns BufferBShader ["iChannel0"] (result BufferBShader)
              (set_gl (Some gA) s) gA eq_refl) as (rB & gB & HB & HnB & HtB & HfB).
  erewrite bind_run by exact HB. rewrite set_gl_set_gl.
  destruct (compileProgram_returns ImageShader ["iChannel0"; "iChannel1"]
              (result ImageShader) (set_gl (Some gB) s) gB eq_refl)
    as (rI & gI & HI & HnI & HtI & HfI).
  erewrite bind_run by exact HI. rewrite set_gl_set_gl.
  exists gI. split; [|split; congruence].
  destruct pass;
    [rewrite (HnA Hpass) | rewrite (HnB Hpass) | rewrite (HnI Hpass)];
    destruct rA, rB, rI; reflexivity.
Qed.

(** ** Initialisation *)

Lemma createCanvas_run s :
  createCanvas s =
    Return tt
      (set_page
         (setTimeout ShowLogo 500
            (set_resizeListening true
               (set_scrollLocked true (set_shaderLoading true (page s)))))
         (set_logoOverlay (Some (mkOverlay 0 0 1 0 true))
            (set_canvas
               (Some (mkCanvas (Zfloor (innerWidth (page s))) (Zfloor (innerHeight (page s)))
                        0 true false))
               s))).
Proof.
  unfold createCanvas, lockScroll.
  destruct s as [? ? ? ? ? ? ? ? ? ? ? ? ? ? ? pg]. destruct pg. js_run.
  erewrite bind_run by (apply updateLogoPosition_run; js_side).
  unfold on_page, modify. js_flat. reflexivity.
Qed.

(** [init] on the WebGL path: WebGL2 is available and all three passes
    link. *)
Lemma init_webgl (now W H : R) (cb : option nat) :
  let w := Zfloor W in
  let h := Zfloor H in
  ∃ s g,
    init true (λ _, Linked) (loader now W H cb) = Return tt s ∧
    Ready s (mkCanvas w h 1 true false) g 1 2 3 4 5 6 7 8 9 ∧
    isRunning s = true ∧ frameCount s = 0 ∧ startTime s = now ∧
    hasError s = false ∧ onComplete s = cb ∧ buffer s = Some 10%nat ∧
    logoOverlay s = Some (mkOverlay 0 0 1 0 true) ∧
    transitionStart s = 5000%R ∧ transitionDuration s = 1500%R ∧
    page s = mkPage W H true true true false
               [(500%R, ShowLogo); (5000%R, StartTransition)] true ∅ 0 [] ∧
    target_pixels s "bufferA" = Some (Black w h) ∧
    target_pixels s "bufferAPrev" = Some (Black w h) ∧
    WebGL.buffers g = {[10%nat]} ∧ WebGL.next g = 11%nat ∧
    WebGL.programs g !! 7%nat =
      Some (WebGL.mkProgram BufferAShader 1 (mkUniforms 0%R (0, 0) 0 0 0)) ∧
    WebGL.log g =
      [WebGL.EvCreateTexture 1; WebGL.EvCreateTexture 2; WebGL.EvCreateTexture 3;
       WebGL.EvCreateFramebuffer 4; WebGL.EvCreateFramebuffer 5;
       WebGL.EvCreateFramebuffer 6; WebGL.EvCreateProgram 7; WebGL.EvCreateProgram 8;
       WebGL.EvCreateProgram 9; WebGL.EvCreateBuffer 10].
Proof.
  intros w h. unfold init, try_catch, loader, constructor, blankPage.
  erewrite bind_run by apply createCanvas_run. js_flat.
  unfold setupWebGL. js_run.
  erewrite bind_run by (eapply createFramebuffers_run; js_side). js_fields.
  rewrite release_none by reflexivity.
  erewrite bind_run by (eapply compileShaders_linked; js_side). js_fields.
  unfold createGeometry, startRenderLoop. js_run.
  unfold on_page, modify. js_flat.
  unfold WebGL.fresh.
  rewrite (allocate_eq _ _ (WebGL.mkGL _ _ _ _ _ _ _ _ _ _ _ _ _)). cbv zeta. gl_fields.
  do 3 (rewrite (createProgram_eq _ _ (WebGL.mkGL _ _ _ _ _ _ _ _ _ _ _ _ _)); gl_fields).
  rewrite (createBuffer_eq (WebGL.mkGL _ _ _ _ _ _ _ _ _ _ _ _ _)). gl_fields.
  fold w h.
  eexists _, _. split; [reflexivity|].
  split.
  { constructor; js_fields; gl_fields; try reflexivity; try lia;
      try (eexists; map_simp; reflexivity); map_simp; reflexivity. }
  repeat (split; [reflexivity|]). reflexivity.
Qed.

(** ** The sample pipeline *)

Lemma tiny_ready : Ready tiny (mkCanvas 4 3 1 true false) tiny_gl 1 2 3 4 5 6 7 8 9.
Proof.
  constructor; try (vm_compute; reflexivity); try lia;
    eexists; vm_compute; reflexivity.
Qed.

Lemma tiny_running : isRunning tiny = true.
Proof. vm_compute. reflexivity. Qed.

(** ** C1: the three passes and the feedback copy *)

(** C1.  On every tick of a ready pipeline whose scheduler is running,
    [loop] issues exactly three draw calls and then one blit, in this
    order: Pass A samples the history texture (bufferAPrev) and draws
    into the working target (bufferA); Pass B samples the working
    texture and draws into the reduced target (bufferB); Pass Image
    samples the reduced and the working textures and draws onto the
    canvas; the blit then copies the working target into the history
    target, whose contents equal the working target's when the tick
    ends. *)
Theorem loop_three_passes (s : ShaderLoader) (c : Canvas) (g : WebGL.GL)
    (tA tB tP fA fB fP pA pB pI : nat) (t1 t2 t3 : R) :
  Ready s c g tA tB tP fA fB fP pA pB pI → isRunning s = true →
  let full := (width c, height c) in
  let third := (Z.max 1 (width c / 3), Z.max 1 (height c / 3)) in
  ∃ s' uA uB uI,
    loop t1 t2 t3 s = Return tt s' ∧
    new_calls s s' =
      [WebGL.EvDraw pA [Some tP] (Some fA) full uA;
       WebGL.EvDraw pB [Some tA] (Some fB) third uB;
       WebGL.EvDraw pI [Some tB; Some tA] None full uI;
       WebGL.EvBlit (Some fA) (Some fP) full] ∧
    target_pixels s' "bufferA" =
      Some (Shaded BufferAShader uA [target_pixels s "bufferAPrev"] full) ∧
    target_pixels s' "bufferB" =
      Some (Shaded BufferBShader uB [target_pixels s' "bufferA"] third) ∧
    canvas_pixels s' =
      Some (Shaded ImageShader uI
              [target_pixels s' "bufferB"; target_pixels s' "bufferA"] full) ∧
    target_pixels s' "bufferAPrev" = target_pixels s' "bufferA".
Proof.
  intros HR Hrun full third.
  destruct (loop_effect s c g tA tB tP fA fB fP pA pB pI t1 t2 t3 HR Hrun)
    as (g' & xP & kA & kB & Hloop & _ & HP & Hlog & HA' & HB' & HP' & HC' & _).
  cbv zeta in *.
  eexists _, _, _, _. split; [exact Hloop|].
  rewrite HA', HB', HP', HC', HP.
  split; [|repeat split; reflexivity].
  unfold new_calls, calls. js_fields. rewrite (ready_gl _ _ _ _ _ _ _ _ _ _ _ _ HR).
  rewrite Hlog, drop_app_length. reflexivity.
Qed.

Lemma loop_three_passes_witness :
  ∃ s', loop 16 16 16 tiny = Return tt s' ∧
        length (new_calls tiny s') = 4%nat ∧
        target_pixels s' "bufferAPrev" = target_pixels s' "bufferA".
Proof.
  destruct (loop_three_passes tiny _ _ _ _ _ _ _ _ _ _ _ 16 16 16 tiny_ready tiny_running)
    as (s' & uA & uB & uI & Hloop & Hcalls & _ & _ & _ & Hfeed).
  exists s'. split; [exact Hloop|]. split; [|exact Hfeed].
  rewrite Hcalls. reflexivity.
Defined.

(** ** C8: the frame counter *)

(** Any number of ticks of a ready, running pipeline. *)
Lemma ticks_running ts : ∀ s c g tA tB tP fA fB fP pA pB pI,
  Ready s c g tA tB tP fA fB fP pA pB pI → isRunning s = true →
  ∃ s' g',
    ticks ts s = Return tt s' ∧ Ready s' c g' tA tB tP fA fB fP pA pB pI ∧
    frameCount s' = frameCount s + Z.of_nat (length ts) ∧ isRunning s' = true.
Proof.
  induction ts as [|[[t1 t2] t3] ts IH]; intros s c g tA tB tP fA fB fP pA pB pI HR Hrun.
  - exists s, g. cbn [ticks length]. rewrite Z.add_0_r.
    split; [reflexivity|]. split; [exact HR|]. split; [reflexivity | exact Hrun].
  - destruct (loop_effect s c g tA tB tP fA fB fP pA pB pI t1 t2 t3 HR Hrun)
      as (g1 & xP & kA & kB & Heff). cbv zeta in Heff.
    destruct Heff as (Hloop & HR1 & _).
    match type of Hloop with _ = Return tt ?x => set (s1 := x) in * end.
    assert (isRunning s1 = true) as Hrun1 by exact Hrun.
    assert (frameCount s1 = frameCount s + 1) as Hfc1 by reflexivity.
    destruct (IH s1 c g1 tA tB tP fA fB fP pA pB pI HR1 Hrun1)
      as (s' & g' & Hticks & HR' & Hfc & Hrun').
    exists s', g'. cbn [ticks]. erewrite bind_run by exact Hloop.
    split; [exact Hticks|]. split; [exact HR'|]. split; [|exact Hrun'].
    rewrite Hfc, Hfc1. cbn [length]. lia.
Qed.

(** Any number of ticks of a stopped loader, whatever it holds. *)
Lemma ticks_stopped ts s : isRunning s = false → ticks ts s = Return tt s.
Proof.
  intros Hstop. induction ts as [|[[t1 t2] t3] ts IH]; [reflexivity|].
  cbn [ticks]. erewrite bind_run by (apply loop_stopped; exact Hstop). exact IH.
Qed.

(** C8.  While the scheduler is running, each executed tick of a ready
    pipeline returns with [frameCount] increased by exactly 1 and the
    scheduler still running, so [n] ticks increase it by exactly [n].
    Once the scheduler is stopped, by [complete], by [destroy] or
    otherwise, and whatever the loader then holds, a tick and any
    number of further ticks return the loader unchanged: [frameCount]
    never changes and no call is issued. *)
Theorem frameCount_per_tick (s : ShaderLoader) (t1 t2 t3 : R) (ts : list (R * R * R)) :
  (isRunning s = true →
     ∀ c g tA tB tP fA fB fP pA pB pI,
       Ready s c g tA tB tP fA fB fP pA pB pI →
       (∃ s', loop t1 t2 t3 s = Return tt s' ∧ frameCount s' = frameCount s + 1 ∧
              isRunning s' = true) ∧
       (∃ s', ticks ts s = Return tt s' ∧
              frameCount s' = frameCount s + Z.of_nat (length ts) ∧
              isRunning s' = true)) ∧
  (isRunning s = false →
     loop t1 t2 t3 s = Return tt s ∧ ticks ts s = Return tt s).
Proof.
  split.
  - intros Hrun c g tA tB tP fA fB fP pA pB pI HR. split.
    + destruct (loop_effect s c g tA tB tP fA fB fP pA pB pI t1 t2 t3 HR Hrun)
        as (g' & xP & kA & kB & Hloop & _).
      cbv zeta in Hloop. eexists. split; [exact Hloop|]. split; [reflexivity|exact Hrun].
    + destruct (ticks_running ts s c g tA tB tP fA fB fP pA pB pI HR Hrun)
        as (s' & g' & Hticks & _ & Hfc & Hrun').
      exists s'. split; [exact Hticks|]. split; [exact Hfc | exact Hrun'].
  - intros Hstop. split; [apply loop_stopped | apply ticks_stopped]; exact Hstop.
Qed.

(** A loader stopped by [destroy] holds no pipeline any more. *)
Lemma torn_down_stopped :
  isRunning torn_down = false ∧
  WebGL.textures <$> gl torn_down = Some ∅ ∧
  WebGL.framebuffers <$> gl torn_down = Some ∅ ∧
  WebGL.programs <$> gl torn_down = Some ∅.
Proof. repeat split; vm_compute; reflexivity. Qed.

(** On the sample pipeline: running, one tick gives frame 1 and two
    ticks frame 2; stopped with its pipeline intact, and stopped by
    [destroy] with every object deleted, ticks change nothing. *)
Lemma frameCount_per_tick_witness :
  (∃ s', loop 16 17 18 tiny = Return tt s' ∧ frameCount s' = 1) ∧
  (∃ s', ticks [(16, 17, 18); (32, 33, 34)]%R tiny = Return tt s' ∧ frameCount s' = 2) ∧
  loop 16 17 18 halted = Return tt halted ∧
  loop 16 17 18 torn_down = Return tt torn_down ∧
  ticks [(16, 17, 18); (32, 33, 34)]%R torn_down = Return tt torn_down.
Proof.
  assert (frameCount tiny = 0) as H0 by (vm_compute; reflexivity).
  destruct (frameCount_per_tick tiny 16 17 18 [(16, 17, 18); (32, 33, 34)]%R)
    as [Hrun _].
  destruct (Hrun tiny_running _ _ _ _ _ _ _ _ _ _ _ tiny_ready)
    as [(s1 & Hloop & Hn1 & _) (s2 & Hticks & Hn2 & _)].
  destruct (frameCount_per_tick halted 16 17 18 []) as [_ Hhalted].
  destruct (frameCount_per_tick torn_down 16 17 18 [(16, 17, 18); (32, 33, 34)]%R)
    as [_ Htorn].
  destruct (Htorn (proj1 torn_down_stopped)) as [Htorn1 Htorn2].
  split; [exists s1; split; [exact Hloop | rewrite Hn1, H0; reflexivity]|].
  split; [exists s2; split; [exact Hticks | rewrite Hn2, H0; reflexivity]|].
  split; [exact (proj1 (Hhalted eq_refl))|].
  split; [exact Htorn1 | exact Htorn2].
Defined.

(** ** C9: the uniforms of one tick *)

Lemma same_time_iff (a x y : R) : ((x - a) / 1000 = (y - a) / 1000 ↔ x = y)%R.
Proof. split; intros H; lra. Qed.

(** C9, as the code has it.  Within a tick of a ready, running pipeline
    the three passes receive the same frame index (iFrame, the value of
    [frameCount] when the tick starts) and the same resolution
    (iResolution, the canvas size), but iTime is computed inside each
    [renderPass] from its own reading of the clock: the passes receive
    [(t1 - startTime) / 1000], [(t2 - startTime) / 1000] and
    [(t3 - startTime) / 1000], which agree exactly when the three
    readings agree. *)
Theorem loop_uniforms (s : ShaderLoader) (c : Canvas) (g : WebGL.GL)
    (tA tB tP fA fB fP pA pB pI : nat) (t1 t2 t3 : R) :
  Ready s c g tA tB tP fA fB fP pA pB pI → isRunning s = true →
  ∃ s' uA uB uI,
    loop t1 t2 t3 s = Return tt s' ∧
    draw_uniforms (new_calls s s') = [uA; uB; uI] ∧
    iFrame uA = frameCount s ∧ iFrame uB = frameCount s ∧ iFrame uI = frameCount s ∧
    iResolution uA = (width c, height c) ∧ iResolution uB = (width c, height c) ∧
    iResolution uI = (width c, height c) ∧
    iTime uA = ((t1 - startTime s) / 1000)%R ∧
    iTime uB = ((t2 - startTime s) / 1000)%R ∧
    iTime uI = ((t3 - startTime s) / 1000)%R ∧
    (same_frame_state [uA; uB; uI] ↔ t1 = t2 ∧ t2 = t3).
Proof.
  intros HR Hrun.
  destruct (loop_effect s c g tA tB tP fA fB fP pA pB pI t1 t2 t3 HR Hrun)
    as (g' & xP & kA & kB & Hloop & _ & _ & Hlog & _).
  cbv zeta in *.
  eexists _, _, _, _. split; [exact Hloop|].
  split.
  { unfold new_calls, calls. js_fields. rewrite (ready_gl _ _ _ _ _ _ _ _ _ _ _ _ HR).
    rewrite Hlog, drop_app_length. reflexivity. }
  unfold passUniforms. cbn [iTime iFrame iResolution].
  repeat (split; [reflexivity|]).
  unfold same_frame_state. split.
  - intros H.
    destruct (H (mkUniforms ((t1 - startTime s) / 1000) (width c, height c) (frameCount s) 0 kA)
                (mkUniforms ((t2 - startTime s) / 1000) (width c, height c) (frameCount s) 0 kB))
      as (H12 & _);
      [apply list_elem_of_here | apply list_elem_of_further, list_elem_of_here |].
    destruct (H (mkUniforms ((t2 - startTime s) / 1000) (width c, height c) (frameCount s) 0 kB)
                (mkUniforms ((t3 - startTime s) / 1000) (width c, height c) (frameCount s) 0 1))
      as (H23 & _);
      [apply list_elem_of_further, list_elem_of_here
      |do 2 apply list_elem_of_further; apply list_elem_of_here |].
    cbn [iTime] in *. apply same_time_iff in H12, H23. auto.
  - intros [-> ->] u v Hu Hv.
    assert (∀ w, w ∈ [mkUniforms ((t3 - startTime s) / 1000) (width c, height c)
                        (frameCount s) 0 kA;
                      mkUniforms ((t3 - startTime s) / 1000) (width c, height c)
                        (frameCount s) 0 kB;
                      mkUniforms ((t3 - startTime s) / 1000) (width c, height c)
                        (frameCount s) 0 1] →
              iTime w = ((t3 - startTime s) / 1000)%R ∧ iFrame w = frameCount s ∧
              iResolution w = (width c, height c)) as Hall.
    { intros w Hw. repeat (apply elem_of_cons in Hw as [->|Hw]; [auto|]).
      apply elem_of_nil in Hw. contradiction. }
    destruct (Hall u Hu) as (-> & -> & ->). destruct (Hall v Hv) as (-> & -> & ->). auto.
Qed.

Lemma tiny_startTime : startTime tiny = 0%R.
Proof. vm_compute. reflexivity. Qed.

Lemma loop_uniforms_witness :
  ∃ s' uA uB uI,
    loop 1000 2000 3000 tiny = Return tt s' ∧
    draw_uniforms (new_calls tiny s') = [uA; uB; uI] ∧
    iTime uA = 1%R ∧ iTime uB = 2%R ∧ iTime uI = 3%R.
Proof.
  destruct (loop_uniforms tiny _ _ _ _ _ _ _ _ _ _ _ 1000 2000 3000 tiny_ready tiny_running)
    as (s' & uA & uB & uI & Hloop & Hdraws & _ & _ & _ & _ & _ & _ & HA & HB & HI & _).
  exists s', uA, uB, uI. split; [exact Hloop|]. split; [exact Hdraws|].
  rewrite HA, HB, HI, tiny_startTime.
  repeat split; lra.
Defined.

(** C9 as stated fails: with the clock reading 1000, 2000 and 3000 ms
    inside the three [renderPass] calls of one tick, the passes do not
    all receive the same iTime. *)
Lemma loop_uniforms_counterexample :
  ¬ (∀ s', loop 1000 2000 3000 tiny = Return tt s' →
           same_frame_state (draw_uniforms (new_calls tiny s'))).
Proof.
  intros Hclaim.
  destruct (loop_effect tiny _ _ _ _ _ _ _ _ _ _ _ 1000 2000 3000 tiny_ready tiny_running)
    as (g' & xP & kA & kB & Hloop & _ & _ & Hlog & _).
  cbv zeta in *. specialize (Hclaim _ Hloop).
  unfold new_calls, calls in Hclaim.
  cbn [gl set_gl set_frameCount set_page] in Hclaim.
  rewrite (ready_gl _ _ _ _ _ _ _ _ _ _ _ _ tiny_ready), Hlog, drop_app_length in Hclaim.
  cbn [draw_uniforms flat_map app] in Hclaim.
  destruct (Hclaim (passUniforms tiny (mkCanvas 4 3 1 true false) 1000 kA)
                   (passUniforms tiny (mkCanvas 4 3 1 true false) 2000 kB))
    as (Ht & _); [apply list_elem_of_here | apply list_elem_of_further, list_elem_of_here |].
  cbn [passUniforms iTime] in Ht. rewrite tiny_startTime in Ht. lra.
Qed.

(** ** C5: the targets after the first tick *)

(** A tick of a ready, running pipeline whose history holds [x]: the
    working and the history target both end with Pass A's output on [x]. *)
Lemma loop_feedback s c g tA tB tP fA fB fP pA pB pI u x t1 t2 t3 :
  Ready s c g tA tB tP fA fB fP pA pB pI → isRunning s = true →
  WebGL.programs g !! pA = Some (WebGL.mkProgram BufferAShader 1 u) →
  target_pixels s "bufferAPrev" = Some x →
  let y := Shaded BufferAShader (passUniforms s c t1 (iChannel1 u)) [Some x]
             (width c, height c) in
  ∃ s1, loop t1 t2 t3 s = Return tt s1 ∧
        target_pixels s1 "bufferA" = Some y ∧ target_pixels s1 "bufferAPrev" = Some y.
Proof.
  intros HR Hrun HuA HP y.
  destruct (loop_effect s _ g _ _ _ _ _ _ _ _ _ t1 t2 t3 HR Hrun)
    as (g' & xP & kA & kB & Hloop & _ & HP0 & _ & HA' & _ & HP' & _ & _ & _ & _
        & (u' & Hu & HkA) & _).
  cbv zeta in *.
  rewrite HP in HP0. injection HP0 as <-.
  rewrite HuA in Hu. injection Hu as <-. subst kA.
  eexists. split; [exact Hloop|]. split; [exact HA'|exact HP'].
Qed.

(** C5, as the code has it.  On the WebGL path the history target is
    blank (all black) when [init] returns, so Pass A of the first tick
    samples the blank history; when the first tick ends, the working
    target holds Pass A's output and the history target holds a copy of
    it, the feedback copy having run at the end of the tick. *)
Theorem first_tick_feedback (now W H : R) (cb : option nat) (t1 t2 t3 : R) :
  let w := Zfloor W in
  let h := Zfloor H in
  let y := Shaded BufferAShader (mkUniforms ((t1 - now) / 1000) (w, h) 0 0 0)
             [Some (Black w h)] (w, h) in
  ∃ s s1,
    init true (λ _, Linked) (loader now W H cb) = Return tt s ∧
    target_pixels s "bufferAPrev" = Some (Black w h) ∧
    loop t1 t2 t3 s = Return tt s1 ∧
    target_pixels s1 "bufferA" = Some y ∧
    target_pixels s1 "bufferAPrev" = Some y.
Proof.
  intros w h y.
  destruct (init_webgl now W H cb)
    as (s & g & Hinit & HR & Hrun & Hn & Hstart & _ & _ & _ & _ & _ & _ & _ & _ & HP & _ & _
        & HuA & _).
  fold w h in HR, HP.
  destruct (loop_feedback s _ g _ _ _ _ _ _ _ _ _ _ _ t1 t2 t3 HR Hrun HuA HP)
    as (s1 & Hloop & HA' & HP').
  unfold passUniforms in HA', HP'. rewrite Hstart, Hn in HA', HP'.
  cbn [width height iChannel1] in HA', HP'.
  exists s, s1. split; [exact Hinit|]. split; [exact HP|]. split; [exact Hloop|].
  split; [exact HA'|exact HP'].
Qed.

(** C5 as stated fails: after the first tick in a 4 by 3 window the
    history target is not blank while the working target holds a
    non-blank output, for the two hold the same pixels. *)
Lemma first_tick_counterexample :
  ¬ (target_pixels (first_tick 0 4 3 16 16 16) "bufferAPrev" = Some (Black 4 3) ∧
     ∃ y, target_pixels (first_tick 0 4 3 16 16 16) "bufferA" = Some y ∧ y ≠ Black 4 3).
Proof.
  destruct (init_webgl 0 4 3 None)
    as (s & g & Hinit & HR & Hrun & _ & _ & _ & _ & _ & _ & _ & _ & _ & _ & HP & _ & _ & HuA & _).
  destruct (loop_feedback s _ g _ _ _ _ _ _ _ _ _ _ _ 16 16 16 HR Hrun HuA HP)
    as (s1 & Hloop & HA' & HP').
  assert (first_tick 0 4 3 16 16 16 = s1) as ->.
  { unfold first_tick. rewrite Hinit. cbn [state_of]. rewrite Hloop. reflexivity. }
  rewrite HA', HP'.
  intros (Hblank & y & Hy & Hne). congruence.
Qed.

(** ** C10: a resize notification without a change of size *)

(** C10.  When the floored window size equals the canvas size,
    [handleResize] returns the loader as it received it: the canvas,
    every texture and framebuffer, and the context are untouched (and so
    it does when there is no canvas). *)
Theorem handleResize_same_size (s : ShaderLoader) :
  (∀ c, canvas s = Some c →
        width c = Zfloor (innerWidth (page s)) ∧
        height c = Zfloor (innerHeight (page s))) →
  handleResize s = Return tt s.
Proof.
  intros Hsame. unfold handleResize. js_run.
  destruct (canvas s) as [c|] eqn:Hc; [|reflexivity].
  destruct (isTransitioning s); [reflexivity|].
  js_run. destruct (Hsame c eq_refl) as [Hw Hh].
  rewrite decide_True by (split; assumption). reflexivity.
Qed.

Lemma handleResize_same_size_witness :
  handleResize (booted 800 600) = Return tt (booted 800 600).
Proof.
  apply (handleResize_same_size (booted 800 600)).
  intros c Hc. injection Hc as <-. cbn [booted page innerWidth innerHeight width height].
  rewrite !ZfloorZ. split; reflexivity.
Defined.

(** When the size did change, the canvas takes the new size and the
    targets are rebuilt. *)
Lemma handleResize_changed s c g :
  canvas s = Some c → isTransitioning s = false → gl s = Some g →
  let w := Zfloor (innerWidth (page s)) in
  let h := Zfloor (innerHeight (page s)) in
  ¬ (width c = w ∧ height c = h) →
  ∃ s1, (resizeCanvas w h;; updateLogoPosition) s = Return tt s1 ∧
        canvas s1 = Some (mkCanvas w h (opacity c) (parentNode c) (pattern c)) ∧
        handleResize s = createFramebuffers s1.
Proof.
  intros Hc Ht Hg w h Hne.
  assert (∃ s1, (resizeCanvas w h;; updateLogoPosition) s = Return tt s1 ∧
                canvas s1 = Some (mkCanvas w h (opacity c) (parentNode c) (pattern c)) ∧
                ∃ g1, gl s1 = Some g1) as (s1 & Hs1 & Hc1 & g1 & Hg1).
  { unfold bind, resizeCanvas, updateLogoPosition. rewrite Hc, Hg.
    cbn [fmap option_fmap option_map]. js_fields.
    destruct (logoOverlay s); eexists; (split; [reflexivity|]); js_fields; eauto. }
  exists s1. split; [exact Hs1|]. split; [exact Hc1|].
  unfold handleResize. js_run. rewrite Hc, Ht. js_run. fold w h.
  rewrite decide_False by exact Hne.
  rewrite <- bind_assoc. erewrite bind_run by exact Hs1.
  js_run. rewrite Hg1. reflexivity.
Qed.

(** ** C7: the fade of the logo overlay *)

Local Open Scope R_scope.

Lemma handleTransition_run (p : R) s c l :
  canvas s = Some c → logoOverlay s = Some l →
  handleTransition p s =
    Return tt
      (let s1 := set_canvas (Some (mkCanvas (width c) (height c) (1 - Rmin (p / 0.6) 1)
                                     (parentNode c) (pattern c))) s in
       if Rlt_dec 0.4 p then
         let logoFade := (p - 0.4) / 0.6 in
         set_logoOverlay
           (Some (mkOverlay (1 - logoFade) (sin (logoFade * PI * 4) * logoFade * 10)
                    (1 + logoFade * 0.2) (logoFade * 5) (logo_parentNode l))) s1
       else s1).
Proof.
  intros Hc Hl. unfold handleTransition. js_run. cbv zeta.
  destruct (Rlt_dec 0.4 p); js_run; reflexivity.
Qed.

Lemma sin_4PI : sin (1 * PI * 4) = 0.
Proof.
  replace (1 * PI * 4) with (0 + 2 * INR 2 * PI) by (simpl; lra).
  rewrite sin_period. apply sin_0.
Qed.

(** The logo overlay [handleTransition p] leaves, starting from [l]. *)
Lemma handleTransition_overlay (p : R) s c l :
  canvas s = Some c → logoOverlay s = Some l →
  ∃ s', handleTransition p s = Return tt s' ∧
    logoOverlay s' =
      Some (if Rlt_dec 0.4 p then
              mkOverlay (1 - (p - 0.4) / 0.6)
                (sin ((p - 0.4) / 0.6 * PI * 4) * ((p - 0.4) / 0.6) * 10)
                (1 + (p - 0.4) / 0.6 * 0.2) ((p - 0.4) / 0.6 * 5) (logo_parentNode l)
            else l).
Proof.
  intros Hc Hl. rewrite (handleTransition_run p s c l Hc Hl). cbv zeta.
  eexists. split; [reflexivity|].
  destruct (Rlt_dec 0.4 p); js_fields; [reflexivity|exact Hl].
Qed.

(** C7, as the code has it.  For a progress [p] in [0,1] and an overlay
    shown at opacity 1: [handleTransition p] leaves the overlay alone
    while [p <= 0.4]; for [p > 0.4] it sets its opacity to
    [1 - (p - 0.4) / 0.6], its horizontal offset to
    [sin (4 PI f) * f * 10] and its blur radius to [5 f], with
    [f = (p - 0.4) / 0.6]; the opacity is non-increasing in [p]; and at
    [p = 1] the overlay has opacity 0 and offset 0 while its blur is at
    its largest, 5 px. *)
Theorem handleTransition_logo_fade (p : R) (s : ShaderLoader) (c : Canvas) (l : Overlay) :
  canvas s = Some c → logoOverlay s = Some l → logo_opacity l = 1 →
  0 <= p <= 1 →
  ∃ s' l',
    handleTransition p s = Return tt s' ∧ logoOverlay s' = Some l' ∧
    (p <= 0.4 → l' = l) ∧
    (0.4 < p →
       logo_opacity l' = 1 - (p - 0.4) / 0.6 ∧
       logo_offset l' = sin ((p - 0.4) / 0.6 * PI * 4) * ((p - 0.4) / 0.6) * 10 ∧
       logo_blur l' = (p - 0.4) / 0.6 * 5) ∧
    0 <= logo_opacity l' <= 1 ∧
    (∀ q s2 l2, p <= q <= 1 → handleTransition q s = Return tt s2 →
                logoOverlay s2 = Some l2 → logo_opacity l2 <= logo_opacity l') ∧
    (p = 1 → logo_opacity l' = 0 ∧ logo_offset l' = 0 ∧ logo_blur l' = 5).
Proof.
  intros Hc Hl Hop Hp.
  destruct (handleTransition_overlay p s c l Hc Hl) as (s' & Hrun & Hl').
  eexists s', _. split; [exact Hrun|]. split; [exact Hl'|].
  destruct (Rlt_dec 0.4 p) as [Hlt|Hle]; cbn [logo_opacity logo_offset logo_blur].
  - split; [intros; lra|]. split; [intros _; auto|]. split; [lra|].
    split.
    + intros q s2 l2 Hq Hrun2 Hl2.
      destruct (handleTransition_overlay q s c l Hc Hl) as (s2' & Hrun2' & Hl2').
      rewrite Hrun2 in Hrun2'. injection Hrun2' as <-.
      rewrite Hl2 in Hl2'. injection Hl2' as ->.
      destruct (Rlt_dec 0.4 q); [|lra]. cbn [logo_opacity]. lra.
    + intros ->. replace ((1 - 0.4) / 0.6) with 1 by lra.
      rewrite sin_4PI. repeat split; lra.
  - split; [intros; reflexivity|]. split; [intros; lra|]. rewrite Hop. split; [lra|].
    split; [|intros; lra].
    intros q s2 l2 Hq Hrun2 Hl2.
    destruct (handleTransition_overlay q s c l Hc Hl) as (s2' & Hrun2' & Hl2').
    rewrite Hrun2 in Hrun2'. injection Hrun2' as <-.
    rewrite Hl2 in Hl2'. injection Hl2' as ->.
    destruct (Rlt_dec 0.4 q); cbn [logo_opacity]; lra.
Qed.

Lemma shown_canvas : canvas shown = Some (mkCanvas 4 3 1 true false).
Proof. vm_compute. reflexivity. Qed.

Lemma shown_logoOverlay : logoOverlay shown = Some (mkOverlay 1 0 1 0 true).
Proof. vm_compute. reflexivity. Qed.

Lemma handleTransition_logo_fade_witness :
  ∃ s' l', handleTransition 1 shown = Return tt s' ∧ logoOverlay s' = Some l' ∧
           logo_opacity l' = 0 ∧ logo_offset l' = 0 ∧ logo_blur l' = 5.
Proof.
  destruct (handleTransition_logo_fade 1 shown _ _ shown_canvas shown_logoOverlay)
    as (s' & l' & Hrun & Hl' & _ & _ & _ & _ & Hend); [reflexivity | lra |].
  exists s', l'. split; [exact Hrun|]. split; [exact Hl'|]. apply Hend. reflexivity.
Defined.

(** C7 as stated fails: at progress 1 the overlay is not free of blur. *)
Lemma handleTransition_logo_fade_counterexample :
  ¬ (∃ s' l', handleTransition 1 shown = Return tt s' ∧ logoOverlay s' = Some l' ∧
              logo_opacity l' = 0 ∧ logo_offset l' = 0 ∧ logo_blur l' = 0).
Proof.
  intros (s' & l' & Hrun & Hl' & _ & _ & Hblur).
  destruct (handleTransition_overlay 1 shown _ _ shown_canvas shown_logoOverlay)
    as (s2 & Hrun2 & Hl2).
  rewrite Hrun in Hrun2. injection Hrun2 as <-.
  rewrite Hl' in Hl2. injection Hl2 as ->.
  destruct (Rlt_dec 0.4 1); [|lra]. cbn [logo_blur] in Hblur. lra.
Qed.

(** ** Completion *)

Lemma complete_run s : complete s = Return tt (completed s).
Proof.
  unfold complete, completed, completionSignals, unlockScroll, detached, detachedLogo.
  destruct s as [cv ? ? ? ? ? ? ? ? ? ? cb ? lg ? pg]. destruct pg.
  destruct cv as [[? ? ? [] ?]|], lg as [[? ? ? ? []]|], cb as [cb|];
    js_run; unfold on_page, modify; js_flat; cbn [fmap option_fmap option_map app];
    rewrite <- ?app_assoc; reflexivity.
Qed.

Lemma count_callbacks_app l1 l2 :
  count_callbacks (l1 ++ l2) = (count_callbacks l1 + count_callbacks l2)%nat.
Proof. unfold count_callbacks. rewrite List.filter_app, length_app. reflexivity. Qed.

Lemma count_events_app l1 l2 :
  count_events (l1 ++ l2) = (count_events l1 + count_events l2)%nat.
Proof. unfold count_events. rewrite List.filter_app, length_app. reflexivity. Qed.

Lemma count_events_completion s : count_events (completionSignals s) = 1%nat.
Proof. unfold completionSignals. destruct (onComplete s); reflexivity. Qed.

Lemma count_callbacks_completion s :
  count_callbacks (completionSignals s) = if onComplete s is Some _ then 1%nat else 0%nat.
Proof. unfold completionSignals. destruct (onComplete s); reflexivity. Qed.

(** [handleTransition] touches the canvas and the logo only, whether it
    returns or throws. *)
Lemma handleTransition_frame p s :
  ∃ s1, (handleTransition p s = Return tt s1 ∨ handleTransition p s = Throw s1) ∧
        page s1 = page s ∧ onComplete s1 = onComplete s ∧ gl s1 = gl s.
Proof.
  unfold handleTransition, bind, deref, modify, skip, ret.
  destruct (canvas s); [|eauto 10].
  destruct (Rlt_dec 0.4 p); [|eauto 10].
  js_fields. destruct (logoOverlay s); eauto 10.
Qed.

Lemma completed_signals s :
  signals (page (completed s)) = (signals (page s) ++ completionSignals s)%list.
Proof. reflexivity. Qed.

(** One run of the timer callback either signals nothing, or clears its
    timer and signals completion once. *)
Lemma transitionTick_cases i t s :
  let s1 := state_of (transitionTick i t s) in
  onComplete s1 = onComplete s ∧ gl s1 = gl s ∧
  (signals (page s1) = signals (page s) ∨
   ((i ∉ intervals (page s1)) ∧
    signals (page s1) = (signals (page s) ++ completionSignals s)%list)).
Proof.
  unfold transitionTick. js_run.
  set (progress := Rmin _ 1).
  assert (∃ s1, ((if Rle_dec 0 progress then handleTransition progress else skip) s = Return tt s1
                 ∨ (if Rle_dec 0 progress then handleTransition progress else skip) s = Throw s1)
                ∧ page s1 = page s ∧ onComplete s1 = onComplete s ∧ gl s1 = gl s)
    as (s1 & [H1|H1] & Hp & Hc & Hg).
  { destruct (Rle_dec 0 progress); [apply handleTransition_frame|].
    exists s. split; [left; reflexivity|auto]. }
  - erewrite bind_run by exact H1.
    destruct (Rle_dec 1 progress).
    + js_run. rewrite complete_run. cbn [state_of].
      split; [exact Hc|]. split; [exact Hg|]. right.
      rewrite completed_signals. js_fields. rewrite Hp.
      split; [unfold completed; js_fields;
              rewrite elem_of_difference, elem_of_singleton; tauto|].
      unfold completionSignals. js_fields. rewrite Hc. reflexivity.
    + cbn [state_of skip ret]. rewrite Hp. auto.
  - unfold bind. rewrite H1. cbn [state_of]. rewrite Hp. auto.
Qed.

Lemma intervalFired_idle i t s :
  i ∉ intervals (page s) → intervalFired i t s = Return tt s.
Proof. intros H. unfold intervalFired. js_run. rewrite decide_False by exact H. reflexivity. Qed.

Lemma intervalFired_active i t s :
  i ∈ intervals (page s) → intervalFired i t s = transitionTick i t s.
Proof. intros H. unfold intervalFired. js_run. rewrite decide_True by exact H. reflexivity. Qed.

Lemma intervalTicks_idle i ts : ∀ s, i ∉ intervals (page s) → intervalTicks i ts s = s.
Proof.
  unfold intervalTicks. induction ts as [|t ts IH]; intros s H; [reflexivity|].
  cbn [foldl]. rewrite intervalFired_idle by exact H. cbn [state_of]. apply IH, H.
Qed.

(** However often the timer fires, completion is signalled at most once. *)
Lemma intervalTicks_once i ts : ∀ s,
  let s' := intervalTicks i ts s in
  onComplete s' = onComplete s ∧
  (signals (page s') = signals (page s) ∨
   signals (page s') = (signals (page s) ++ completionSignals s)%list).
Proof.
  induction ts as [|t ts IH]; intros s; cbv zeta; [auto|].
  change (intervalTicks i (t :: ts) s)
    with (intervalTicks i ts (state_of (intervalFired i t s))).
  destruct (decide (i ∈ intervals (page s))) as [Hin|Hout].
  - rewrite intervalFired_active by exact Hin.
    destruct (transitionTick_cases i t s) as (Hc & _ & [Hs|[Hgone Hs]]).
    + destruct (IH (state_of (transitionTick i t s))) as (Hc' & Hs').
      cbv zeta in *. split; [congruence|].
      unfold completionSignals in *. rewrite Hc, Hs in Hs'. exact Hs'.
    + rewrite intervalTicks_idle by exact Hgone. auto.
  - rewrite intervalFired_idle by exact Hout. cbn [state_of].
    rewrite intervalTicks_idle by exact Hout. auto.
Qed.

Local Open Scope R_scope.

(** The transition run to its end: the logo is shown, the timer is
    started, and it fires at a reading [t] at which the fade is over. *)
Lemma finish_run (t : R) s c l :
  canvas s = Some c → logoOverlay s = Some l →
  0 < transitionDuration s →
  transitionDuration s <= t - startTime s - transitionStart s →
  ∃ s1,
    finish t s = Return tt s1 ∧
    signals (page s1) = (signals (page s) ++ completionSignals s)%list ∧
    isRunning s1 = false ∧
    parentNode <$> canvas s1 = Some false ∧
    logo_parentNode <$> logoOverlay s1 = Some false ∧
    opacity <$> canvas s1 = Some 0 ∧
    logo_opacity <$> logoOverlay s1 = Some 0 ∧
    shaderLoading (page s1) = false ∧ scrollLocked (page s1) = false ∧
    resizeListening (page s1) = false ∧
    (nextTimer (page s) ∉ intervals (page s1)) ∧
    gl s1 = gl s ∧ programs s1 = programs s ∧ textures s1 = textures s ∧
    framebuffers s1 = framebuffers s ∧ buffer s1 = buffer s ∧
    frameCount s1 = frameCount s.
Proof.
  intros Hc Hl Hd Ht.
  assert (Rmin ((t - startTime s - transitionStart s) / transitionDuration s) 1 = 1) as Hp.
  { apply Rmin_right. apply Rmult_le_reg_r with (transitionDuration s); [exact Hd|].
    unfold Rdiv. rewrite Rmult_assoc, Rinv_l by lra. lra. }
  unfold finish, runTask, startTransition, setInterval.
  js_run. erewrite bind_run by reflexivity. js_fields.
  rewrite intervalFired_active
    by (js_fields; rewrite elem_of_union, elem_of_singleton; auto).
  unfold transitionTick. js_run. rewrite Hp.
  destruct (Rle_dec 0 1) as [_|]; [|lra]. destruct (Rle_dec 1 1) as [_|]; [|lra].
  erewrite bind_run by (eapply handleTransition_run; js_side).
  cbv zeta. destruct (Rlt_dec 0.4 1) as [_|]; [|lra].
  js_run. rewrite complete_run.
  eexists. split; [reflexivity|].
  unfold completed, completionSignals. js_fields.
  cbn [fmap option_fmap option_map]. js_fields.
  unfold detached, detachedLogo. js_fields.
  repeat split; try reflexivity.
  - f_equal. rewrite Rmin_right by lra. lra.
  - f_equal. lra.
  - rewrite elem_of_difference, elem_of_singleton. tauto.
Qed.

(** ** The fallback presenter *)

Lemma fallbackToCSS_run s c :
  canvas s = Some c →
  fallbackToCSS s =
    Return tt
      (set_page
         (setTimeout StartTransition (transitionStart s) (set_pulseStyle true (page s)))
         (set_canvas (Some (mkCanvas (width c) (height c) 1 (parentNode c) true))
            (set_hasError true s))).
Proof.
  intros Hc. unfold fallbackToCSS. js_run. unfold on_page, modify. js_fields. reflexivity.
Qed.

(** [init] when WebGL2 is missing or a pass does not compile or link:
    the fallback is engaged, no program is kept and no frame is
    requested. *)
Lemma init_fallback_run (now W H : R) (cb : option nat) (webgl2 : bool)
    (result : Shader → Outcome) :
  webgl2 = false ∨ (∃ pass, result pass ≠ Linked) →
  ∃ s,
    init webgl2 result (loader now W H cb) = Return tt s ∧
    hasError s = true ∧ programs s = ∅ ∧ buffer s = None ∧
    canvas s = Some (mkCanvas (Zfloor W) (Zfloor H) 1 true true) ∧
    logoOverlay s = Some (mkOverlay 0 0 1 0 true) ∧
    page s = mkPage W H true true true true
               [(500, ShowLogo); (5000, StartTransition)] false ∅ 0 [] ∧
    isRunning s = true ∧ frameCount s = 0%Z ∧ startTime s = now ∧
    transitionStart s = 5000 ∧ transitionDuration s = 1500 ∧ onComplete s = cb ∧
    (webgl2 = false → gl s = None).
Proof.
  intros Hfail. unfold init, try_catch, loader, constructor, blankPage.
  erewrite bind_run by apply createCanvas_run. js_flat.
  unfold setupWebGL. js_run.
  destruct webgl2.
  - destruct Hfail as [?|Hfail]; [discriminate|]. js_run.
    erewrite bind_run by (eapply createFramebuffers_run; js_side). js_fields.
    edestruct (compileShaders_failed result) as (g' & Hcomp & _); [|exact Hfail|].
    2: { erewrite bind_run by exact Hcomp. js_fields.
         erewrite fallbackToCSS_run by js_side. js_flat.
         eexists. split; [reflexivity|]. js_fields.
         repeat split; try reflexivity. intros; discriminate. }
    reflexivity.
  - js_run. erewrite fallbackToCSS_run by js_side. js_flat.
    eexists. split; [reflexivity|]. js_fields. repeat split; reflexivity.
Qed.

(** ** C6: the fallback converges on the same finalization *)

(** C6.  Whenever WebGL2 is unavailable or one of the three programs
    does not compile or link, [init] engages the fallback presenter
    instead of the WebGL pipeline (the error flag is set, the pulse
    pattern is shown, no program is kept and no frame is requested) and
    schedules [startTransition] after the same 5000 ms as the WebGL path
    does.  Run to the end of the fade, the transition finalizes both
    paths alike: the completion callback (when one is set) and the
    broadcast event are both signalled, once each, the loader stops, and
    canvas and logo leave the page. *)
Theorem init_fallback_converges (now W H : R) (cb : option nat) (webgl2 : bool)
    (result : Shader → Outcome) (t : R) :
  webgl2 = false ∨ (∃ pass, result pass ≠ Linked) →
  6500 <= t - now →
  ∃ s sg s1 sg1,
    init webgl2 result (loader now W H cb) = Return tt s ∧
    init true (λ _, Linked) (loader now W H cb) = Return tt sg ∧
    hasError s = true ∧ hasError sg = false ∧
    pattern <$> canvas s = Some true ∧
    programs s = ∅ ∧ animationFrame (page s) = false ∧
    timeouts (page s) = [(500, ShowLogo); (5000, StartTransition)] ∧
    timeouts (page sg) = timeouts (page s) ∧
    finish t s = Return tt s1 ∧ finish t sg = Return tt sg1 ∧
    signals (page s1) =
      ((if cb is Some f then [CallOnComplete f] else []) ++
       [DispatchEvent "shaderLoaderComplete"])%list ∧
    signals (page sg1) = signals (page s1) ∧
    isRunning s1 = false ∧ isRunning sg1 = false ∧
    parentNode <$> canvas s1 = Some false ∧ parentNode <$> canvas sg1 = Some false ∧
    logo_parentNode <$> logoOverlay s1 = Some false ∧
    logo_parentNode <$> logoOverlay sg1 = Some false ∧
    scrollLocked (page s1) = false ∧ scrollLocked (page sg1) = false.
Proof.
  intros Hfail Ht.
  destruct (init_fallback_run now W H cb webgl2 result Hfail)
    as (s & Hinit & Herr & Hprog & _ & Hc & Hl & Hpage & _ & _ & Hstart & Hdelay & Hdur & Hcb & _).
  destruct (init_webgl now W H cb)
    as (sg & g & Hinitg & HR & _ & _ & Hstartg & Herrg & Hcbg & _ & Hlg & Hdelayg & Hdurg
        & Hpageg & _).
  destruct (finish_run t s _ _ Hc Hl)
    as (s1 & Hfin & Hsig & Hrun & Hpc & Hpl & _ & _ & _ & Hscroll & _);
    [rewrite Hdur; lra | rewrite Hdur, Hstart, Hdelay; lra |].
  destruct (finish_run t sg _ _ (ready_canvas _ _ _ _ _ _ _ _ _ _ _ _ HR) Hlg)
    as (sg1 & Hfing & Hsigg & Hrung & Hpcg & Hplg & _ & _ & _ & Hscrollg & _);
    [rewrite Hdurg; lra | rewrite Hdurg, Hstartg, Hdelayg; lra |].
  exists s, sg, s1, sg1.
  unfold completionSignals in Hsig, Hsigg.
  rewrite Hpage, Hcb in Hsig. rewrite Hpageg, Hcbg in Hsigg. cbn [signals app] in Hsig, Hsigg.
  rewrite Hsig, Hsigg, Hc, Hpage, Hpageg.
  repeat split; assumption || reflexivity.
Qed.

Lemma init_fallback_converges_witness :
  ∃ s s1,
    init false (λ _, Linked) (loader 0 4 3 (Some 7%nat)) = Return tt s ∧
    hasError s = true ∧
    finish 6500 s = Return tt s1 ∧
    signals (page s1) = [CallOnComplete 7; DispatchEvent "shaderLoaderComplete"] ∧
    isRunning s1 = false.
Proof.
  destruct (init_fallback_converges 0 4 3 (Some 7%nat) false (λ _, Linked) 6500)
    as (s & sg & s1 & sg1 & Hinit & _ & Herr & _ & _ & _ & _ & _ & _ & Hfin & _ & Hsig & _
        & Hrun & _); [left; reflexivity | lra |].
  exists s, s1. repeat split; assumption.
Defined.

(** ** C4: invoking the finalization more than once *)

(** C4, as the code has it.  Every invocation of [complete] invokes the
    completion callback (when one is set) and dispatches the broadcast
    event once more: [complete] has no already-completed check, so
    invoking it twice signals each twice.  What keeps the transition from
    finalizing more than once is its timer: the callback clears its
    interval before it calls [complete], so however often the timer
    fires, the callback and the event are signalled at most once. *)
Theorem complete_every_time (s : ShaderLoader) (i : nat) (ts : list R) :
  (∃ s1 s2,
     complete s = Return tt s1 ∧ complete s1 = Return tt s2 ∧
     signals (page s1) = (signals (page s) ++ completionSignals s)%list ∧
     signals (page s2) =
       (signals (page s) ++ completionSignals s ++ completionSignals s)%list ∧
     count_events (signals (page s2)) = (count_events (signals (page s)) + 2)%nat ∧
     (is_Some (onComplete s) →
      count_callbacks (signals (page s2)) = (count_callbacks (signals (page s)) + 2)%nat)) ∧
  (count_events (signals (page (intervalTicks i ts s)))
     <= count_events (signals (page s)) + 1)%nat ∧
  (count_callbacks (signals (page (intervalTicks i ts s)))
     <= count_callbacks (signals (page s)) + 1)%nat.
Proof.
  split.
  - exists (completed s), (completed (completed s)).
    split; [apply complete_run|]. split; [apply complete_run|].
    split; [reflexivity|].
    assert (completionSignals (completed s) = completionSignals s) as Hsame by reflexivity.
    assert (signals (page (completed (completed s))) =
              (signals (page s) ++ completionSignals s ++ completionSignals s)%list) as Hsig.
    { rewrite !completed_signals, Hsame, <- app_assoc. reflexivity. }
    split; [exact Hsig|]. rewrite Hsig.
    rewrite !count_events_app, !count_callbacks_app, count_events_completion,
      count_callbacks_completion.
    split; [lia|]. intros [cb Hcb]. rewrite Hcb. lia.
  - destruct (intervalTicks_once i ts s) as (_ & [Hs|Hs]); rewrite Hs;
      rewrite ?count_events_app, ?count_callbacks_app, ?count_events_completion,
        ?count_callbacks_completion; destruct (onComplete s); lia.
Qed.

(** C4 as stated fails: invoking [complete] twice on a loader with a
    callback set invokes the callback twice and dispatches the event
    twice. *)
Lemma complete_every_time_counterexample :
  ¬ (count_callbacks (signals (page (state_of ((complete;; complete) armed)))) = 1%nat ∧
     count_events (signals (page (state_of ((complete;; complete) armed)))) = 1%nat).
Proof.
  erewrite bind_run by apply complete_run. rewrite complete_run. cbn [state_of].
  rewrite !completed_signals, !count_callbacks_app, !count_events_app,
    !count_callbacks_completion, !count_events_completion.
  change (onComplete (completed armed)) with (Some 7%nat).
  change (onComplete armed) with (Some 7%nat).
  intros [H _]. lia.
Qed.

(** ** C3: what finalization releases *)

(** C3 on the code.  On the WebGL path, when the transition timer fires
    at progress 1 (6500 ms after construction), [complete] stops the
    loader and takes canvas and logo off the page, but the context is
    left exactly as it was: the three programs, the three textures, the
    three framebuffers and the vertex buffer are all still live and no
    delete call has been issued. *)
Theorem complete_keeps_gpu_objects (W H : R) (cb : option nat) :
  ∃ s g s1,
    init true (λ _, Linked) (loader 0 W H cb) = Return tt s ∧
    finish 6500 s = Return tt s1 ∧
    isRunning s1 = false ∧
    parentNode <$> canvas s1 = Some false ∧
    logo_parentNode <$> logoOverlay s1 = Some false ∧
    gl s1 = Some g ∧
    programs s1 = programs s ∧ textures s1 = textures s ∧
    framebuffers s1 = framebuffers s ∧ buffer s1 = Some 10%nat ∧
    (∀ p, p ∈ [7; 8; 9]%nat → is_Some (WebGL.programs g !! p)) ∧
    (∀ x, x ∈ [1; 2; 3]%nat → is_Some (WebGL.textures g !! x)) ∧
    (∀ f, f ∈ [4; 5; 6]%nat → is_Some (WebGL.framebuffers g !! f)) ∧
    (10%nat ∈ WebGL.buffers g) ∧
    List.filter is_delete (calls s1) = [].
Proof.
  destruct (init_webgl 0 W H cb)
    as (s & g & Hinit & HR & _ & _ & Hstart & _ & _ & Hbuf & Hl & Hdelay & Hdur & _ & _ & _
        & Hbufs & _ & _ & Hlog).
  pose proof HR as [Hc Hg _ _ _ _ _ _ _ _ _ [xA HxA] [xB HxB] [xP HxP] HaA HaB HaP
                    [uA HuA] [uB HuB] [uI HuI] _ _ _ _ _ _ _ _].
  destruct (finish_run 6500 s _ _ Hc Hl)
    as (s1 & Hfin & _ & Hrun & Hpc & Hpl & _ & _ & _ & _ & _ & _ & Hg1 & Hp1 & Ht1 & Hf1 & Hb1 & _);
    [rewrite Hdur; lra | rewrite Hdur, Hstart, Hdelay; lra |].
  exists s, g, s1.
  split; [exact Hinit|]. split; [exact Hfin|]. split; [exact Hrun|].
  split; [exact Hpc|]. split; [exact Hpl|]. split; [congruence|].
  split; [exact Hp1|]. split; [exact Ht1|]. split; [exact Hf1|]. split; [congruence|].
  split.
  { intros p Hp. repeat (apply elem_of_cons in Hp as [->|Hp]; [eauto|]).
    apply elem_of_nil in Hp. contradiction. }
  split.
  { intros x Hx. repeat (apply elem_of_cons in Hx as [->|Hx]; [eauto|]).
    apply elem_of_nil in Hx. contradiction. }
  split.
  { intros f Hf. repeat (apply elem_of_cons in Hf as [->|Hf]; [eauto|]).
    apply elem_of_nil in Hf. contradiction. }
  split; [rewrite Hbufs; apply elem_of_singleton; reflexivity|].
  unfold calls. rewrite Hg1, Hg, Hlog. reflexivity.
Qed.

(** [destroy], which nothing in the loader calls, is the method that
    does release them. *)
Lemma destroy_tiny :
  ∃ s' g',
    destroy tiny = Return tt s' ∧ gl s' = Some g' ∧ isRunning s' = false ∧
    WebGL.programs g' = ∅ ∧ WebGL.textures g' = ∅ ∧ WebGL.framebuffers g' = ∅ ∧
    WebGL.buffers g' = ∅ ∧
    length (List.filter is_delete (WebGL.log g')) = 10%nat.
Proof.
  eexists _, _. split; [vm_compute; reflexivity|].
  repeat split; vm_compute; reflexivity.
Qed.


(** * Beyond the claims *)

Local Close Scope R_scope.

(** ** Resizes and refreshes of a running pipeline *)

Lemma release_ready ts fs tA tB tP fA fB fP g :
  ts !! "bufferA" = Some tA → ts !! "bufferB" = Some tB → ts !! "bufferAPrev" = Some tP →
  fs !! "bufferA" = Some fA → fs !! "bufferB" = Some fB → fs !! "bufferAPrev" = Some fP →
  Calls.release ts fs g =
    WebGL.mkGL (WebGL.next g)
      (delete tP (delete tB (delete tA (WebGL.textures g))))
      (delete fP (delete fB (delete fA (WebGL.framebuffers g))))
      (WebGL.programs g) (WebGL.buffers g) (WebGL.currentProgram g)
      (WebGL.drawFramebuffer g) (WebGL.readFramebuffer g) (WebGL.viewportSize g)
      (WebGL.activeUnit g) (WebGL.units g) (WebGL.canvasPixels g)
      (WebGL.log g ++ [WebGL.EvDeleteTexture tA; WebGL.EvDeleteTexture tB;
                       WebGL.EvDeleteTexture tP; WebGL.EvDeleteFramebuffer fA;
                       WebGL.EvDeleteFramebuffer fB; WebGL.EvDeleteFramebuffer fP]).
Proof.
  intros H1 H2 H3 H4 H5 H6. unfold Calls.release. rewrite H1, H2, H3, H4, H5, H6.
  destruct g. gl_flat. rewrite <- !app_assoc. reflexivity.
Qed.


Lemma released_refl g : released g g.
Proof. repeat split. exists []. rewrite app_nil_r. split; [reflexivity | constructor]. Qed.

Lemma released_trans g1 g2 g3 : released g1 g2 → released g2 g3 → released g1 g3.
Proof.
  intros (Hn & Hp & Hb & Hc & d1 & Hl & Hd) (Hn' & Hp' & Hb' & Hc' & d2 & Hl' & Hd').
  repeat split; try congruence.
  exists (d1 ++ d2)%list. split.
  - rewrite Hl', Hl, app_assoc. reflexivity.
  - apply Forall_app. split; assumption.
Qed.

Lemma released_deleteTexture t g : released g (WebGL.deleteTexture t g).
Proof.
  destruct t as [t|]; [|apply released_refl]. destruct g.
  repeat split. eexists [_]. split; [reflexivity|]. repeat constructor.
Qed.

Lemma released_deleteFramebuffer f g : released g (WebGL.deleteFramebuffer f g).
Proof.
  destruct f as [f|]; [|apply released_refl]. destruct g.
  repeat split. eexists [_]. split; [reflexivity|]. repeat constructor.
Qed.

Lemma release_frame ts fs g : released g (Calls.release ts fs g).
Proof.
  unfold Calls.release. destruct (ts !! "bufferA"); [|apply released_refl].
  repeat (eapply released_trans;
          [|first [apply released_deleteFramebuffer | apply released_deleteTexture]]).
  apply released_refl.
Qed.

Lemma updateLogoPosition_centred s :
  updateLogoPosition s = Return tt (set_logoOverlay (centred <$> logoOverlay s) s).
Proof. unfold updateLogoPosition. destruct s as [? ? ? ? ? ? ? ? ? ? ? ? ? [l|] ? ?]; reflexivity. Qed.

(** [handleResize] when the window no longer has the size of the canvas
    and a context exists. *)
Lemma handleResize_run s c g :
  canvas s = Some c → isTransitioning s = false → gl s = Some g →
  let w := Zfloor (innerWidth (page s)) in
  let h := Zfloor (innerHeight (page s)) in
  let n := WebGL.next g in
  ¬ (width c = w ∧ height c = h) →
  handleResize s =
    Return tt
      (set_framebuffers
         (<["bufferAPrev" := S (S (S (S (S n))))]>
            (<["bufferB" := S (S (S (S n)))]>
               (<["bufferA" := S (S (S n))]> (framebuffers s))))
         (set_textures
            (<["bufferAPrev" := S (S n)]>
               (<["bufferB" := S n]> (<["bufferA" := n]> (textures s))))
            (set_gl
               (Some (Calls.allocate w h
                        (Calls.release (textures s) (framebuffers s)
                           (WebGL.set_canvasPixels (Black w h) g))))
               (set_logoOverlay (centred <$> logoOverlay s)
                  (set_canvas (Some (mkCanvas w h (opacity c) (parentNode c) (pattern c)))
                     s))))).
Proof.
  intros Hc Ht Hg w h n Hne. unfold handleResize.
  rewrite bind_get, bind_get, Hc, Ht, bind_get, bind_get.
  fold w h. rewrite decide_False by exact Hne.
  unfold resizeCanvas at 1. unfold bind at 1. rewrite Hc, Hg. cbn [fmap option_fmap option_map].
  unfold bind at 1. rewrite updateLogoPosition_centred.
  rewrite bind_get. js_fields.
  erewrite createFramebuffers_run by js_side. js_fields.
  destruct s. js_fields. cbn in Hg. subst. destruct g. reflexivity.
Qed.

Lemma Ready_page s c g tA tB tP fA fB fP pA pB pI p :
  Ready s c g tA tB tP fA fB fP pA pB pI →
  Ready (set_page p s) c g tA tB tP fA fB fP pA pB pI.
Proof. intros HR. destruct HR. constructor; js_fields; assumption. Qed.

(** A resize that changes the size, on a steady pipeline. *)
Lemma rebuild_steady s c g tA tB tP fA fB fP pA pB pI :
  Steady s c g tA tB tP fA fB fP pA pB pI →
  let w := Zfloor (innerWidth (page s)) in
  let h := Zfloor (innerHeight (page s)) in
  let n := WebGL.next g in
  ¬ (width c = w ∧ height c = h) →
  ∃ s' g',
    handleResize s = Return tt s' ∧
    Steady s' (mkCanvas w h (opacity c) (parentNode c) (pattern c)) g'
      n (S n) (S (S n)) (S (S (S n))) (S (S (S (S n)))) (S (S (S (S (S n))))) pA pB pI ∧
    frameCount s' = frameCount s ∧ page s' = page s ∧ startTime s' = startTime s ∧
    WebGL.log g' =
      (WebGL.log g ++
        [WebGL.EvDeleteTexture tA; WebGL.EvDeleteTexture tB; WebGL.EvDeleteTexture tP;
         WebGL.EvDeleteFramebuffer fA; WebGL.EvDeleteFramebuffer fB;
         WebGL.EvDeleteFramebuffer fP;
         WebGL.EvCreateTexture n; WebGL.EvCreateTexture (S n);
         WebGL.EvCreateTexture (S (S n));
         WebGL.EvCreateFramebuffer (S (S (S n)));
         WebGL.EvCreateFramebuffer (S (S (S (S n))));
         WebGL.EvCreateFramebuffer (S (S (S (S (S n)))))])%list ∧
    WebGL.canvasPixels g' = Black w h ∧
    WebGL.programs g' = WebGL.programs g ∧
    WebGL.buffers g' = WebGL.buffers g ∧
    target_pixels s' "bufferA" = Some (Black w h) ∧
    target_pixels s' "bufferAPrev" = Some (Black w h) ∧
    target_pixels s' "bufferB" =
      Some (Black (Z.max 1 (w / 3)) (Z.max 1 (h / 3))).
Proof.
  intros [HR Hrun Hreq Htr Hdt Hdf Hdp HfAP Hfr] w h n Hne.
  destruct HR as [Hc Hg HtA HtB HtP HfA HfB HfP HpA HpB HpI [xA HxA] [xB HxB] [xP HxP]
                  HaA HaB HaP [uA HuA] [uB HuB] [uI HuI] ? ? ? ? ? ? ? ?].
  pose proof (handleResize_run s c g Hc Htr Hg) as Hrs. cbv zeta in Hrs.
  specialize (Hrs Hne). fold w h n in Hrs.
  pose proof (rebuilt_sizes
    (set_logoOverlay (centred <$> logoOverlay s)
       (set_canvas (Some (mkCanvas w h (opacity c) (parentNode c) (pattern c))) s))
    (Calls.release (textures s) (framebuffers s) (WebGL.set_canvasPixels (Black w h) g))
    w h) as Hsz.
  cbv zeta in Hsz. rewrite release_next in Hsz.
  change (WebGL.next (WebGL.set_canvasPixels (Black w h) g)) with (WebGL.next g) in Hsz.
  fold n in Hsz.
  change (framebuffers (set_logoOverlay _ _)) with (framebuffers s) in Hsz.
  change (textures (set_logoOverlay _ _)) with (textures s) in Hsz.
  destruct Hsz as (HzA & HzP & HzB).
  match type of Hrs with _ = Return tt ?x => set (s' := x) in * end.
  exists s', (Calls.allocate w h
                (Calls.release (textures s) (framebuffers s)
                   (WebGL.set_canvasPixels (Black w h) g))).
  split; [exact Hrs|]. clear Hrs.
  unfold target_pixels. rewrite HzA, HzP, HzB. clear HzA HzP HzB.
  subst s'.
  rewrite (release_ready _ _ tA tB tP fA fB fP) by assumption.
  subst n. destruct g.
  cbn [WebGL.next WebGL.textures WebGL.framebuffers WebGL.programs WebGL.buffers
       WebGL.currentProgram WebGL.drawFramebuffer WebGL.readFramebuffer WebGL.viewportSize
       WebGL.activeUnit WebGL.units WebGL.canvasPixels WebGL.log WebGL.set_canvasPixels] in *.
  rewrite (allocate_eq _ _ (WebGL.mkGL _ _ _ _ _ _ _ _ _ _ _ _ _)).
  cbv zeta. gl_fields.
  rewrite <- !app_assoc. cbn [app].
  inversion Hfr as [|? ? ? Hfr1]; subst. inversion Hfr1 as [|? ? ? Hfr2]; subst.
  inversion Hfr2 as [|? ? ? Hfr3]; subst. inversion Hfr3 as [|? ? ? Hfr4]; subst.
  inversion Hfr4 as [|? ? ? Hfr5]; subst. inversion Hfr5; subst.
  split.
  { constructor; js_fields; gl_fields; try assumption; try reflexivity.
    - constructor; js_fields; gl_fields; try assumption; try reflexivity; try lia;
        try (map_simp; reflexivity); try (eexists; map_simp; reflexivity);
        eexists; eassumption.
    - rewrite !dom_insert_L, !dom_delete_L, Hdt. set_solver.
    - rewrite !dom_insert_L, !dom_delete_L, Hdf. set_solver.
    - lia.
    - repeat constructor; lia. }
  repeat (split; [reflexivity|]). reflexivity.
Qed.

(** A display refresh on a steady pipeline. *)
Lemma refresh_steady s c g tA tB tP fA fB fP pA pB pI t1 t2 t3 :
  Steady s c g tA tB tP fA fB fP pA pB pI →
  ∃ s' g' uA uB uI,
    animationFrameFired t1 t2 t3 s = Return tt s' ∧
    Steady s' c g' tA tB tP fA fB fP pA pB pI ∧
    frameCount s' = frameCount s + 1 ∧ page s' = page s ∧ startTime s' = startTime s ∧
    WebGL.log g' =
      (WebGL.log g ++
        [WebGL.EvDraw pA [Some tP] (Some fA) (width c, height c) uA;
         WebGL.EvDraw pB [Some tA] (Some fB)
           (Z.max 1 (width c / 3), Z.max 1 (height c / 3)) uB;
         WebGL.EvDraw pI [Some tB; Some tA] None (width c, height c) uI;
         WebGL.EvBlit (Some fA) (Some fP) (width c, height c)])%list ∧
    WebGL.next g' = WebGL.next g ∧
    WebGL.buffers g' = WebGL.buffers g ∧
    iFrame uA = frameCount s ∧ iFrame uB = frameCount s ∧ iFrame uI = frameCount s.
Proof.
  intros [HR Hrun Hreq Htr Hdt Hdf Hdp HfAP Hfr].
  unfold animationFrameFired. rewrite bind_get, Hreq, bind_on_page.
  pose proof (loop_run _ _ _ _ _ _ _ _ _ _ _ _ t1 t2 t3
                (Ready_page _ _ _ _ _ _ _ _ _ _ _ _ (set_animationFrame false (page s)) HR)
                Hrun) as Hloop.
  destruct HR as [Hc Hg HtA HtB HtP HfA HfB HfP HpA HpB HpI [xA HxA] [xB HxB] [xP HxP]
                  HaA HaB HaP [uA HuA] [uB HuB] [uI HuI] ? ? ? ? ? ? ? ?].
  pose proof (tick_eq g pA pB pI tA tB tP fA fB fP (width c) (height c) (startTime s)
                t1 t2 t3 (frameCount s) uA uB uI xA xB xP) as Hg'.
  repeat (specialize (Hg' ltac:(assumption))). cbv zeta in Hg'.
  js_fields. cbn [startTime frameCount set_page] in Hloop.
  rewrite Hg' in Hloop. clear Hg'.
  match type of Hloop with
  | _ = Return tt (set_page _ (set_frameCount _ (set_gl (Some ?x) _))) =>
      eexists _, x, _, _, _
  end.
  split; [exact Hloop|]. clear Hloop.
  split.
  { constructor; js_fields; gl_fields; try assumption; try reflexivity.
    - constructor; js_fields; gl_fields; try assumption;
        try (eexists; map_simp; eauto; fail).
    - rewrite !dom_insert_L, Hdt. set_solver.
    - rewrite !dom_insert_L, Hdp. set_solver. }
  js_fields. gl_fields.
  split; [reflexivity|].
  split.
  { destruct s as [? ? ? ? ? ? ? ? ? ? ? ? ? ? ? pg]. destruct pg.
    cbn in Hreq. subst. reflexivity. }
  repeat (split; [reflexivity|]). reflexivity.
Qed.

Lemma handleResize_idle s c :
  canvas s = Some c →
  width c = Zfloor (innerWidth (page s)) → height c = Zfloor (innerHeight (page s)) →
  handleResize s = Return tt s.
Proof.
  intros Hc Hw Hh. unfold handleResize. rewrite bind_get, bind_get, Hc.
  destruct (isTransitioning s); [reflexivity|].
  rewrite bind_get, bind_get, decide_True by (split; assumption). reflexivity.
Qed.

Lemma Steady_page s c g tA tB tP fA fB fP pA pB pI p :
  Steady s c g tA tB tP fA fB fP pA pB pI →
  animationFrame p = true →
  Steady (set_page p s) c g tA tB tP fA fB fP pA pB pI.
Proof.
  intros [HR Hrun Hreq Htr Hdt Hdf Hdp HfAP Hfr] Hp.
  constructor; js_fields; try assumption. apply Ready_page. exact HR.
Qed.

Lemma size_three (a b c : nat) :
  a ≠ b → a ≠ c → b ≠ c → size ({[a; b; c]} : gset nat) = 3%nat.
Proof.
  intros. rewrite !size_union by set_solver. rewrite !size_singleton. reflexivity.
Qed.

(** One delivery on a steady pipeline. *)
Lemma deliver_steady d s c g tA tB tP fA fB fP pA pB pI :
  Steady s c g tA tB tP fA fB fP pA pB pI →
  ∃ s' c' g' tA' tB' tP' fA' fB' fP' added,
    deliver d s = Return tt s' ∧
    Steady s' c' g' tA' tB' tP' fA' fB' fP' pA pB pI ∧
    frameCount s' = frameCount s + (if d is Refresh _ _ _ then 1 else 0) ∧
    startTime s' = startTime s ∧
    WebGL.log g' = (WebGL.log g ++ added)%list ∧
    iFrame <$> draw_uniforms added =
      frameIndices (frameCount s) (if d is Refresh _ _ _ then 1 else 0) ∧
    WebGL.buffers g' = WebGL.buffers g.
Proof.
  intros HS. destruct d as [t1 t2 t3|W H]; cbn [deliver].
  - destruct (refresh_steady s c g tA tB tP fA fB fP pA pB pI t1 t2 t3 HS)
      as (s' & g' & uA & uB & uI & Hrun & HS' & Hfc & Hpg & Hst & Hlog & Hn & Hb &
          HiA & HiB & HiI).
    eexists s', c, g', tA, tB, tP, fA, fB, fP, _.
    repeat (split; [eassumption|]). split; [|assumption].
    cbn [draw_uniforms flat_map app fmap list_fmap frameIndices].
    rewrite HiA, HiB, HiI. reflexivity.
  - unfold resizeEvent. rewrite bind_on_page, bind_get. js_fields.
    assert (Steady (set_page (set_window W H (page s)) s) c g tA tB tP fA fB fP pA pB pI)
      as HS0.
    { apply Steady_page; [exact HS|]. apply (steady_requested _ _ _ _ _ _ _ _ _ _ _ _ HS). }
    destruct (resizeListening (page s)).
    + destruct (decide (width c = Zfloor W ∧ height c = Zfloor H)) as [[Hw Hh]|Hne].
      * exists (set_page (set_window W H (page s)) s), c, g, tA, tB, tP, fA, fB, fP, [].
        split.
        { apply (handleResize_idle _ c); js_fields; try assumption.
          apply (ready_canvas _ _ _ _ _ _ _ _ _ _ _ _ (steady_ready _ _ _ _ _ _ _ _ _ _ _ _ HS)). }
        split; [exact HS0|]. js_fields. rewrite app_nil_r, Z.add_0_r. repeat split.
      * destruct (rebuild_steady _ _ _ _ _ _ _ _ _ _ _ _ HS0 Hne)
          as (s' & g' & Hrun & HS' & Hfc & Hpg & Hst & Hlog & _ & _ & Hb & _).
        eexists s', _, g', _, _, _, _, _, _, _.
        split; [exact Hrun|]. split; [exact HS'|].
        split; [rewrite Hfc; js_fields; lia|]. split; [exact Hst|].
        split; [exact Hlog|]. split; [reflexivity | exact Hb].
    + exists (set_page (set_window W H (page s)) s), c, g, tA, tB, tP, fA, fB, fP, [].
      split; [reflexivity|]. split; [exact HS0|]. js_fields.
      rewrite app_nil_r, Z.add_0_r. repeat split.
Qed.

Lemma length_frameIndices k : ∀ n, length (frameIndices n k) = (3 * k)%nat.
Proof. induction k as [|k IH]; intros n; cbn [frameIndices length]; rewrite ?IH; lia. Qed.

Lemma draw_uniforms_app l1 l2 :
  draw_uniforms (l1 ++ l2) = (draw_uniforms l1 ++ draw_uniforms l2)%list.
Proof. unfold draw_uniforms. apply flat_map_app. Qed.

(** Any number of deliveries on a steady pipeline. *)
Lemma deliverAll_steady ds : ∀ s c g tA tB tP fA fB fP pA pB pI,
  Steady s c g tA tB tP fA fB fP pA pB pI →
  ∃ s' c' g' tA' tB' tP' fA' fB' fP' added,
    deliverAll ds s = Return tt s' ∧
    Steady s' c' g' tA' tB' tP' fA' fB' fP' pA pB pI ∧
    frameCount s' = frameCount s + Z.of_nat (refreshes ds) ∧
    startTime s' = startTime s ∧
    WebGL.log g' = (WebGL.log g ++ added)%list ∧
    iFrame <$> draw_uniforms added = frameIndices (frameCount s) (refreshes ds) ∧
    WebGL.buffers g' = WebGL.buffers g.
Proof.
  induction ds as [|d ds IH]; intros s c g tA tB tP fA fB fP pA pB pI HS.
  - exists s, c, g, tA, tB, tP, fA, fB, fP, []. cbn [deliverAll refreshes List.filter length].
    split; [reflexivity|]. split; [exact HS|].
    rewrite app_nil_r, Z.add_0_r. repeat split.
  - destruct (deliver_steady d _ _ _ _ _ _ _ _ _ _ _ _ HS)
      as (s1 & c1 & g1 & tA1 & tB1 & tP1 & fA1 & fB1 & fP1 & added1 &
          Hrun1 & HS1 & Hfc1 & Hst1 & Hlog1 & Hdraw1 & Hb1).
    destruct (IH _ _ _ _ _ _ _ _ _ _ _ _ HS1)
      as (s2 & c2 & g2 & tA2 & tB2 & tP2 & fA2 & fB2 & fP2 & added2 &
          Hrun2 & HS2 & Hfc2 & Hst2 & Hlog2 & Hdraw2 & Hb2).
    exists s2, c2, g2, tA2, tB2, tP2, fA2, fB2, fP2, (added1 ++ added2)%list.
    cbn [deliverAll]. split; [erewrite bind_run by exact Hrun1; exact Hrun2|].
    split; [exact HS2|].
    assert (refreshes (d :: ds) =
            ((if d is Refresh _ _ _ then 1 else 0) + refreshes ds)%nat) as Hr.
    { unfold refreshes. cbn [List.filter]. destruct d; reflexivity. }
    split.
    { rewrite Hfc2, Hfc1, Hr. destruct d; lia. }
    split; [congruence|].
    split; [rewrite Hlog2, Hlog1, app_assoc; reflexivity|].
    split; [|congruence].
    rewrite draw_uniforms_app, fmap_app, Hdraw1, Hdraw2, Hfc1, Hr.
    destruct d; cbn [frameIndices Nat.add app]; rewrite ?Z.add_0_r; reflexivity.
Qed.

Lemma tiny_next : WebGL.next tiny_gl = 11%nat.
Proof. vm_compute. reflexivity. Qed.

Lemma tiny_steady : Steady tiny (mkCanvas 4 3 1 true false) tiny_gl 1 2 3 4 5 6 7 8 9.
Proof.
  constructor.
  - exact tiny_ready.
  - exact tiny_running.
  - vm_compute. reflexivity.
  - vm_compute. reflexivity.
  - vm_compute. reflexivity.
  - vm_compute. reflexivity.
  - vm_compute. reflexivity.
  - lia.
  - rewrite tiny_next. repeat constructor; lia.
Qed.

Lemma tiny_frameCount : frameCount tiny = 0.
Proof. vm_compute. reflexivity. Qed.

(** X4 (startRenderLoop, handleResize, createFramebuffers): whatever
    refreshes and resize events the browser delivers to a running
    pipeline, no call throws, the pipeline stays complete (three
    programs, three targets of the sizes of the current canvas, each
    behind its own framebuffer), the frame counter has advanced by the
    number of refreshes, three draw calls were issued per refresh, and
    the context holds exactly three textures, three framebuffers and
    three programs: neither ticks nor rebuilds leak objects. *)
Theorem deliveries_keep_pipeline (ds : list Delivery) (s : ShaderLoader) (c : Canvas)
    (g : WebGL.GL) (tA tB tP fA fB fP pA pB pI : nat) :
  Steady s c g tA tB tP fA fB fP pA pB pI →
  ∃ s' c' g' tA' tB' tP' fA' fB' fP',
    deliverAll ds s = Return tt s' ∧
    Steady s' c' g' tA' tB' tP' fA' fB' fP' pA pB pI ∧
    frameCount s' = frameCount s + Z.of_nat (refreshes ds) ∧
    length (draw_uniforms (new_calls s s')) = (3 * refreshes ds)%nat ∧
    size (dom (WebGL.textures g')) = 3%nat ∧
    size (dom (WebGL.framebuffers g')) = 3%nat ∧
    size (dom (WebGL.programs g')) = 3%nat ∧
    WebGL.buffers g' = WebGL.buffers g.
Proof.
  intros HS.
  destruct (deliverAll_steady ds _ _ _ _ _ _ _ _ _ _ _ _ HS)
    as (s' & c' & g' & tA' & tB' & tP' & fA' & fB' & fP' & added &
        Hrun & HS' & Hfc & Hst & Hlog & Hdraw & Hb).
  exists s', c', g', tA', tB', tP', fA', fB', fP'.
  split; [exact Hrun|]. split; [exact HS'|]. split; [exact Hfc|].
  split.
  { unfold new_calls, calls.
    rewrite (ready_gl _ _ _ _ _ _ _ _ _ _ _ _ (steady_ready _ _ _ _ _ _ _ _ _ _ _ _ HS)).
    rewrite (ready_gl _ _ _ _ _ _ _ _ _ _ _ _ (steady_ready _ _ _ _ _ _ _ _ _ _ _ _ HS')).
    rewrite Hlog, drop_app_length.
    rewrite <- (length_fmap iFrame), Hdraw. apply length_frameIndices. }
  destruct HS' as [HR' _ _ _ Hdt Hdf Hdp HfAP _].
  destruct HR' as [_ _ _ _ _ _ _ _ _ _ _ _ _ _ _ _ _ _ _ _ ? ? ? ? ? ? ? ?].
  rewrite Hdt, Hdf, Hdp.
  repeat (split; [apply size_three; assumption|]). exact Hb.
Qed.

Lemma deliveries_keep_pipeline_witness :
  ∃ s', deliverAll [Refresh 16 16 16; Resized 8 6; Refresh 32 32 32] tiny = Return tt s' ∧
        frameCount s' = 2 ∧
        length (draw_uniforms (new_calls tiny s')) = 6%nat.
Proof.
  destruct (deliveries_keep_pipeline [Refresh 16 16 16; Resized 8 6; Refresh 32 32 32]
              tiny _ _ _ _ _ _ _ _ _ _ _ tiny_steady)
    as (s' & c' & g' & tA' & tB' & tP' & fA' & fB' & fP' & Hrun & _ & Hfc & Hdraw & _).
  exists s'. split; [exact Hrun|]. split.
  - rewrite Hfc, tiny_frameCount. reflexivity.
  - exact Hdraw.
Defined.

(** [init] on the WebGL path hands over a steady pipeline, with the
    ten objects it has created and nothing drawn. *)
Lemma init_pipeline (now W H : R) (cb : option nat) :
  ∃ s g,
    init true (λ _, Linked) (loader now W H cb) = Return tt s ∧
    Steady s (mkCanvas (Zfloor W) (Zfloor H) 1 true false) g 1 2 3 4 5 6 7 8 9 ∧
    WebGL.buffers g = {[10%nat]} ∧
    frameCount s = 0 ∧ hasError s = false ∧
    calls s =
      [WebGL.EvCreateTexture 1; WebGL.EvCreateTexture 2; WebGL.EvCreateTexture 3;
       WebGL.EvCreateFramebuffer 4; WebGL.EvCreateFramebuffer 5;
       WebGL.EvCreateFramebuffer 6; WebGL.EvCreateProgram 7; WebGL.EvCreateProgram 8;
       WebGL.EvCreateProgram 9; WebGL.EvCreateBuffer 10].
Proof.
  unfold init, try_catch, loader, constructor, blankPage.
  erewrite bind_run by apply createCanvas_run. js_flat.
  unfold setupWebGL. js_run.
  erewrite bind_run by (eapply createFramebuffers_run; js_side). js_fields.
  rewrite release_none by reflexivity.
  erewrite bind_run by (eapply compileShaders_linked; js_side). js_fields.
  unfold createGeometry, startRenderLoop. js_run.
  unfold on_page, modify. js_flat.
  unfold WebGL.fresh.
  rewrite (allocate_eq _ _ (WebGL.mkGL _ _ _ _ _ _ _ _ _ _ _ _ _)). cbv zeta. gl_fields.
  do 3 (rewrite (createProgram_eq _ _ (WebGL.mkGL _ _ _ _ _ _ _ _ _ _ _ _ _)); gl_fields).
  rewrite (createBuffer_eq (WebGL.mkGL _ _ _ _ _ _ _ _ _ _ _ _ _)). gl_fields.
  eexists _, (WebGL.mkGL _ _ _ _ _ _ _ _ _ _ _ _ _). split; [reflexivity|].
  split.
  { constructor; js_fields; gl_fields; try reflexivity; try lia.
    - constructor; js_fields; gl_fields; try reflexivity; try lia;
        try (eexists; map_simp; reflexivity); map_simp; reflexivity.
    - rewrite !dom_insert_L, dom_empty_L. set_solver.
    - rewrite !dom_insert_L, dom_empty_L. set_solver.
    - rewrite !dom_insert_L, dom_empty_L. set_solver.
    - repeat constructor; lia. }
  unfold calls. js_fields. gl_fields.
  repeat (split; [reflexivity|]). reflexivity.
Qed.

(** X5 (init): on the WebGL path, with every pass linking, [init]
    returns without an exception and hands over a steady pipeline: the
    loop is requested, the three targets and the three programs are the
    only textures, framebuffers and programs of the context, one
    vertex buffer exists, and nothing has been drawn or deleted. *)
Theorem init_steady (now W H : R) (cb : option nat) :
  ∃ s g,
    init true (λ _, Linked) (loader now W H cb) = Return tt s ∧
    Steady s (mkCanvas (Zfloor W) (Zfloor H) 1 true false) g 1 2 3 4 5 6 7 8 9 ∧
    WebGL.buffers g = {[10%nat]} ∧
    frameCount s = 0 ∧ hasError s = false ∧
    List.filter is_draw (calls s) = [] ∧ List.filter is_delete (calls s) = [].
Proof.
  destruct (init_pipeline now W H cb) as (s & g & Hrun & HS & Hb & Hfc & He & Hcalls).
  exists s, g. rewrite Hcalls. repeat (split; [assumption|]). split; reflexivity.
Qed.

(** X20 (init, startRenderLoop, renderPass, handleResize): the frame
    index the shaders see counts ticks.  From [init] on the WebGL path,
    whatever refreshes and resize events follow, the iFrame values of
    all draw calls issued so far are 0, 0, 0, 1, 1, 1, 2, ...: the
    three passes of a tick share one index, the indices start at 0 and
    grow by one per tick without gaps, and resizes neither draw nor
    disturb the count. *)
Theorem frame_index_counts_ticks (now W H : R) (cb : option nat) (ds : list Delivery) :
  ∃ s0 s',
    init true (λ _, Linked) (loader now W H cb) = Return tt s0 ∧
    deliverAll ds s0 = Return tt s' ∧
    iFrame <$> draw_uniforms (calls s') = frameIndices 0 (refreshes ds) ∧
    frameCount s' = Z.of_nat (refreshes ds).
Proof.
  destruct (init_pipeline now W H cb) as (s0 & g0 & Hrun0 & HS0 & _ & Hfc0 & _ & Hcalls0).
  destruct (deliverAll_steady ds _ _ _ _ _ _ _ _ _ _ _ _ HS0)
    as (s' & c' & g' & tA' & tB' & tP' & fA' & fB' & fP' & added &
        Hrun & HS' & Hfc & _ & Hlog & Hdraw & _).
  exists s0, s'. split; [exact Hrun0|]. split; [exact Hrun|].
  rewrite Hfc0 in Hdraw, Hfc. split; [|rewrite Hfc; lia].
  pose proof (ready_gl _ _ _ _ _ _ _ _ _ _ _ _ (steady_ready _ _ _ _ _ _ _ _ _ _ _ _ HS0))
    as Hg0.
  pose proof (ready_gl _ _ _ _ _ _ _ _ _ _ _ _ (steady_ready _ _ _ _ _ _ _ _ _ _ _ _ HS'))
    as Hg'.
  unfold calls in *. rewrite Hg0 in Hcalls0. rewrite Hg', Hlog, Hcalls0.
  rewrite draw_uniforms_app, fmap_app, Hdraw. reflexivity.
Qed.

(** X1 (createFramebuffers, createTexture, createFramebuffer): whenever
    a canvas and a context exist, [createFramebuffers] returns, every
    one of the three targets it leaves is black over its whole size,
    the canvas is bound again for drawing and reading, and neither the
    canvas surface, the programs, the vertex buffers nor the frame
    counter are touched. *)
Theorem createFramebuffers_blank (s : ShaderLoader) (c : Canvas) (g : WebGL.GL) :
  canvas s = Some c → gl s = Some g →
  ∃ s' g',
    createFramebuffers s = Return tt s' ∧ gl s' = Some g' ∧
    target_pixels s' "bufferA" = Some (Black (width c) (height c)) ∧
    target_pixels s' "bufferAPrev" = Some (Black (width c) (height c)) ∧
    target_pixels s' "bufferB" =
      Some (Black (Z.max 1 (width c / 3)) (Z.max 1 (height c / 3))) ∧
    WebGL.drawFramebuffer g' = None ∧ WebGL.readFramebuffer g' = None ∧
    WebGL.canvasPixels g' = WebGL.canvasPixels g ∧
    WebGL.programs g' = WebGL.programs g ∧
    WebGL.buffers g' = WebGL.buffers g ∧
    canvas s' = canvas s ∧ programs s' = programs s ∧ frameCount s' = frameCount s.
Proof.
  intros Hc Hg.
  pose proof (createFramebuffers_run s c g Hc Hg) as Hrun. cbv zeta in Hrun.
  pose proof (rebuilt_sizes s (Calls.release (textures s) (framebuffers s) g)
                (width c) (height c)) as Hsz.
  cbv zeta in Hsz. rewrite release_next in Hsz. destruct Hsz as (HzA & HzP & HzB).
  destruct (release_frame (textures s) (framebuffers s) g) as (_ & Hp & Hb & Hcp & _).
  match type of Hrun with _ = Return tt ?x => set (s' := x) in * end.
  exists s', (Calls.allocate (width c) (height c)
                (Calls.release (textures s) (framebuffers s) g)).
  split; [exact Hrun|]. split; [reflexivity|].
  unfold target_pixels. rewrite HzA, HzP, HzB.
  repeat (split; [reflexivity|]).
  rewrite allocate_eq. cbv zeta. gl_fields.
  repeat (split; [first [reflexivity | assumption]|]). reflexivity.
Qed.

Lemma createFramebuffers_blank_witness :
  ∃ s', createFramebuffers (booted 800 600) = Return tt s' ∧
        target_pixels s' "bufferA" = Some (Black 800 600) ∧
        target_pixels s' "bufferAPrev" = Some (Black 800 600) ∧
        target_pixels s' "bufferB" = Some (Black 266 200).
Proof.
  destruct (createFramebuffers_blank (booted 800 600) (mkCanvas 800 600 0 true false)
              (WebGL.fresh 800 600) eq_refl eq_refl)
    as (s' & g' & Hrun & _ & HA & HP & HB & _).
  exists s'. repeat split; assumption.
Defined.

(** X2 (handleResize): a resize event that finds the window at another
    size than the canvas, on a steady pipeline, gives the canvas the
    floored window size, deletes the six old target objects and
    creates six new ones, in that order; the new targets and the canvas
    surface are black at the new sizes, the old names are dead, the
    programs, the frame counter and the clock origin are kept, and the
    pipeline is steady again. *)
Theorem handleResize_rebuilds (s : ShaderLoader) (c : Canvas) (g : WebGL.GL)
    (tA tB tP fA fB fP pA pB pI : nat) :
  Steady s c g tA tB tP fA fB fP pA pB pI →
  let w := Zfloor (innerWidth (page s)) in
  let h := Zfloor (innerHeight (page s)) in
  let n := WebGL.next g in
  ¬ (width c = w ∧ height c = h) →
  ∃ s' g',
    handleResize s = Return tt s' ∧
    Steady s' (mkCanvas w h (opacity c) (parentNode c) (pattern c)) g'
      n (S n) (S (S n)) (S (S (S n))) (S (S (S (S n)))) (S (S (S (S (S n))))) pA pB pI ∧
    new_calls s s' =
      [WebGL.EvDeleteTexture tA; WebGL.EvDeleteTexture tB; WebGL.EvDeleteTexture tP;
       WebGL.EvDeleteFramebuffer fA; WebGL.EvDeleteFramebuffer fB;
       WebGL.EvDeleteFramebuffer fP;
       WebGL.EvCreateTexture n; WebGL.EvCreateTexture (S n);
       WebGL.EvCreateTexture (S (S n));
       WebGL.EvCreateFramebuffer (S (S (S n)));
       WebGL.EvCreateFramebuffer (S (S (S (S n))));
       WebGL.EvCreateFramebuffer (S (S (S (S (S n)))))] ∧
    target_size s' "bufferA" = Some (w, h) ∧
    target_size s' "bufferAPrev" = Some (w, h) ∧
    target_size s' "bufferB" = Some (Z.max 1 (w / 3), Z.max 1 (h / 3)) ∧
    target_pixels s' "bufferA" = Some (Black w h) ∧
    target_pixels s' "bufferAPrev" = Some (Black w h) ∧
    target_pixels s' "bufferB" = Some (Black (Z.max 1 (w / 3)) (Z.max 1 (h / 3))) ∧
    canvas_pixels s' = Some (Black w h) ∧
    (∀ t, t ∈ [tA; tB; tP] → WebGL.textures g' !! t = None) ∧
    (∀ f, f ∈ [fA; fB; fP] → WebGL.framebuffers g' !! f = None) ∧
    WebGL.programs g' = WebGL.programs g ∧
    frameCount s' = frameCount s ∧ startTime s' = startTime s.
Proof.
  intros HS w h n Hne.
  destruct (rebuild_steady _ _ _ _ _ _ _ _ _ _ _ _ HS Hne)
    as (s' & g' & Hrun & HS' & Hfc & Hpg & Hst & Hlog & Hcp & Hp & Hb & HA & HP & HB).
  fold w h n in HS', Hlog, Hcp, HA, HP, HB.
  exists s', g'. split; [exact Hrun|]. split; [exact HS'|].
  pose proof (steady_ready _ _ _ _ _ _ _ _ _ _ _ _ HS) as HR.
  pose proof (steady_ready _ _ _ _ _ _ _ _ _ _ _ _ HS') as HR'.
  pose proof (ready_gl _ _ _ _ _ _ _ _ _ _ _ _ HR) as Hg.
  pose proof (ready_gl _ _ _ _ _ _ _ _ _ _ _ _ HR') as Hg'.
  split.
  { unfold new_calls, calls. rewrite Hg, Hg', Hlog, drop_app_length. reflexivity. }
  split.
  { unfold target_size, target.
    rewrite Hg', (ready_tA _ _ _ _ _ _ _ _ _ _ _ _ HR'), (ready_fA _ _ _ _ _ _ _ _ _ _ _ _ HR'),
      (ready_aA _ _ _ _ _ _ _ _ _ _ _ _ HR'), decide_True by reflexivity.
    destruct (ready_xA _ _ _ _ _ _ _ _ _ _ _ _ HR') as [x ->]. reflexivity. }
  split.
  { unfold target_size, target.
    rewrite Hg', (ready_tP _ _ _ _ _ _ _ _ _ _ _ _ HR'), (ready_fP _ _ _ _ _ _ _ _ _ _ _ _ HR'),
      (ready_aP _ _ _ _ _ _ _ _ _ _ _ _ HR'), decide_True by reflexivity.
    destruct (ready_xP _ _ _ _ _ _ _ _ _ _ _ _ HR') as [x ->]. reflexivity. }
  split.
  { unfold target_size, target.
    rewrite Hg', (ready_tB _ _ _ _ _ _ _ _ _ _ _ _ HR'), (ready_fB _ _ _ _ _ _ _ _ _ _ _ _ HR'),
      (ready_aB _ _ _ _ _ _ _ _ _ _ _ _ HR'), decide_True by reflexivity.
    destruct (ready_xB _ _ _ _ _ _ _ _ _ _ _ _ HR') as [x ->]. reflexivity. }
  split; [exact HA|]. split; [exact HP|]. split; [exact HB|].
  split; [unfold canvas_pixels; rewrite Hg'; cbn; rewrite Hcp; reflexivity|].
  pose proof (steady_textures _ _ _ _ _ _ _ _ _ _ _ _ HS') as Hdt.
  pose proof (steady_framebuffers _ _ _ _ _ _ _ _ _ _ _ _ HS') as Hdf.
  pose proof (steady_fresh _ _ _ _ _ _ _ _ _ _ _ _ HS) as Hfr. fold n in Hfr.
  inversion Hfr as [|? ? ? Hfr1]; subst. inversion Hfr1 as [|? ? ? Hfr2]; subst.
  inversion Hfr2 as [|? ? ? Hfr3]; subst. inversion Hfr3 as [|? ? ? Hfr4]; subst.
  inversion Hfr4 as [|? ? ? Hfr5]; subst. inversion Hfr5; subst.
  split.
  { intros t Ht. apply not_elem_of_dom. rewrite Hdt.
    rewrite !elem_of_cons in Ht. rewrite elem_of_nil in Ht.
    assert (t < n)%nat by (destruct Ht as [->|[->|[->|[]]]]; assumption).
    rewrite !elem_of_union, !elem_of_singleton. lia. }
  split.
  { intros f Hf. apply not_elem_of_dom. rewrite Hdf.
    rewrite !elem_of_cons in Hf. rewrite elem_of_nil in Hf.
    assert (f < n)%nat by (destruct Hf as [->|[->|[->|[]]]]; assumption).
    rewrite !elem_of_union, !elem_of_singleton. lia. }
  split; [exact Hp|]. split; [exact Hfc | exact Hst].
Qed.

Lemma animationFrame_set_window W H p :
  animationFrame (set_window W H p) = animationFrame p.
Proof. reflexivity. Qed.

Lemma frameCount_set_page p s : frameCount (set_page p s) = frameCount s.
Proof. reflexivity. Qed.

Lemma page_set_page p s : page (set_page p s) = p.
Proof. reflexivity. Qed.

Lemma window_set_window W H p :
  innerWidth (set_window W H p) = W ∧ innerHeight (set_window W H p) = H.
Proof. split; reflexivity. Qed.

Lemma tiny_requested : animationFrame (page tiny) = true.
Proof. vm_compute. reflexivity. Qed.

(** The sample pipeline after the window has become 8 by 6. *)
Lemma resized_steady :
  Steady (set_page (set_window 8 6 (page tiny)) tiny) (mkCanvas 4 3 1 true false) tiny_gl
    1 2 3 4 5 6 7 8 9.
Proof.
  apply (Steady_page tiny _ _ _ _ _ _ _ _ _ _ _ (set_window 8 6 (page tiny)) tiny_steady).
  rewrite animationFrame_set_window. exact tiny_requested.
Qed.

Lemma resized_differs :
  let s := set_page (set_window 8 6 (page tiny)) tiny in
  ¬ (width (mkCanvas 4 3 1 true false) = Zfloor (innerWidth (page s)) ∧
     height (mkCanvas 4 3 1 true false) = Zfloor (innerHeight (page s))).
Proof.
  cbv zeta. rewrite page_set_page.
  destruct (window_set_window 8 6 (page tiny)) as [-> ->].
  rewrite !ZfloorZ. cbn [width height]. lia.
Qed.

Lemma resized_window :
  let s := set_page (set_window 8 6 (page tiny)) tiny in
  Zfloor (innerWidth (page s)) = 8 ∧ Zfloor (innerHeight (page s)) = 6.
Proof.
  cbv zeta. rewrite page_set_page.
  destruct (window_set_window 8 6 (page tiny)) as [-> ->].
  rewrite !ZfloorZ. split; reflexivity.
Qed.

Lemma resized_frameCount : frameCount (set_page (set_window 8 6 (page tiny)) tiny) = 0.
Proof. rewrite frameCount_set_page. exact tiny_frameCount. Qed.

Lemma handleResize_rebuilds_witness :
  ∃ s', handleResize (set_page (set_window 8 6 (page tiny)) tiny) = Return tt s' ∧
        target_size s' "bufferA" = Some (8, 6) ∧
        target_size s' "bufferB" = Some (2, 2) ∧
        target_pixels s' "bufferAPrev" = Some (Black 8 6) ∧
        frameCount s' = 0.
Proof.
  destruct (handleResize_rebuilds _ _ _ _ _ _ _ _ _ _ _ _ resized_steady resized_differs)
    as (s' & g' & Hrun & _ & _ & HA & _ & HB & _ & HP & _ & _ & _ & _ & _ & Hfc & _).
  destruct resized_window as [Hw Hh]. rewrite Hw, Hh in HA, HB, HP.
  exists s'. split; [exact Hrun|].
  split; [exact HA|]. split; [exact HB|]. split; [exact HP|].
  rewrite Hfc. exact resized_frameCount.
Defined.

(** X6 (startRenderLoop): the temporal feedback across two consecutive
    ticks.  What Pass A wrote in one tick is exactly what Pass A of the
    next tick samples as its iChannel0, and the second tick runs with
    the frame index one higher. *)
Theorem loop_feeds_next_tick (s : ShaderLoader) (c : Canvas) (g : WebGL.GL)
    (tA tB tP fA fB fP pA pB pI : nat) (t1 t2 t3 t4 t5 t6 : R) :
  Ready s c g tA tB tP fA fB fP pA pB pI → isRunning s = true →
  ∃ s1 s2 y1 u2,
    loop t1 t2 t3 s = Return tt s1 ∧
    loop t4 t5 t6 s1 = Return tt s2 ∧
    target_pixels s1 "bufferA" = Some y1 ∧
    target_pixels s2 "bufferA" =
      Some (Shaded BufferAShader u2 [Some y1] (width c, height c)) ∧
    iFrame u2 = frameCount s + 1 ∧
    iTime u2 = ((t4 - startTime s) / 1000)%R ∧
    frameCount s2 = frameCount s + 2.
Proof.
  intros HR Hrun.
  destruct (loop_effect s c g tA tB tP fA fB fP pA pB pI t1 t2 t3 HR Hrun)
    as (g1 & xP & kA & kB & H1). cbv zeta in H1.
  destruct H1 as (Hl1 & HR1 & _ & _ & HA1 & _ & HP1 & _).
  match type of Hl1 with _ = Return tt ?x => set (s1 := x) in * end.
  assert (isRunning s1 = true) as Hrun1 by exact Hrun.
  destruct (loop_effect s1 c g1 tA tB tP fA fB fP pA pB pI t4 t5 t6 HR1 Hrun1)
    as (g2 & xP2 & kA2 & kB2 & H2). cbv zeta in H2.
  destruct H2 as (Hl2 & _ & HxP2 & _ & HA2 & _).
  rewrite HP1 in HxP2. injection HxP2 as <-.
  eexists s1, _, _, _. split; [exact Hl1|]. split; [exact Hl2|].
  split; [exact HA1|]. split; [exact HA2|].
  unfold passUniforms. cbn [iFrame iTime]. subst s1. js_fields.
  repeat split. lia.
Qed.

Lemma loop_feeds_next_tick_witness :
  ∃ s1 s2 y1 u2,
    loop 16 16 16 tiny = Return tt s1 ∧
    loop 32 32 32 s1 = Return tt s2 ∧
    target_pixels s1 "bufferA" = Some y1 ∧
    target_pixels s2 "bufferA" = Some (Shaded BufferAShader u2 [Some y1] (4, 3)) ∧
    iFrame u2 = 1 ∧ frameCount s2 = 2.
Proof.
  destruct (loop_feeds_next_tick tiny _ _ _ _ _ _ _ _ _ _ _ 16 16 16 32 32 32
              tiny_ready tiny_running)
    as (s1 & s2 & y1 & u2 & H1 & H2 & HA1 & HA2 & Hf & _ & Hfc).
  exists s1, s2, y1, u2. rewrite tiny_frameCount in Hf, Hfc.
  repeat (split; [assumption|]). assumption.
Defined.

(** ** The transition timer *)

Lemma ratio_cases (x d : R) :
  (0 < d)%R →
  ((0 <= x / d ↔ 0 <= x) ∧ (x / d < 1 ↔ x < d) ∧ (1 <= x / d ↔ d <= x))%R.
Proof.
  intros Hd.
  assert (x / d * d = x)%R as Hx by (field; lra).
  pose proof (Rinv_0_lt_compat d Hd) as Hi.
  repeat split; intros H0; nra.
Qed.

(** The timer callback at a reading before the end of the fade. *)
Lemma transitionTick_early i t s c l :
  canvas s = Some c → logoOverlay s = Some l →
  (0 < transitionDuration s)%R →
  (t - startTime s - transitionStart s < transitionDuration s)%R →
  let p := ((t - startTime s - transitionStart s) / transitionDuration s)%R in
  transitionTick i t s = if Rle_dec 0 p then handleTransition p s else Return tt s.
Proof.
  intros Hc Hl Hd Ht p.
  destruct (ratio_cases (t - startTime s - transitionStart s) (transitionDuration s) Hd)
    as (_ & Hlt & _).
  apply Hlt in Ht. fold p in Ht.
  unfold transitionTick. js_run. fold p. rewrite Rmin_left by lra.
  destruct (Rle_dec 0 p).
  - erewrite bind_run by (eapply handleTransition_run; eassumption).
    destruct (Rle_dec 1 p); [lra|].
    rewrite (handleTransition_run p s c l Hc Hl). reflexivity.
  - rewrite bind_skip. destruct (Rle_dec 1 p); [lra|]. reflexivity.
Qed.

(** The timer callback at a reading at or after the end of the fade. *)
Lemma transitionTick_late i t s c l :
  canvas s = Some c → logoOverlay s = Some l →
  (0 < transitionDuration s)%R →
  (transitionDuration s <= t - startTime s - transitionStart s)%R →
  ∃ s1,
    transitionTick i t s = Return tt s1 ∧
    signals (page s1) = (signals (page s) ++ completionSignals s)%list ∧
    intervals (page s1) = intervals (page s) ∖ {[i]} ∧
    isRunning s1 = false ∧
    canvas s1 = Some (mkCanvas (width c) (height c) 0 false (pattern c)) ∧
    logo_opacity <$> logoOverlay s1 = Some 0%R ∧
    logo_parentNode <$> logoOverlay s1 = Some false ∧
    shaderLoading (page s1) = false ∧ scrollLocked (page s1) = false ∧
    resizeListening (page s1) = false ∧
    gl s1 = gl s ∧ frameCount s1 = frameCount s.
Proof.
  intros Hc Hl Hd Ht.
  destruct (ratio_cases (t - startTime s - transitionStart s) (transitionDuration s) Hd)
    as (_ & _ & Hge).
  apply Hge in Ht.
  unfold transitionTick. js_run. rewrite Rmin_right by exact Ht.
  destruct (Rle_dec 0 1) as [_|]; [|lra]. destruct (Rle_dec 1 1) as [_|]; [|lra].
  erewrite bind_run by (eapply handleTransition_run; js_side).
  cbv zeta. destruct (Rlt_dec 0.4 1) as [_|]; [|lra].
  js_run. rewrite complete_run.
  eexists. split; [reflexivity|].
  unfold completed, completionSignals. js_fields.
  cbn [fmap option_fmap option_map]. js_fields.
  unfold detached, detachedLogo. js_fields.
  repeat split; try reflexivity.
  - do 2 f_equal. rewrite Rmin_right by lra. lra.
  - f_equal. lra.
Qed.

(** The canvas [handleTransition] leaves. *)
Lemma handleTransition_canvas (p : R) s c l :
  canvas s = Some c → logoOverlay s = Some l →
  ∃ s', handleTransition p s = Return tt s' ∧
        canvas s' = Some (mkCanvas (width c) (height c) (1 - Rmin (p / 0.6) 1)
                            (parentNode c) (pattern c)) ∧
        gl s' = gl s ∧ page s' = page s ∧ isRunning s' = isRunning s.
Proof.
  intros Hc Hl. rewrite (handleTransition_run p s c l Hc Hl). cbv zeta.
  eexists. split; [reflexivity|]. destruct (Rlt_dec 0.4 p); repeat split.
Qed.

(** X7 (handleTransition): the fade law of the canvas.  For a progress
    [p >= 0] the opacity written to the canvas is [1 - min(p / 0.6, 1)]:
    1 at progress 0, inside [0, 1] throughout, never increasing in [p],
    and 0 from progress 0.6 on.  Size and attachment of the canvas, the
    context and the page are left alone. *)
Theorem handleTransition_canvas_fade (p : R) (s : ShaderLoader) (c : Canvas) (l : Overlay) :
  canvas s = Some c → logoOverlay s = Some l → (0 <= p)%R →
  ∃ s' c',
    handleTransition p s = Return tt s' ∧ canvas s' = Some c' ∧
    opacity c' = (1 - Rmin (p / 0.6) 1)%R ∧
    (0 <= opacity c' <= 1)%R ∧
    (p = 0%R → opacity c' = 1%R) ∧
    ((0.6 <= p)%R → opacity c' = 0%R) ∧
    (∀ q s2 c2, (p <= q)%R → handleTransition q s = Return tt s2 → canvas s2 = Some c2 →
                (opacity c2 <= opacity c')%R) ∧
    width c' = width c ∧ height c' = height c ∧
    parentNode c' = parentNode c ∧ pattern c' = pattern c ∧
    gl s' = gl s ∧ page s' = page s ∧ isRunning s' = isRunning s.
Proof.
  intros Hc Hl Hp.
  destruct (handleTransition_canvas p s c l Hc Hl) as (s' & Hrun & Hc' & Hg & Hpg & Hr).
  exists s', (mkCanvas (width c) (height c) (1 - Rmin (p / 0.6) 1) (parentNode c) (pattern c)).
  split; [exact Hrun|]. split; [exact Hc'|].
  cbn [opacity width height parentNode pattern].
  split; [reflexivity|].
  split; [unfold Rmin; destruct (Rle_dec (p / 0.6) 1); lra|].
  split; [intros ->; rewrite Rmin_left by lra; lra|].
  split; [intros H6; rewrite Rmin_right by lra; lra|].
  split.
  { intros q s2 c2 Hq Hrun2 Hc2.
    destruct (handleTransition_canvas q s c l Hc Hl) as (s2' & Hrun2' & Hc2' & _).
    rewrite Hrun2 in Hrun2'. injection Hrun2' as <-.
    rewrite Hc2 in Hc2'. injection Hc2' as ->. cbn [opacity].
    unfold Rmin. destruct (Rle_dec (p / 0.6) 1), (Rle_dec (q / 0.6) 1); lra. }
  repeat (split; [first [reflexivity | assumption]|]). assumption.
Qed.

Lemma handleTransition_canvas_fade_witness :
  ∃ s' c', handleTransition 0.3 shown = Return tt s' ∧ canvas s' = Some c' ∧
           opacity c' = 0.5%R ∧ width c' = 4 ∧ height c' = 3.
Proof.
  destruct (handleTransition_canvas_fade 0.3 shown _ _ shown_canvas shown_logoOverlay
              ltac:(lra))
    as (s' & c' & Hrun & Hc' & Hop & _ & _ & _ & _ & Hw & Hh & _).
  exists s', c'. split; [exact Hrun|]. split; [exact Hc'|].
  split; [|split; [exact Hw | exact Hh]].
  rewrite Hop, Rmin_left by lra. lra.
Defined.

(** X8 (handleTransition): in the second phase, [0.4 < p <= 1], the
    logo stays close to its resting state: the horizontal glitch offset
    is within 10 px of the centre (within [10 * logoFade]), the scale
    factor is between 1 and 1.2, the blur radius between 0 and 5 px and
    the opacity between 0 and 1; the logo stays attached. *)
Theorem handleTransition_logo_bounds (p : R) (s : ShaderLoader) (c : Canvas) (l : Overlay) :
  canvas s = Some c → logoOverlay s = Some l → (0.4 < p <= 1)%R →
  ∃ s' l',
    handleTransition p s = Return tt s' ∧ logoOverlay s' = Some l' ∧
    (- 10 <= logo_offset l' <= 10)%R ∧
    (Rabs (logo_offset l') <= 10 * ((p - 0.4) / 0.6))%R ∧
    logo_scale l' = (1 + (p - 0.4) / 0.6 * 0.2)%R ∧
    (1 < logo_scale l' <= 1.2)%R ∧
    (0 < logo_blur l' <= 5)%R ∧
    (0 <= logo_opacity l' < 1)%R ∧
    logo_parentNode l' = logo_parentNode l.
Proof.
  intros Hc Hl Hp.
  rewrite (handleTransition_run p s c l Hc Hl). cbv zeta.
  destruct (Rlt_dec 0.4 p) as [_|]; [|lra].
  eexists _, _. split; [reflexivity|]. split; [reflexivity|].
  cbn [logo_offset logo_scale logo_blur logo_opacity logo_parentNode].
  set (f := ((p - 0.4) / 0.6)%R).
  assert (0 < f <= 1)%R as Hf by (unfold f; lra).
  pose proof (SIN_bound (f * PI * 4)) as Hs.
  set (sn := sin (f * PI * 4)) in *.
  assert (- f <= sn * f <= f)%R as Hb by nra.
  split; [lra|]. split; [apply Rabs_le; lra|].
  split; [reflexivity|]. repeat split; lra.
Qed.

Lemma handleTransition_logo_bounds_witness :
  ∃ s' l', handleTransition 0.7 shown = Return tt s' ∧ logoOverlay s' = Some l' ∧
           (Rabs (logo_offset l') <= 5)%R ∧ logo_scale l' = 1.1%R.
Proof.
  destruct (handleTransition_logo_bounds 0.7 shown _ _ shown_canvas shown_logoOverlay
              ltac:(lra))
    as (s' & l' & Hrun & Hl' & _ & Hab & Hsc & _).
  exists s', l'. split; [exact Hrun|]. split; [exact Hl'|].
  split; [lra | rewrite Hsc; lra].
Defined.

(** X9 (startTransition): the timer callback at a clock reading
    before the end of the fade.  It returns, leaves the timer active,
    signals nothing and keeps the loader running and the elements
    attached; before the fade has started (negative progress) it
    changes nothing at all, and from its start on it sets the canvas
    opacity by the fade law at progress
    [(now - startTime - transitionStart) / transitionDuration]. *)
Theorem transitionTick_before_end (i : nat) (t : R) (s : ShaderLoader) (c : Canvas)
    (l : Overlay) :
  canvas s = Some c → logoOverlay s = Some l →
  (0 < transitionDuration s)%R →
  (t - startTime s - transitionStart s < transitionDuration s)%R →
  let p := ((t - startTime s - transitionStart s) / transitionDuration s)%R in
  ∃ s',
    transitionTick i t s = Return tt s' ∧
    page s' = page s ∧ isRunning s' = isRunning s ∧ gl s' = gl s ∧
    parentNode <$> canvas s' = Some (parentNode c) ∧
    logo_parentNode <$> logoOverlay s' = Some (logo_parentNode l) ∧
    ((t - startTime s < transitionStart s)%R → s' = s) ∧
    ((transitionStart s <= t - startTime s)%R →
       (0 <= p < 1)%R ∧ opacity <$> canvas s' = Some (1 - Rmin (p / 0.6) 1)%R).
Proof.
  intros Hc Hl Hd Ht p.
  rewrite (transitionTick_early i t s c l Hc Hl Hd Ht). fold p.
  destruct (ratio_cases (t - startTime s - transitionStart s) (transitionDuration s) Hd)
    as (Hpos & Hlt & _).
  fold p in Hpos, Hlt.
  destruct (Rle_dec 0 p) as [H0|H0].
  - rewrite (handleTransition_run p s c l Hc Hl). cbv zeta.
    eexists. split; [reflexivity|].
    split; [destruct (Rlt_dec 0.4 p); reflexivity|].
    split; [destruct (Rlt_dec 0.4 p); reflexivity|].
    split; [destruct (Rlt_dec 0.4 p); reflexivity|].
    split; [destruct (Rlt_dec 0.4 p); reflexivity|].
    split; [destruct (Rlt_dec 0.4 p); js_fields; rewrite ?Hl; reflexivity|].
    split; [intros Hbefore; apply Hpos in H0; lra|].
    intros _. split; [split; [exact H0 | apply Hlt; exact Ht]|].
    destruct (Rlt_dec 0.4 p); reflexivity.
  - exists s. rewrite Hc, Hl. do 6 (split; [reflexivity|]).
    split; [reflexivity|]. intros Hafter. exfalso. apply H0, Hpos. lra.
Qed.

Lemma ticking_canvas : canvas ticking = Some (mkCanvas 4 3 1 true false).
Proof. vm_compute. reflexivity. Qed.

Lemma ticking_logoOverlay : logoOverlay ticking = Some (mkOverlay 1 0 1 0 true).
Proof. vm_compute. reflexivity. Qed.

Lemma ticking_clock :
  startTime ticking = 0%R ∧ transitionStart ticking = 5000%R ∧
  transitionDuration ticking = 1500%R.
Proof. repeat split; vm_compute; reflexivity. Qed.

Lemma ticking_page :
  intervals (page ticking) = {[0%nat]} ∧ signals (page ticking) = [] ∧
  completionSignals ticking = [CallOnComplete 7; DispatchEvent "shaderLoaderComplete"].
Proof. repeat split; vm_compute; reflexivity. Qed.

Lemma transitionTick_before_end_witness :
  ∃ s', transitionTick 0 5450 ticking = Return tt s' ∧ page s' = page ticking ∧
        opacity <$> canvas s' = Some 0.5%R.
Proof.
  destruct ticking_clock as (Hst & Hts & Htd).
  assert (0 < transitionDuration ticking)%R as Hd by (rewrite Htd; lra).
  assert (5450 - startTime ticking - transitionStart ticking < transitionDuration ticking)%R
    as Ht by (rewrite Hst, Hts, Htd; lra).
  destruct (transitionTick_before_end 0 5450 ticking _ _ ticking_canvas ticking_logoOverlay
              Hd Ht) as (s' & Hrun & Hpg & _ & _ & _ & _ & _ & Hop).
  exists s'. split; [exact Hrun|]. split; [exact Hpg|].
  destruct Hop as [_ ->]; [rewrite Hst, Hts; lra|].
  rewrite Hst, Hts, Htd. f_equal. rewrite Rmin_left by lra. lra.
Defined.

(** X10 (startTransition, complete): however the 16 ms timer fires,
    as soon as one firing finds the fade over, finalization has run
    exactly once.  For every sequence of clock readings that contains
    one at or after [startTime + transitionStart + transitionDuration],
    the callback and the event are signalled once each (after whatever
    was signalled before), the timer is cleared, the loader is stopped,
    canvas and logo are faded out and detached, and scrolling is
    unlocked; the context is not touched. *)
Theorem transition_completes_once (i : nat) (ts : list R) (s : ShaderLoader) (c : Canvas)
    (l : Overlay) :
  canvas s = Some c → logoOverlay s = Some l →
  (0 < transitionDuration s)%R →
  i ∈ intervals (page s) →
  Exists (λ t, (transitionDuration s <= t - startTime s - transitionStart s)%R) ts →
  let s' := intervalTicks i ts s in
  signals (page s') = (signals (page s) ++ completionSignals s)%list ∧
  count_events (signals (page s')) = S (count_events (signals (page s))) ∧
  (i ∉ intervals (page s')) ∧
  isRunning s' = false ∧
  opacity <$> canvas s' = Some 0%R ∧ parentNode <$> canvas s' = Some false ∧
  logo_opacity <$> logoOverlay s' = Some 0%R ∧
  logo_parentNode <$> logoOverlay s' = Some false ∧
  shaderLoading (page s') = false ∧ scrollLocked (page s') = false ∧
  resizeListening (page s') = false ∧
  gl s' = gl s ∧ frameCount s' = frameCount s.
Proof.
  revert s c l. induction ts as [|t ts IH]; intros s c l Hc Hl Hd Hi Hex; cbv zeta.
  { inversion Hex. }
  change (intervalTicks i (t :: ts) s)
    with (intervalTicks i ts (state_of (intervalFired i t s))).
  rewrite intervalFired_active by exact Hi.
  destruct (Rle_dec (transitionDuration s) (t - startTime s - transitionStart s))
    as [Hlate|Hearly].
  - destruct (transitionTick_late i t s c l Hc Hl Hd Hlate)
      as (s1 & Hrun & Hsig & Hint & Hr & Hc1 & Hlo & Hlp & Hsl & Hsc & Hrl & Hg & Hfc).
    rewrite Hrun. cbn [state_of].
    rewrite intervalTicks_idle
      by (rewrite Hint, elem_of_difference, elem_of_singleton; tauto).
    rewrite Hsig, Hc1, Hint. cbn [fmap option_fmap option_map opacity parentNode].
    split; [reflexivity|].
    split; [rewrite count_events_app, count_events_completion; lia|].
    split; [rewrite elem_of_difference, elem_of_singleton; tauto|].
    repeat (split; [first [reflexivity | assumption]|]). assumption.
  - assert (t - startTime s - transitionStart s < transitionDuration s)%R as Ht by lra.
    rewrite (transitionTick_early i t s c l Hc Hl Hd Ht).
    set (p := ((t - startTime s - transitionStart s) / transitionDuration s)%R).
    assert (∃ s1 c1 l1,
              (if Rle_dec 0 p then handleTransition p s else Return tt s) = Return tt s1 ∧
              canvas s1 = Some c1 ∧ logoOverlay s1 = Some l1 ∧ page s1 = page s ∧
              startTime s1 = startTime s ∧ transitionStart s1 = transitionStart s ∧
              transitionDuration s1 = transitionDuration s ∧
              onComplete s1 = onComplete s ∧ gl s1 = gl s ∧ frameCount s1 = frameCount s)
      as (s1 & c1 & l1 & Hrun & Hc1 & Hl1 & Hpg & Hst & Hts & Htd & Hoc & Hg & Hfc).
    { destruct (Rle_dec 0 p).
      - rewrite (handleTransition_run p s c l Hc Hl). cbv zeta.
        destruct (Rlt_dec 0.4 p); eexists _, _, _;
          (split; [reflexivity|]); js_fields; repeat split; exact Hl.
      - exists s, c, l. repeat split; assumption. }
    rewrite Hrun. cbn [state_of].
    assert (Exists (λ t, (transitionDuration s1 <= t - startTime s1 - transitionStart s1)%R)
              ts) as Hex1.
    { rewrite Hst, Hts, Htd. inversion Hex as [? ? Hhd|? ? Htl]; subst; [lra | exact Htl]. }
    pose proof (IH s1 c1 l1 Hc1 Hl1 ltac:(rewrite Htd; exact Hd)
                  ltac:(rewrite Hpg; exact Hi) Hex1) as IH1.
    cbv zeta in IH1. unfold completionSignals in *.
    rewrite Hpg, Hoc, Hg, Hfc in IH1. exact IH1.
Qed.

Lemma transition_completes_once_witness :
  signals (page (intervalTicks 0 [5000; 6000; 6500; 6516; 6532]%R ticking)) =
    [CallOnComplete 7; DispatchEvent "shaderLoaderComplete"] ∧
  isRunning (intervalTicks 0 [5000; 6000; 6500; 6516; 6532]%R ticking) = false.
Proof.
  destruct ticking_clock as (Hst & Hts & Htd).
  destruct ticking_page as (Hint & Hsig & Hcs).
  assert (0 < transitionDuration ticking)%R as Hd by (rewrite Htd; lra).
  assert (0%nat ∈ intervals (page ticking)) as Hi
    by (rewrite Hint; apply elem_of_singleton; reflexivity).
  assert (Exists (λ t, (transitionDuration ticking
                          <= t - startTime ticking - transitionStart ticking)%R)
            [5000; 6000; 6500; 6516; 6532]%R) as Hex.
  { rewrite Hst, Hts, Htd. apply Exists_cons_tl, Exists_cons_tl, Exists_cons_hd. lra. }
  destruct (transition_completes_once 0 _ ticking _ _ ticking_canvas ticking_logoOverlay
              Hd Hi Hex) as (Hs & _ & _ & Hr & _).
  split; [rewrite Hs, Hsig, Hcs; reflexivity | exact Hr].
Defined.

(** ** Tearing down *)

Lemma foldl_delete_lookup {A} (vs : list nat) : ∀ (m : gmap nat A) p,
  foldl (λ m v, delete v m) m vs !! p = if decide (p ∈ vs) then None else m !! p.
Proof.
  induction vs as [|v vs IH]; intros m p; cbn [foldl].
  - rewrite decide_False by apply not_elem_of_nil. reflexivity.
  - rewrite IH. destruct (decide (p ∈ vs)) as [Hin|Hout].
    + rewrite decide_True by (right; exact Hin). reflexivity.
    + destruct (decide (p = v)) as [->|Hne].
      * rewrite decide_True by left. apply lookup_delete_eq.
      * rewrite decide_False by (rewrite elem_of_cons; tauto).
        apply lookup_delete_ne. congruence.
Qed.

Lemma foldl_deleteProgram vs : ∀ g,
  foldl (λ g v, WebGL.deleteProgram v g) g vs =
    WebGL.mkGL (WebGL.next g) (WebGL.textures g) (WebGL.framebuffers g)
      (foldl (λ m v, delete v m) (WebGL.programs g) vs)
      (WebGL.buffers g) (WebGL.currentProgram g) (WebGL.drawFramebuffer g)
      (WebGL.readFramebuffer g) (WebGL.viewportSize g) (WebGL.activeUnit g)
      (WebGL.units g) (WebGL.canvasPixels g)
      (WebGL.log g ++ (WebGL.EvDeleteProgram <$> vs)).
Proof.
  induction vs as [|v vs IH]; intros g; cbn [foldl fmap list_fmap].
  - rewrite app_nil_r. destruct g. reflexivity.
  - rewrite IH. destruct g. cbn. rewrite <- app_assoc. reflexivity.
Qed.

Lemma foldl_deleteFramebuffer vs : ∀ g,
  foldl (λ g v, WebGL.deleteFramebuffer (Some v) g) g vs =
    WebGL.mkGL (WebGL.next g) (WebGL.textures g)
      (foldl (λ m v, delete v m) (WebGL.framebuffers g) vs)
      (WebGL.programs g)
      (WebGL.buffers g) (WebGL.currentProgram g) (WebGL.drawFramebuffer g)
      (WebGL.readFramebuffer g) (WebGL.viewportSize g) (WebGL.activeUnit g)
      (WebGL.units g) (WebGL.canvasPixels g)
      (WebGL.log g ++ (WebGL.EvDeleteFramebuffer <$> vs)).
Proof.
  induction vs as [|v vs IH]; intros g; cbn [foldl fmap list_fmap].
  - rewrite app_nil_r. destruct g. reflexivity.
  - rewrite IH. destruct g. cbn. rewrite <- app_assoc. reflexivity.
Qed.

Lemma foldl_deleteTexture vs : ∀ g,
  foldl (λ g v, WebGL.deleteTexture (Some v) g) g vs =
    WebGL.mkGL (WebGL.next g)
      (foldl (λ m v, delete v m) (WebGL.textures g) vs)
      (WebGL.framebuffers g) (WebGL.programs g)
      (WebGL.buffers g) (WebGL.currentProgram g) (WebGL.drawFramebuffer g)
      (WebGL.readFramebuffer g) (WebGL.viewportSize g) (WebGL.activeUnit g)
      (WebGL.units g) (WebGL.canvasPixels g)
      (WebGL.log g ++ (WebGL.EvDeleteTexture <$> vs)).
Proof.
  induction vs as [|v vs IH]; intros g; cbn [foldl fmap list_fmap].
  - rewrite app_nil_r. destruct g. reflexivity.
  - rewrite IH. destruct g. cbn. rewrite <- app_assoc. reflexivity.
Qed.

(** The context [destroy] leaves, field by field. *)
Lemma destroyed_eq s g :
  destroyed s g =
    WebGL.mkGL (WebGL.next g)
      (foldl (λ m v, delete v m) (WebGL.textures g) (values (textures s)))
      (foldl (λ m v, delete v m) (WebGL.framebuffers g) (values (framebuffers s)))
      (foldl (λ m v, delete v m) (WebGL.programs g) (values (programs s)))
      (if buffer s is Some b then WebGL.buffers g ∖ {[b]} else WebGL.buffers g)
      (WebGL.currentProgram g) (WebGL.drawFramebuffer g)
      (WebGL.readFramebuffer g) (WebGL.viewportSize g) (WebGL.activeUnit g)
      (WebGL.units g) (WebGL.canvasPixels g)
      (WebGL.log g ++
         (WebGL.EvDeleteProgram <$> values (programs s)) ++
         (WebGL.EvDeleteFramebuffer <$> values (framebuffers s)) ++
         (WebGL.EvDeleteTexture <$> values (textures s)) ++
         (if buffer s is Some b then [WebGL.EvDeleteBuffer b] else []))%list.
Proof.
  unfold destroyed, forEachValue. fold (values (programs s)) (values (framebuffers s))
    (values (textures s)). cbv zeta.
  rewrite foldl_deleteProgram, foldl_deleteFramebuffer, foldl_deleteTexture. gl_fields.
  destruct (buffer s) as [b|]; unfold WebGL.deleteBuffer, WebGL.emit, WebGL.set_buffers;
    gl_fields; rewrite <- ?app_assoc, ?app_nil_r; reflexivity.
Qed.

Lemma destroy_run s :
  destroy s =
    Return tt
      (set_logoOverlay (detachedLogo <$> logoOverlay s)
         (set_canvas (detached <$> canvas s)
            (set_gl (destroyed s <$> gl s) (set_isRunning false s)))).
Proof.
  unfold destroy, destroyed, detached, detachedLogo.
  destruct s as [cv g ? ? ? b ? ? ? ? ? ? ? lg ? ?].
  destruct cv as [[? ? ? [] ?]|], lg as [[? ? ? ? []]|], g as [g|], b as [b|];
    js_run; unfold modify; js_flat; cbn [fmap option_fmap option_map]; reflexivity.
Qed.

Lemma elem_of_values o h : h ∈ values o ↔ ∃ name, o !! name = Some h.
Proof.
  unfold values. rewrite list_elem_of_fmap. split.
  - intros ([name h'] & -> & Hin). exists name. apply elem_of_map_to_list. exact Hin.
  - intros (name & Hl). exists (name, h). split; [reflexivity|].
    apply elem_of_map_to_list. exact Hl.
Qed.

Lemma length_values o : length (values o) = size o.
Proof. unfold values. rewrite length_fmap. apply length_map_to_list. Qed.

(** X11 (destroy): with a context, [destroy] returns, stops the loop
    and deletes every object the loader has stored: each stored
    program, framebuffer and texture and the vertex buffer are no
    longer live, every call it issues is a deletion (one per stored
    object), and textures the loader has not stored are left as they
    were; canvas and logo are taken out of the document. *)
Theorem destroy_releases (s : ShaderLoader) (g : WebGL.GL) :
  gl s = Some g →
  ∃ s' g',
    destroy s = Return tt s' ∧ gl s' = Some g' ∧ isRunning s' = false ∧
    (∀ name p, programs s !! name = Some p → WebGL.programs g' !! p = None) ∧
    (∀ name f, framebuffers s !! name = Some f → WebGL.framebuffers g' !! f = None) ∧
    (∀ name t, textures s !! name = Some t → WebGL.textures g' !! t = None) ∧
    (∀ b, buffer s = Some b → b ∉ WebGL.buffers g') ∧
    (∀ t, (∀ name, textures s !! name ≠ Some t) →
          WebGL.textures g' !! t = WebGL.textures g !! t) ∧
    Forall (λ e, is_delete e = true) (new_calls s s') ∧
    length (new_calls s s') =
      (size (programs s) + size (framebuffers s) + size (textures s) +
       (if buffer s is Some _ then 1 else 0))%nat ∧
    canvas s' = detached <$> canvas s ∧
    logoOverlay s' = detachedLogo <$> logoOverlay s.
Proof.
  intros Hg. rewrite destroy_run, Hg. cbn [fmap option_fmap option_map].
  eexists _, (destroyed s g). split; [reflexivity|]. js_fields.
  split; [reflexivity|]. split; [reflexivity|].
  unfold new_calls, calls. js_fields. rewrite Hg.
  rewrite destroyed_eq. gl_fields. rewrite drop_app_length.
  split.
  { intros name p Hp. rewrite foldl_delete_lookup, decide_True; [reflexivity|].
    apply elem_of_values. eauto. }
  split.
  { intros name f Hf. rewrite foldl_delete_lookup, decide_True; [reflexivity|].
    apply elem_of_values. eauto. }
  split.
  { intros name t Ht. rewrite foldl_delete_lookup, decide_True; [reflexivity|].
    apply elem_of_values. eauto. }
  split.
  { intros b ->. rewrite elem_of_difference, elem_of_singleton. tauto. }
  split.
  { intros t Ht. rewrite foldl_delete_lookup, decide_False; [reflexivity|].
    rewrite elem_of_values. intros (name & Hn). exact (Ht name Hn). }
  split.
  { rewrite !Forall_app. repeat split.
    - apply Forall_fmap, Forall_forall. intros; reflexivity.
    - apply Forall_fmap, Forall_forall. intros; reflexivity.
    - apply Forall_fmap, Forall_forall. intros; reflexivity.
    - destruct (buffer s); repeat constructor. }
  split; [|split; reflexivity].
  rewrite !length_app, !length_fmap, !length_values.
  destruct (buffer s); cbn [length]; lia.
Qed.

Lemma destroy_releases_witness :
  ∃ s' g',
    destroy tiny = Return tt s' ∧ gl s' = Some g' ∧ isRunning s' = false ∧
    WebGL.textures g' !! 1%nat = None ∧ WebGL.framebuffers g' !! 4%nat = None ∧
    WebGL.programs g' !! 7%nat = None.
Proof.
  destruct (destroy_releases tiny tiny_gl
              (ready_gl _ _ _ _ _ _ _ _ _ _ _ _ tiny_ready))
    as (s' & g' & Hrun & Hg' & Hr & Hp & Hf & Ht & _).
  exists s', g'. split; [exact Hrun|]. split; [exact Hg'|]. split; [exact Hr|].
  split; [|split].
  - exact (Ht _ _ (ready_tA _ _ _ _ _ _ _ _ _ _ _ _ tiny_ready)).
  - exact (Hf _ _ (ready_fA _ _ _ _ _ _ _ _ _ _ _ _ tiny_ready)).
  - exact (Hp _ _ (ready_pA _ _ _ _ _ _ _ _ _ _ _ _ tiny_ready)).
Defined.

(** X12 (destroy, startTransition, complete): [destroy] never throws
    and leaves the page alone: the body class, the scroll lock, the
    resize listeners, the pending timeouts and the signal log are as
    before, and the stored names are kept.  In particular it cancels
    nothing: when the transition then runs to its end on the destroyed
    loader, completion is still signalled, once. *)
Theorem destroy_cancels_nothing (t : R) (s : ShaderLoader) (c : Canvas) (l : Overlay) :
  canvas s = Some c → logoOverlay s = Some l →
  (0 < transitionDuration s)%R →
  (transitionDuration s <= t - startTime s - transitionStart s)%R →
  ∃ s1 s2,
    destroy s = Return tt s1 ∧
    page s1 = page s ∧
    programs s1 = programs s ∧ framebuffers s1 = framebuffers s ∧
    textures s1 = textures s ∧ buffer s1 = buffer s ∧
    isRunning s1 = false ∧
    finish t s1 = Return tt s2 ∧
    signals (page s2) = (signals (page s) ++ completionSignals s)%list ∧
    scrollLocked (page s2) = false.
Proof.
  intros Hc Hl Hd Ht. rewrite destroy_run.
  set (s1 := set_logoOverlay _ _).
  assert (canvas s1 = Some (detached c)) as Hc1 by (subst s1; js_fields; rewrite Hc; reflexivity).
  assert (logoOverlay s1 = Some (detachedLogo l)) as Hl1
    by (subst s1; js_fields; rewrite Hl; reflexivity).
  destruct (finish_run t s1 _ _ Hc1 Hl1 Hd Ht) as (s2 & Hrun & Hsig & _ & _ & _ & _ & _ & _ & Hsc & _).
  exists s1, s2. repeat (split; [reflexivity|]).
  split; [exact Hrun|]. split; [exact Hsig | exact Hsc].
Qed.

Lemma destroy_cancels_nothing_witness :
  ∃ s1 s2,
    destroy ticking = Return tt s1 ∧ page s1 = page ticking ∧
    finish 6500 s1 = Return tt s2 ∧
    signals (page s2) = [CallOnComplete 7; DispatchEvent "shaderLoaderComplete"].
Proof.
  destruct ticking_clock as (Hst & Hts & Htd).
  destruct ticking_page as (_ & Hsig & Hcs).
  assert (0 < transitionDuration ticking)%R as Hd by (rewrite Htd; lra).
  assert (transitionDuration ticking <= 6500 - startTime ticking - transitionStart ticking)%R
    as Ht by (rewrite Hst, Hts, Htd; lra).
  destruct (destroy_cancels_nothing 6500 ticking _ _ ticking_canvas ticking_logoOverlay Hd Ht)
    as (s1 & s2 & Hrun & Hpg & _ & _ & _ & _ & _ & Hfin & Hs & _).
  exists s1, s2. split; [exact Hrun|]. split; [exact Hpg|]. split; [exact Hfin|].
  rewrite Hs, Hsig, Hcs. reflexivity.
Defined.

(** ** Compilation and the two ways out of [init] *)

Lemma set_gl_same s g : gl s = Some g → set_gl (Some g) s = s.
Proof. destruct s. cbn. intros ->. reflexivity. Qed.

Lemma compileProgram_run body names r s g :
  gl s = Some g →
  compileProgram body names r s =
    Return (if r is Linked then Some (WebGL.next g) else None)
      (set_gl (Some (attempt body (length names) r g)) s).
Proof.
  intros Hg. unfold compileProgram, attempt.
  destruct r; cbn [reachesLink]; js_run; rewrite ?(set_gl_same s g Hg); reflexivity.
Qed.

Lemma attempt_eq body k r g :
  attempt body k r g =
    WebGL.mkGL (if reachesLink r then S (WebGL.next g) else WebGL.next g)
      (WebGL.textures g) (WebGL.framebuffers g)
      (if reachesLink r
       then <[WebGL.next g := WebGL.mkProgram body k (mkUniforms 0%R (0, 0) 0 0 0)]>
              (WebGL.programs g)
       else WebGL.programs g)
      (WebGL.buffers g) (WebGL.currentProgram g) (WebGL.drawFramebuffer g)
      (WebGL.readFramebuffer g) (WebGL.viewportSize g) (WebGL.activeUnit g)
      (WebGL.units g) (WebGL.canvasPixels g)
      (WebGL.log g ++ (if reachesLink r then [WebGL.EvCreateProgram (WebGL.next g)] else [])).
Proof.
  unfold attempt. destruct (reachesLink r).
  - apply createProgram_eq.
  - rewrite app_nil_r. destruct g. reflexivity.
Qed.

(** [compileShaders] for any answers of the driver. *)
Lemma compileShaders_run result s g :
  gl s = Some g →
  let gA := attempt BufferAShader 1 (result BufferAShader) g in
  let gB := attempt BufferBShader 1 (result BufferBShader) gA in
  let gI := attempt ImageShader 2 (result ImageShader) gB in
  compileShaders result s =
    match result BufferAShader, result BufferBShader, result ImageShader with
    | Linked, Linked, Linked =>
        Return true
          (set_programs
             (<["image" := WebGL.next gB]>
                (<["bufferB" := WebGL.next gA]>
                   (<["bufferA" := WebGL.next g]> (programs s))))
             (set_gl (Some gI) s))
    | _, _, _ => Return false (set_gl (Some gI) s)
    end.
Proof.
  intros Hg gA gB gI. unfold compileShaders.
  erewrite bind_run by (apply compileProgram_run; exact Hg).
  erewrite bind_run by (apply compileProgram_run; js_side).
  rewrite set_gl_set_gl.
  erewrite bind_run by (apply compileProgram_run; js_side).
  rewrite set_gl_set_gl.
  cbn [length]. fold gA gB gI.
  destruct (result BufferAShader), (result BufferBShader), (result ImageShader);
    reflexivity.
Qed.

Lemma all_linked_dec (result : Shader → Outcome) :
  (∀ pass, result pass = Linked) ∨ (∃ pass, result pass ≠ Linked).
Proof.
  destruct (result BufferAShader) eqn:HA; [|right; exists BufferAShader; congruence..].
  destruct (result BufferBShader) eqn:HB; [|right; exists BufferBShader; congruence..].
  destruct (result ImageShader) eqn:HI; [|right; exists ImageShader; congruence..].
  left. intros []; assumption.
Qed.

(** X13 (compileShaders, compileProgram): compilation is all or
    nothing for the loader and has no short circuit.  [compileShaders]
    returns true exactly when all three passes link, and only then
    stores the three programs (three different, live program objects
    with every uniform still zero); otherwise the stored programs are
    unchanged.  In every case all three passes are attempted: one
    program object is created for each pass that gets as far as
    linking, including a pass whose link fails, and nothing is ever
    deleted; textures and framebuffers are not touched. *)
Theorem compileShaders_all_or_nothing (result : Shader → Outcome) (s : ShaderLoader)
    (g : WebGL.GL) :
  gl s = Some g →
  ∃ ok s' g',
    compileShaders result s = Return ok s' ∧ gl s' = Some g' ∧
    (ok = true ↔ ∀ pass, result pass = Linked) ∧
    (ok = false → programs s' = programs s) ∧
    (ok = true →
       ∃ pA pB pI,
         programs s' !! "bufferA" = Some pA ∧ programs s' !! "bufferB" = Some pB ∧
         programs s' !! "image" = Some pI ∧
         pA ≠ pB ∧ pA ≠ pI ∧ pB ≠ pI ∧
         WebGL.programs g' !! pA =
           Some (WebGL.mkProgram BufferAShader 1 (mkUniforms 0%R (0, 0) 0 0 0)) ∧
         WebGL.programs g' !! pB =
           Some (WebGL.mkProgram BufferBShader 1 (mkUniforms 0%R (0, 0) 0 0 0)) ∧
         WebGL.programs g' !! pI =
           Some (WebGL.mkProgram ImageShader 2 (mkUniforms 0%R (0, 0) 0 0 0))) ∧
    (∃ created, new_calls s s' = (WebGL.EvCreateProgram <$> created) ∧
       length created = length (List.filter (λ pass, reachesLink (result pass)) passes)) ∧
    WebGL.textures g' = WebGL.textures g ∧
    WebGL.framebuffers g' = WebGL.framebuffers g ∧
    WebGL.buffers g' = WebGL.buffers g ∧
    canvas s' = canvas s ∧ textures s' = textures s ∧ framebuffers s' = framebuffers s.
Proof.
  intros Hg. pose proof (compileShaders_run result s g Hg) as Hrun. cbv zeta in Hrun.
  set (gA := attempt BufferAShader 1 (result BufferAShader) g) in *.
  set (gB := attempt BufferBShader 1 (result BufferBShader) gA) in *.
  set (gI := attempt ImageShader 2 (result ImageShader) gB) in *.
  assert (WebGL.textures gI = WebGL.textures g ∧
          WebGL.framebuffers gI = WebGL.framebuffers g ∧
          WebGL.buffers gI = WebGL.buffers g ∧
          ∃ created, WebGL.log gI = (WebGL.log g ++ (WebGL.EvCreateProgram <$> created))%list ∧
            length created = length (List.filter (λ pass, reachesLink (result pass)) passes))
    as (Ht & Hf & Hb & created & Hlog & Hlen).
  { subst gI gB gA. rewrite !attempt_eq. gl_fields. do 3 (split; [reflexivity|]).
    unfold passes. cbn [List.filter].
    destruct (reachesLink (result BufferAShader)), (reachesLink (result BufferBShader)),
      (reachesLink (result ImageShader)); rewrite <- ?app_assoc; cbn [app length];
      [eexists [_; _; _] | eexists [_; _] | eexists [_; _] | eexists [_]
      | eexists [_; _] | eexists [_] | eexists [_] | eexists []];
      split; reflexivity. }
  assert (new_calls s (set_gl (Some gI) s) = (WebGL.EvCreateProgram <$> created)) as Hnew.
  { unfold new_calls, calls. js_fields. rewrite Hg, Hlog, drop_app_length. reflexivity. }
  destruct (all_linked_dec result) as [Hall|Hsome].
  - rewrite !Hall in Hrun.
    eexists true, _, gI. split; [exact Hrun|]. js_fields.
    split; [reflexivity|]. split; [tauto|]. split; [discriminate|].
    split.
    { intros _. exists (WebGL.next g), (WebGL.next gA), (WebGL.next gB).
      subst gI gB gA. rewrite !attempt_eq, !Hall. cbn [reachesLink]. gl_fields.
      map_simp. repeat split; try reflexivity; lia. }
    split; [exists created; split; [exact Hnew | exact Hlen]|].
    repeat (split; [first [assumption | reflexivity]|]). reflexivity.
  - assert (compileShaders result s = Return false (set_gl (Some gI) s)) as Hrun'.
    { rewrite Hrun. destruct Hsome as [[] Hp];
        destruct (result BufferAShader), (result BufferBShader), (result ImageShader);
        first [reflexivity | congruence]. }
    eexists false, _, gI. split; [exact Hrun'|]. js_fields.
    split; [reflexivity|].
    split.
    { split; [discriminate|]. intros Hall. destruct Hsome as [pass Hp].
      exfalso. apply Hp, Hall. }
    split; [reflexivity|]. split; [discriminate|].
    split; [exists created; split; [exact Hnew | exact Hlen]|].
    repeat (split; [first [assumption | reflexivity]|]). reflexivity.
Qed.

Lemma compileShaders_all_or_nothing_witness :
  ∃ s',
    compileShaders (λ pass, if pass is BufferBShader then LinkError else Linked)
      (booted 4 3) = Return false s' ∧
    programs s' = ∅ ∧ length (new_calls (booted 4 3) s') = 3%nat.
Proof.
  destruct (compileShaders_all_or_nothing
              (λ pass, if pass is BufferBShader then LinkError else Linked)
              (booted 4 3) (WebGL.fresh 4 3) eq_refl)
    as (ok & s' & g' & Hrun & _ & Hok & Hkeep & _ & (created & Hnew & Hlen) & _).
  destruct ok.
  - destruct Hok as [Hall _]. specialize (Hall eq_refl BufferBShader). discriminate.
  - exists s'. split; [exact Hrun|]. split; [exact (Hkeep eq_refl)|].
    rewrite Hnew, length_fmap, Hlen. reflexivity.
Defined.

Lemma compileShaders_unlinked result s g :
  gl s = Some g → (∃ pass, result pass ≠ Linked) →
  compileShaders result s =
    Return false
      (set_gl
         (Some (attempt ImageShader 2 (result ImageShader)
                  (attempt BufferBShader 1 (result BufferBShader)
                     (attempt BufferAShader 1 (result BufferAShader) g))))
         s).
Proof.
  intros Hg Hsome. pose proof (compileShaders_run result s g Hg) as Hrun. cbv zeta in Hrun.
  rewrite Hrun. destruct Hsome as [[] Hp];
    destruct (result BufferAShader), (result BufferBShader), (result ImageShader);
    first [reflexivity | congruence].
Qed.

Lemma init_ext webgl2 r1 r2 s :
  (∀ pass, r1 pass = r2 pass) → init webgl2 r1 s = init webgl2 r2 s.
Proof.
  intros H. unfold init, compileShaders.
  rewrite (H BufferAShader), (H BufferBShader), (H ImageShader). reflexivity.
Qed.

(** X14 (init): in a browser whose only failures are a refused WebGL2
    context and passes that do not compile or link, [init] returns
    without an exception and ends in exactly one of two ways.  The
    error flag stays clear exactly when WebGL2 is available and all
    three passes link; then the loop is requested and the three
    programs are stored.  Otherwise the flag is set, the
    fallback pattern and its keyframes are installed, no program is
    stored and no frame is requested.  Either way the canvas is shown
    at opacity 1, the page is locked, nothing has been signalled, and
    the same two timeouts are pending: the logo at 500 ms and the
    transition at 5000 ms. *)
Theorem init_outcome (now W H : R) (cb : option nat) (webgl2 : bool)
    (result : Shader → Outcome) :
  ∃ s,
    init webgl2 result (loader now W H cb) = Return tt s ∧
    (hasError s = false ↔ webgl2 = true ∧ ∀ pass, result pass = Linked) ∧
    (hasError s = false →
       animationFrame (page s) = true ∧ pattern <$> canvas s = Some false ∧
       pulseStyle (page s) = false ∧
       is_Some (programs s !! "bufferA") ∧ is_Some (programs s !! "bufferB") ∧
       is_Some (programs s !! "image")) ∧
    (hasError s = true →
       animationFrame (page s) = false ∧ pattern <$> canvas s = Some true ∧
       pulseStyle (page s) = true ∧ programs s = ∅) ∧
    timeouts (page s) = [(500%R, ShowLogo); (5000%R, StartTransition)] ∧
    opacity <$> canvas s = Some 1%R ∧
    (width <$> canvas s, height <$> canvas s) = (Some (Zfloor W), Some (Zfloor H)) ∧
    isRunning s = true ∧ frameCount s = 0 ∧
    shaderLoading (page s) = true ∧ scrollLocked (page s) = true ∧
    resizeListening (page s) = true ∧ signals (page s) = [] ∧ intervals (page s) = ∅.
Proof.
  assert (webgl2 = true ∧ (∀ pass, result pass = Linked) ∨
          (webgl2 = false ∨ ∃ pass, result pass ≠ Linked)) as [[-> Hall]|Hfail].
  { destruct webgl2; [|auto]. destruct (all_linked_dec result); auto. }
  - rewrite (init_ext true result (λ _, Linked)) by exact Hall.
    destruct (init_webgl now W H cb) as (s & g & Hrun & HR & Hr & Hfc & _ & He & _ & _ & _ &
                                         _ & _ & Hpg & _).
    exists s. split; [exact Hrun|].
    rewrite He, Hpg, (ready_canvas _ _ _ _ _ _ _ _ _ _ _ _ HR),
      (ready_pA _ _ _ _ _ _ _ _ _ _ _ _ HR), (ready_pB _ _ _ _ _ _ _ _ _ _ _ _ HR),
      (ready_pI _ _ _ _ _ _ _ _ _ _ _ _ HR).
    cbn [fmap option_fmap option_map animationFrame pulseStyle timeouts shaderLoading
         scrollLocked resizeListening signals intervals opacity width height pattern].
    split; [tauto|]. split; [intros _; repeat split; eauto|].
    split; [discriminate|]. repeat (split; [first [reflexivity | assumption]|]). reflexivity.
  - destruct (init_fallback_run now W H cb webgl2 result Hfail)
      as (s & Hrun & He & Hp & _ & Hc & _ & Hpg & Hr & Hfc & _).
    exists s. split; [exact Hrun|]. rewrite He, Hpg, Hc, Hp.
    cbn [fmap option_fmap option_map animationFrame pulseStyle timeouts shaderLoading
         scrollLocked resizeListening signals intervals opacity width height pattern].
    split.
    { split; [discriminate|]. intros [-> Hall]. destruct Hfail as [?|[pass Hp']];
        [discriminate | exfalso; apply Hp', Hall]. }
    split; [discriminate|]. split; [intros _; repeat split|].
    repeat (split; [first [reflexivity | assumption]|]). reflexivity.
Qed.

(** X15 (init, createFramebuffers, fallbackToCSS): when a context was
    obtained but a pass fails to compile or link, the fallback takes
    over with the render targets still allocated.  The three textures
    and three framebuffers that [createFramebuffers] made before
    compilation stay stored and live, no deletion has been issued, and
    the transition run to its end leaves the context exactly as it
    was: nothing on this path ever releases them. *)
Theorem init_failure_keeps_targets (now W H : R) (cb : option nat)
    (result : Shader → Outcome) :
  (∃ pass, result pass ≠ Linked) →
  ∃ s g,
    init true result (loader now W H cb) = Return tt s ∧
    hasError s = true ∧ gl s = Some g ∧ programs s = ∅ ∧
    textures s = named 1 2 3 ∧ framebuffers s = named 4 5 6 ∧
    (∀ t, t ∈ [1; 2; 3]%nat → is_Some (WebGL.textures g !! t)) ∧
    (∀ f, f ∈ [4; 5; 6]%nat → is_Some (WebGL.framebuffers g !! f)) ∧
    List.filter is_delete (calls s) = [] ∧
    List.filter is_draw (calls s) = [] ∧
    ∀ t, (6500 <= t - now)%R →
         ∃ s1, finish t s = Return tt s1 ∧ isRunning s1 = false ∧ gl s1 = Some g.
Proof.
  intros Hfail. unfold init, try_catch, loader, constructor, blankPage.
  erewrite bind_run by apply createCanvas_run. js_flat.
  unfold setupWebGL. js_run.
  erewrite bind_run by (eapply createFramebuffers_run; js_side). js_fields.
  rewrite release_none by reflexivity.
  erewrite bind_run by (eapply compileShaders_unlinked; [js_side | exact Hfail]).
  js_fields. erewrite fallbackToCSS_run by js_side. js_flat.
  eexists _, _. split; [reflexivity|]. js_fields.
  do 5 (split; [reflexivity|]).
  unfold WebGL.fresh.
  rewrite (allocate_eq _ _ (WebGL.mkGL _ _ _ _ _ _ _ _ _ _ _ _ _)). cbv zeta. gl_fields.
  rewrite (attempt_eq BufferAShader _ _ (WebGL.mkGL _ _ _ _ _ _ _ _ _ _ _ _ _)). gl_fields.
  rewrite (attempt_eq BufferBShader _ _ (WebGL.mkGL _ _ _ _ _ _ _ _ _ _ _ _ _)). gl_fields.
  rewrite (attempt_eq ImageShader _ _ (WebGL.mkGL _ _ _ _ _ _ _ _ _ _ _ _ _)). gl_fields.
  split.
  { intros t Ht. rewrite !elem_of_cons, elem_of_nil in Ht.
    destruct Ht as [->|[->|[->|[]]]]; map_simp; eauto. }
  split.
  { intros f Hf. rewrite !elem_of_cons, elem_of_nil in Hf.
    destruct Hf as [->|[->|[->|[]]]]; map_simp; eauto. }
  unfold calls. js_fields. gl_fields.
  split.
  { destruct (reachesLink (result BufferAShader)), (reachesLink (result BufferBShader)),
      (reachesLink (result ImageShader)); reflexivity. }
  split.
  { destruct (reachesLink (result BufferAShader)), (reachesLink (result BufferBShader)),
      (reachesLink (result ImageShader)); reflexivity. }
  intros t Ht.
  edestruct (finish_run t) as (s1 & Hrun & _ & Hr & _ & _ & _ & _ & _ & _ & _ & _ & Hg & _);
    [| | | |exists s1; split; [exact Hrun|]; split; [exact Hr | exact Hg]];
    js_fields; try reflexivity; lra.
Qed.

Lemma init_failure_keeps_targets_witness :
  ∃ s g,
    init true (λ pass, if pass is ImageShader then FSError else Linked)
      (loader 0 4 3 None) = Return tt s ∧
    hasError s = true ∧ gl s = Some g ∧
    is_Some (WebGL.textures g !! 1%nat) ∧ is_Some (WebGL.framebuffers g !! 4%nat) ∧
    List.filter is_delete (calls s) = [].
Proof.
  destruct (init_failure_keeps_targets 0 4 3 None
              (λ pass, if pass is ImageShader then FSError else Linked))
    as (s & g & Hrun & He & Hg & _ & _ & _ & Ht & Hf & Hd & _).
  { exists ImageShader. discriminate. }
  exists s, g. split; [exact Hrun|]. split; [exact He|]. split; [exact Hg|].
  split; [apply Ht; apply list_elem_of_here|].
  split; [apply Hf; apply list_elem_of_here | exact Hd].
Defined.

(** ** After the end *)

Lemma set_page_same s : set_page (page s) s = s.
Proof. destruct s. reflexivity. Qed.

(** Deliveries to a loader that is stopped and no longer listens only
    move the page: the window takes its new sizes and a requested frame
    is consumed. *)
Lemma deliverAll_stopped ds : ∀ s,
  isRunning s = false → resizeListening (page s) = false →
  ∃ p,
    deliverAll ds s = Return tt (set_page p s) ∧
    resizeListening p = false ∧ signals p = signals (page s) ∧
    timeouts p = timeouts (page s) ∧ intervals p = intervals (page s) ∧
    scrollLocked p = scrollLocked (page s) ∧ shaderLoading p = shaderLoading (page s) ∧
    (animationFrame p = true → animationFrame (page s) = true ∧ refreshes ds = 0%nat).
Proof.
  induction ds as [|d ds IH]; intros s Hr Hl.
  - exists (page s). cbn [deliverAll]. rewrite set_page_same. repeat split; auto.
  - cbn [deliverAll].
    assert (∃ p1, deliver d s = Return tt (set_page p1 s) ∧
              resizeListening p1 = false ∧ signals p1 = signals (page s) ∧
              timeouts p1 = timeouts (page s) ∧ intervals p1 = intervals (page s) ∧
              scrollLocked p1 = scrollLocked (page s) ∧
              shaderLoading p1 = shaderLoading (page s) ∧
              (animationFrame p1 = true →
                 animationFrame (page s) = true ∧ ∃ W H, d = Resized W H))
      as (p1 & Hrun1 & Hl1 & Hs1 & Ht1 & Hi1 & Hsc1 & Hsh1 & Ha1).
    { destruct d as [t1 t2 t3|W H]; cbn [deliver].
      - unfold animationFrameFired. rewrite bind_get.
        destruct (animationFrame (page s)) eqn:Hreq.
        + rewrite bind_on_page, loop_stopped by exact Hr.
          exists (set_animationFrame false (page s)).
          do 7 (split; [first [reflexivity | assumption]|]). discriminate.
        + exists (page s). rewrite set_page_same.
          do 7 (split; [first [reflexivity | assumption]|]). congruence.
      - unfold resizeEvent. rewrite bind_on_page, bind_get. js_fields. rewrite Hl.
        exists (set_window W H (page s)).
        do 7 (split; [first [reflexivity | assumption]|]). eauto. }
    erewrite bind_run by exact Hrun1.
    destruct (IH (set_page p1 s) Hr Hl1) as (p & Hrun & Hl' & Hs & Ht & Hi & Hsc & Hsh & Ha).
    exists p. split; [exact Hrun|].
    cbn [page set_page] in Hs, Ht, Hi, Hsc, Hsh, Ha.
    repeat (split; [congruence|]).
    intros Hp. destruct (Ha Hp) as [Hp1 Hz]. destruct (Ha1 Hp1) as (Hp0 & W & H & ->).
    split; [exact Hp0 | exact Hz].
Qed.

(** X16 (complete, startRenderLoop, handleResize): completion is final
    for the pipeline.  After [complete], whatever refreshes and resize
    events the browser still delivers, nothing throws, no WebGL call is
    issued, the frame counter, the canvas and the logo stay as
    [complete] left them, nothing more is signalled, and once a refresh
    has been delivered no further frame is requested: the loop has
    ended and the resize listener is gone. *)
Theorem complete_is_final (ds : list Delivery) (s : ShaderLoader) :
  ∃ s1 s2,
    complete s = Return tt s1 ∧ deliverAll ds s1 = Return tt s2 ∧
    isRunning s2 = false ∧
    calls s2 = calls s ∧ gl s2 = gl s ∧ frameCount s2 = frameCount s ∧
    canvas s2 = canvas s1 ∧ logoOverlay s2 = logoOverlay s1 ∧
    signals (page s2) = signals (page s1) ∧
    resizeListening (page s2) = false ∧
    ((0 < refreshes ds)%nat → animationFrame (page s2) = false).
Proof.
  rewrite complete_run.
  destruct (deliverAll_stopped ds (completed s) eq_refl eq_refl)
    as (p & Hrun & Hl & Hs & _ & _ & _ & _ & Ha).
  exists (completed s), (set_page p (completed s)).
  split; [reflexivity|]. split; [exact Hrun|].
  do 6 (split; [reflexivity|]). cbn [page set_page].
  split; [exact Hs|]. split; [exact Hl|].
  intros Hpos. destruct (animationFrame p); [|reflexivity].
  destruct (Ha eq_refl) as [_ Hz]. lia.
Qed.

(** X3 (handleResize): without a context (the fallback after WebGL2
    was refused) a resize only gives the canvas the floored window size
    and re-centres the logo; it returns, creates nothing and stores
    nothing. *)
Theorem handleResize_without_context (s : ShaderLoader) (c : Canvas) :
  canvas s = Some c → gl s = None → isTransitioning s = false →
  ∃ s',
    handleResize s = Return tt s' ∧
    (width <$> canvas s', height <$> canvas s') =
      (Some (Zfloor (innerWidth (page s))), Some (Zfloor (innerHeight (page s)))) ∧
    opacity <$> canvas s' = Some (opacity c) ∧
    pattern <$> canvas s' = Some (pattern c) ∧
    parentNode <$> canvas s' = Some (parentNode c) ∧
    gl s' = None ∧ textures s' = textures s ∧ framebuffers s' = framebuffers s ∧
    programs s' = programs s ∧ page s' = page s ∧
    logo_opacity <$> logoOverlay s' = logo_opacity <$> logoOverlay s.
Proof.
  intros Hc Hg Ht. unfold handleResize. rewrite bind_get, bind_get, Hc, Ht, bind_get, bind_get.
  destruct (decide (width c = Zfloor (innerWidth (page s)) ∧
                    height c = Zfloor (innerHeight (page s)))) as [[Hw Hh]|Hne].
  - exists s. rewrite Hc, Hg, <- Hw, <- Hh. repeat split.
  - unfold resizeCanvas at 1. unfold bind at 1. rewrite Hc, Hg.
    cbn [fmap option_fmap option_map].
    unfold bind at 1. rewrite updateLogoPosition_centred.
    rewrite bind_get. js_fields.
    eexists. split; [reflexivity|]. js_fields.
    destruct (logoOverlay s); repeat split.
Qed.

Lemma handleResize_without_context_witness :
  ∃ s',
    handleResize (set_page (set_window 8 6 (page (booted 4 3))) (set_gl None (booted 4 3)))
      = Return tt s' ∧
    (width <$> canvas s', height <$> canvas s') = (Some 8, Some 6) ∧ gl s' = None.
Proof.
  destruct (handleResize_without_context
              (set_page (set_window 8 6 (page (booted 4 3))) (set_gl None (booted 4 3)))
              (mkCanvas 4 3 0 true false) eq_refl eq_refl eq_refl)
    as (s' & Hrun & Hsz & _ & _ & _ & Hg & _).
  exists s'. split; [exact Hrun|]. split; [|exact Hg].
  change ((width <$> canvas s', height <$> canvas s') = (Some (Zfloor 8), Some (Zfloor 6)))
    in Hsz.
  rewrite !ZfloorZ in Hsz. exact Hsz.
Defined.

(** X17 (destroy, handleResize): [destroy] does not unregister the
    resize listener, and [handleResize] does not look at [isRunning].
    A resize event that reaches a destroyed loader at a new window size
    therefore builds a complete new set of render targets, of the new
    sizes, on the loader that was torn down: after deleting the stored
    (already deleted) names again it creates three textures and three
    framebuffers, which stay live. *)
Theorem destroy_then_resize_reallocates (W H : R) (s : ShaderLoader) (c : Canvas)
    (g : WebGL.GL) :
  canvas s = Some c → gl s = Some g → isTransitioning s = false →
  resizeListening (page s) = true →
  ¬ (width c = Zfloor W ∧ height c = Zfloor H) →
  let n := WebGL.next g in
  ∃ s1 s2 g2 dels,
    destroy s = Return tt s1 ∧ resizeListening (page s1) = true ∧
    resizeEvent W H s1 = Return tt s2 ∧ isRunning s2 = false ∧ gl s2 = Some g2 ∧
    target_size s2 "bufferA" = Some (Zfloor W, Zfloor H) ∧
    target_size s2 "bufferAPrev" = Some (Zfloor W, Zfloor H) ∧
    target_size s2 "bufferB" = Some (Z.max 1 (Zfloor W / 3), Z.max 1 (Zfloor H / 3)) ∧
    new_calls s1 s2 =
      (dels ++
       [WebGL.EvCreateTexture n; WebGL.EvCreateTexture (S n);
        WebGL.EvCreateTexture (S (S n));
        WebGL.EvCreateFramebuffer (S (S (S n)));
        WebGL.EvCreateFramebuffer (S (S (S (S n))));
        WebGL.EvCreateFramebuffer (S (S (S (S (S n)))))])%list ∧
    Forall (λ e, is_delete e = true) dels.
Proof.
  intros Hc Hg Ht Hl Hne n. rewrite destroy_run.
  set (s1 := set_logoOverlay _ _).
  assert (canvas s1 = Some (detached c)) as Hc1
    by (subst s1; js_fields; rewrite Hc; reflexivity).
  assert (gl s1 = Some (destroyed s g)) as Hg1
    by (subst s1; js_fields; rewrite Hg; reflexivity).
  set (s1' := set_page (set_window W H (page s1)) s1).
  assert (resizeEvent W H s1 = handleResize s1') as Hre.
  { assert (resizeListening (page s1) = true) as Hl1 by exact Hl.
    unfold resizeEvent. rewrite bind_on_page, bind_get. js_fields.
    rewrite Hl1. reflexivity. }
  pose proof (handleResize_run s1' (detached c) (destroyed s g) Hc1 Ht Hg1) as Hrs.
  cbv zeta in Hrs. specialize (Hrs Hne).
  change (Zfloor (innerWidth (page s1'))) with (Zfloor W) in Hrs.
  change (Zfloor (innerHeight (page s1'))) with (Zfloor H) in Hrs.
  set (g0 := Calls.release (textures s1') (framebuffers s1')
               (WebGL.set_canvasPixels (Black (Zfloor W) (Zfloor H)) (destroyed s g))) in *.
  assert (WebGL.next (destroyed s g) = n) as Hn by (rewrite destroyed_eq; reflexivity).
  rewrite Hn in Hrs.
  assert (WebGL.next g0 = n) as Hn0 by (subst g0; rewrite release_next; exact Hn).
  pose proof (rebuilt_sizes
    (set_logoOverlay (centred <$> logoOverlay s1')
       (set_canvas (Some (mkCanvas (Zfloor W) (Zfloor H) (opacity (detached c))
                            (parentNode (detached c)) (pattern (detached c)))) s1'))
    g0 (Zfloor W) (Zfloor H)) as Hsz.
  cbv zeta in Hsz. rewrite Hn0 in Hsz.
  change (framebuffers (set_logoOverlay _ _)) with (framebuffers s1') in Hsz.
  change (textures (set_logoOverlay _ _)) with (textures s1') in Hsz.
  destruct Hsz as (HzA & HzP & HzB).
  destruct (release_frame (textures s1') (framebuffers s1')
              (WebGL.set_canvasPixels (Black (Zfloor W) (Zfloor H)) (destroyed s g)))
    as (_ & _ & _ & _ & dels & Hlog & Hdels).
  fold g0 in Hlog.
  match type of Hrs with _ = Return tt ?x => set (s2 := x) in * end.
  exists s1, s2, (Calls.allocate (Zfloor W) (Zfloor H) g0), dels.
  split; [reflexivity|]. split; [exact Hl|]. split; [rewrite Hre; exact Hrs|].
  split; [reflexivity|]. split; [reflexivity|].
  unfold target_size. rewrite HzA, HzP, HzB.
  do 3 (split; [reflexivity|]).
  split; [|exact Hdels].
  unfold new_calls, calls. rewrite Hg1.
  change (gl s2) with (Some (Calls.allocate (Zfloor W) (Zfloor H) g0)).
  rewrite allocate_eq. cbv zeta. gl_fields. rewrite Hlog, Hn0.
  change (WebGL.log (WebGL.set_canvasPixels _ (destroyed s g)))
    with (WebGL.log (destroyed s g)).
  rewrite <- app_assoc, drop_app_length. reflexivity.
Qed.

Lemma tiny_listening : resizeListening (page tiny) = true.
Proof. vm_compute. reflexivity. Qed.

Lemma destroy_then_resize_reallocates_witness :
  ∃ s1 s2,
    destroy tiny = Return tt s1 ∧ resizeEvent 8 6 s1 = Return tt s2 ∧
    isRunning s2 = false ∧
    target_size s2 "bufferA" = Some (8, 6) ∧ target_size s2 "bufferB" = Some (2, 2).
Proof.
  assert (¬ (width (mkCanvas 4 3 1 true false) = Zfloor 8 ∧
             height (mkCanvas 4 3 1 true false) = Zfloor 6)) as Hne
    by (rewrite !ZfloorZ; cbn [width height]; lia).
  destruct (destroy_then_resize_reallocates 8 6 tiny _ _
              (ready_canvas _ _ _ _ _ _ _ _ _ _ _ _ tiny_ready)
              (ready_gl _ _ _ _ _ _ _ _ _ _ _ _ tiny_ready)
              (steady_transitioning _ _ _ _ _ _ _ _ _ _ _ _ tiny_steady)
              tiny_listening Hne)
    as (s1 & s2 & g2 & dels & Hrun1 & _ & Hrun2 & Hr & _ & HA & _ & HB & _).
  exists s1, s2. split; [exact Hrun1|]. split; [exact Hrun2|]. split; [exact Hr|].
  rewrite !ZfloorZ in HA, HB. split; [exact HA | exact HB].
Defined.

(** X18 (handleResize, startRenderLoop): a rebuild restarts the
    feedback but not the clock or the frame index.  In the first tick
    after a resize to a new size, Pass A samples an all-black history
    of the new size, while its iFrame is the frame counter from before
    the resize and its iTime is still measured from the original
    [startTime]. *)
Theorem resize_resets_history (s : ShaderLoader) (c : Canvas) (g : WebGL.GL)
    (tA tB tP fA fB fP pA pB pI : nat) (t1 t2 t3 : R) :
  Steady s c g tA tB tP fA fB fP pA pB pI →
  let w := Zfloor (innerWidth (page s)) in
  let h := Zfloor (innerHeight (page s)) in
  ¬ (width c = w ∧ height c = h) →
  ∃ s1 s2 u,
    handleResize s = Return tt s1 ∧
    loop t1 t2 t3 s1 = Return tt s2 ∧
    target_pixels s2 "bufferA" = Some (Shaded BufferAShader u [Some (Black w h)] (w, h)) ∧
    target_pixels s2 "bufferAPrev" = target_pixels s2 "bufferA" ∧
    iFrame u = frameCount s ∧ iResolution u = (w, h) ∧
    iTime u = ((t1 - startTime s) / 1000)%R ∧
    frameCount s2 = frameCount s + 1.
Proof.
  intros HS w h Hne.
  destruct (rebuild_steady _ _ _ _ _ _ _ _ _ _ _ _ HS Hne)
    as (s1 & g1 & Hrun & HS1 & Hfc & _ & Hst & _ & _ & _ & _ & _ & HP & _).
  fold w h in HS1, HP.
  pose proof (steady_ready _ _ _ _ _ _ _ _ _ _ _ _ HS1) as HR1.
  pose proof (steady_running _ _ _ _ _ _ _ _ _ _ _ _ HS1) as Hr1.
  destruct (ready_uA _ _ _ _ _ _ _ _ _ _ _ _ HR1) as [u Hu].
  destruct (loop_feedback s1 _ g1 _ _ _ _ _ _ _ _ _ u (Black w h) t1 t2 t3 HR1 Hr1 Hu HP)
    as (s2 & Hloop & HA2 & HP2).
  destruct (loop_effect s1 _ g1 _ _ _ _ _ _ _ _ _ t1 t2 t3 HR1 Hr1)
    as (g2 & xP & kA & kB & Heff). cbv zeta in Heff.
  destruct Heff as (Hloop' & _).
  rewrite Hloop in Hloop'. injection Hloop' as Hs2.
  eexists s1, s2, _. split; [exact Hrun|]. split; [exact Hloop|].
  split; [exact HA2|]. split; [rewrite HP2, HA2; reflexivity|].
  unfold passUniforms. cbn [iFrame iResolution iTime width height].
  rewrite Hfc, Hst. repeat (split; [reflexivity|]).
  rewrite Hs2. js_fields. rewrite Hfc. reflexivity.
Qed.

Lemma resize_resets_history_witness :
  ∃ s1 s2 u,
    handleResize (set_page (set_window 8 6 (page tiny)) tiny) = Return tt s1 ∧
    loop 16 16 16 s1 = Return tt s2 ∧
    target_pixels s2 "bufferA" = Some (Shaded BufferAShader u [Some (Black 8 6)] (8, 6)) ∧
    iFrame u = 0.
Proof.
  destruct (resize_resets_history _ _ _ _ _ _ _ _ _ _ _ _ 16 16 16
              resized_steady resized_differs)
    as (s1 & s2 & u & Hrun & Hloop & HA & _ & Hf & _).
  destruct resized_window as [Hw Hh]. rewrite Hw, Hh in HA.
  exists s1, s2, u. split; [exact Hrun|]. split; [exact Hloop|]. split; [exact HA|].
  rewrite Hf. exact resized_frameCount.
Defined.


(** ** Locking and unlocking the scroll position *)

(** X19 (lockScroll, unlockScroll, preventScroll): the round trip of
    the scroll lock.  [lockScroll] saves the first non-zero of
    [window.scrollY] and [window.pageYOffset] (0 if there is none)
    and, while the loader runs, has touchmove and wheel events
    default-prevented (once [isRunning] is false no event is
    prevented, registered or not).  [unlockScroll] after it scrolls the window back
    to the saved offset, by one call, exactly when that offset is not
    0, removes both listeners and leaves all six inline styles empty:
    the document is as it was before the lock exactly when it carried
    none of these inline styles and listeners then.  The saved offset
    is not cleared, so a second [unlockScroll] scrolls there again. *)
Theorem unlockScroll_after_lockScroll (window_scrollY window_pageYOffset : option R)
    (st : Scroll.State) :
  let y := Scroll.or_else window_scrollY (Scroll.or_else window_pageYOffset 0) in
  let locked := Scroll.lockScroll window_scrollY window_pageYOffset st in
  let st1 := Scroll.unlockScroll locked in
  let st2 := Scroll.unlockScroll st1 in
  let before := Scroll.scrolledTo (Scroll.document st) in
  (y = 0%R ↔ (window_scrollY = None ∨ window_scrollY = Some 0%R) ∧
             (window_pageYOffset = None ∨ window_pageYOffset = Some 0%R)) ∧
  (∀ v, window_scrollY = Some v → v ≠ 0%R → y = v) ∧
  Scroll.body_top (Scroll.document locked) = Scroll.MinusPx y ∧
  Scroll.prevented (Scroll.touchmove (Scroll.document locked)) true = true ∧
  Scroll.prevented (Scroll.wheel (Scroll.document locked)) true = true ∧
  (∀ registered, Scroll.prevented registered false = false) ∧
  Scroll.scrolledTo (Scroll.document locked) = before ∧
  Scroll.styles (Scroll.document st1) = Scroll.unstyled ∧
  (Scroll.styles (Scroll.document st1) = Scroll.styles (Scroll.document st) ↔
   Scroll.styles (Scroll.document st) = Scroll.unstyled) ∧
  Scroll.prevented (Scroll.touchmove (Scroll.document st1)) true = false ∧
  Scroll.prevented (Scroll.wheel (Scroll.document st1)) true = false ∧
  (y = 0%R → Scroll.scrolledTo (Scroll.document st1) = before ∧
             Scroll.scrolledTo (Scroll.document st2) = before) ∧
  (y ≠ 0%R → Scroll.scrolledTo (Scroll.document st1) = (before ++ [y])%list ∧
             Scroll.scrolledTo (Scroll.document st2) = (before ++ [y; y])%list).
Proof.
  cbv zeta.
  set (y := Scroll.or_else window_scrollY (Scroll.or_else window_pageYOffset 0)).
  split.
  { subst y. unfold Scroll.or_else.
    destruct window_scrollY as [v|], window_pageYOffset as [u|];
      repeat destruct (Req_dec_T _ _); subst; split;
      try (intros [[?|?] [?|?]]); try intros ->; try intros ?;
      try congruence; try lra; try (split; auto; fail);
      try (exfalso; congruence).
    all: try match goal with H : Some _ = Some _ |- _ => injection H as ?; subst; lra end. }
  split.
  { intros v -> Hv. subst y. unfold Scroll.or_else.
    destruct (Req_dec_T v 0); [contradiction | reflexivity]. }
  unfold Scroll.unlockScroll, Scroll.lockScroll, Scroll.styles, Scroll.unstyled,
    Scroll.prevented, Scroll.preventScroll.
  cbn [Scroll.scrollY Scroll.document Scroll.body_overflow Scroll.body_touchAction
       Scroll.html_overflow Scroll.body_position Scroll.body_top Scroll.body_width
       Scroll.touchmove Scroll.wheel Scroll.scrolledTo].
  fold y.
  do 3 (split; [reflexivity|]).
  split; [intros []; reflexivity|].
  do 2 (split; [reflexivity|]).
  split; [split; intros Heq; [symmetry; exact Heq | rewrite Heq; reflexivity]|].
  do 2 (split; [reflexivity|]).
  destruct (Req_dec_T y 0) as [Hy|Hy].
  - split; [split; reflexivity | contradiction].
  - split; [contradiction|]. intros _. split; [reflexivity|].
    rewrite <- app_assoc. reflexivity.
Qed.
